(** * A poll(2)-driven TLS echo server: the connection buffer, the per
      connection state machine and the accept path of [src/ex2/echo.c].

    The C program is embedded shallowly.  Pointers into [client.buf] are
    kept as integer offsets from [client->buf]; the bytes of the array are
    a list; the outside world (libtls, the socket calls) is a queue of
    replies that the program consumes, and every call it makes is logged. *)

From Stdlib Require Import ZArith Lia Bool.
From stdpp Require Import base tactics option list strings.

Local Open Scope Z_scope.

(** ** Constants of the program and of the headers it includes *)

Definition MAX_CONNECTIONS : Z := 256.
Definition BUFLEN : Z := 4096.

Definition STATE_READING : Z := 0.
Definition STATE_WRITING : Z := 1.

(** <poll.h> *)
Definition POLLIN : Z := 1.
Definition POLLOUT : Z := 4.
Definition POLLERR : Z := 8.
Definition POLLHUP : Z := 16.
Definition POLLNVAL : Z := 32.

(** <tls.h> *)
Definition TLS_WANT_POLLIN : Z := -2.
Definition TLS_WANT_POLLOUT : Z := -3.

(** [(size_t)e] on a 64-bit target. *)
Definition to_size_t (z : Z) : Z := z mod 2 ^ 64.

(** ** The connection buffer *)

Module Buffer.

(** [struct client].  [readptr], [writeptr] and [nextptr] are offsets from
    [buf]; [ctx] is an opaque handle. *)
Record client : Type := Client {
  state : Z;
  readptr : Z;
  writeptr : Z;
  nextptr : Z;
  buf : list Byte.byte;
  ctx : Z
}.

Definition set_state (v : Z) (c : client) : client :=
  Client v (readptr c) (writeptr c) (nextptr c) (buf c) (ctx c).
Definition set_readptr (v : Z) (c : client) : client :=
  Client (state c) v (writeptr c) (nextptr c) (buf c) (ctx c).
Definition set_writeptr (v : Z) (c : client) : client :=
  Client (state c) (readptr c) v (nextptr c) (buf c) (ctx c).
Definition set_nextptr (v : Z) (c : client) : client :=
  Client (state c) (readptr c) (writeptr c) v (buf c) (ctx c).
Definition set_buf (v : list Byte.byte) (c : client) : client :=
  Client (state c) (readptr c) (writeptr c) (nextptr c) v (ctx c).

(** [*p] for [p = buf + off]: defined inside the array only.  Outside
    it the C program reads whatever lies next to [buf] in memory; the
    model gives that read no value, so a run that makes it ends there
    ([None], [Fault]) and says nothing about what follows. *)
Definition load (b : list Byte.byte) (off : Z) : option Byte.byte :=
  if off <? 0 then None else b !! Z.to_nat off.

(** [*p = v] for [p = buf + off]: defined inside the array only. *)
Definition store (b : list Byte.byte) (off : Z) (v : Byte.byte)
  : option (list Byte.byte) :=
  if (0 <=? off) && (off <? Z.of_nat (length b))
  then Some (<[Z.to_nat off := v]> b) else None.

(** [p++] followed by
    [if ((size_t)(p - client->buf) >= sizeof(client->buf)) p = client->buf]. *)
Definition bump (p : Z) : Z :=
  if BUFLEN <=? to_size_t (p + 1) then 0 else p + 1.

(** [client_init] *)
Definition client_init (c : client) (tls : Z) : client :=
  Client STATE_READING 0 0 0 (buf c) tls.

(** The [while (n < len)] loop of [client_consume]; [k] counts the
    iterations that [n < len] still allows, the count [n] is returned. *)
Fixpoint consume_loop (k : nat) (c : client) (n : Z) : client * Z :=
  match k with
  | O => (c, n)
  | S k' =>
      if readptr c =? nextptr c then (c, n)
      else consume_loop k' (set_readptr (readptr c + 1) c) (n + 1)
  end.

Definition client_consume (c : client) (len : Z) : client * Z :=
  consume_loop (Z.to_nat len) c 0.

(** The loop of [client_get]; the local [nextptr] is [p], the bytes
    written through [outbuf] are returned (their number is [n]).  [None]:
    the loop read outside [buf]. *)
Fixpoint get_loop (k : nat) (c : client) (p : Z)
  : option (client * list Byte.byte) :=
  match k with
  | O => Some (c, [])
  | S k' =>
      if p =? writeptr c then Some (c, [])
      else
        match load (buf c) p with
        | None => None
        | Some b =>
            match get_loop k' (set_nextptr (bump p) c) (bump p) with
            | None => None
            | Some (c', out) => Some (c', b :: out)
            end
        end
  end.

Definition client_get (c : client) (outlen : Z)
  : option (client * list Byte.byte) :=
  get_loop (Z.to_nat outlen) c (readptr c).

(** The loop of [client_put]; the local [nextptr] is [p], [inbuf] is what
    is left of the caller's bytes.  [None]: the loop read past [inbuf] or
    wrote outside [buf]. *)
Fixpoint put_loop (k : nat) (c : client) (p : Z) (inbuf : list Byte.byte)
  (n : Z) : option (client * Z) :=
  match k with
  | O => Some (c, n)
  | S k' =>
      let prevptr := p in
      if bump p =? readptr c then Some (c, n)
      else
        match inbuf with
        | [] => None
        | b :: inbuf' =>
            match store (buf c) prevptr b with
            | None => None
            | Some m =>
                put_loop k' (set_writeptr (bump p) (set_buf m c))
                  (bump p) inbuf' (n + 1)
            end
        end
  end.

Definition client_put (c : client) (inbuf : list Byte.byte) (inlen : Z)
  : option (client * Z) :=
  put_loop (Z.to_nat inlen) c (writeptr c) inbuf 0.

(** Cursors that point into the array. *)
Definition in_buf (p : Z) : Prop := 0 <= p < BUFLEN.

Definition used (c : client) : Z := (writeptr c - readptr c) mod BUFLEN.
Definition free (c : client) : Z := (readptr c - writeptr c - 1) mod BUFLEN.

(** What a run of the [client_get] loop from [p] that copied [out] leaves
    in the client: [client->nextptr] is assigned once per byte copied. *)
Definition peeked (c : client) (p : Z) (out : list Byte.byte) : client :=
  match out with
  | [] => c
  | _ :: _ => set_nextptr ((p + Z.of_nat (length out)) mod BUFLEN) c
  end.

(** The read-out as the specification words it: the copy starts at the
    peek cursor and moves it on by the count copied. *)
Definition peek_out_spec (c : client) (max : Z)
  : option (client * list Byte.byte) :=
  get_loop (Z.to_nat max) c (nextptr c).

(** A caller of the three operations: [Put] hands bytes to [client_put],
    [Drain] is [client_get] followed by [client_consume] of the count it
    returned, [Consume] is a bare [client_consume]. *)
Inductive op : Type :=
| Put (data : list Byte.byte)
| Drain (max : Z)
| Consume (n : Z).

(** The client together with the totals a caller can observe. *)
Record tally : Type := Tally {
  cl : client;
  total_put : Z;
  total_consumed : Z;
  drained : list Byte.byte
}.

Definition step (t : tally) (o : op) : option tally :=
  match o with
  | Put data =>
      match client_put (cl t) data (Z.of_nat (length data)) with
      | None => None
      | Some (c', n) =>
          Some (Tally c' (total_put t + n) (total_consumed t) (drained t))
      end
  | Drain max =>
      match client_get (cl t) max with
      | None => None
      | Some (c1, out) =>
          let (c2, n) := client_consume c1 (Z.of_nat (length out)) in
          Some (Tally c2 (total_put t) (total_consumed t + n)
                  (drained t ++ out))
      end
  | Consume len =>
      let (c', n) := client_consume (cl t) len in
      Some (Tally c' (total_put t) (total_consumed t + n) (drained t))
  end.

Fixpoint exec (ops : list op) (t : tally) : option tally :=
  match ops with
  | [] => Some t
  | o :: ops' =>
      match step t o with
      | None => None
      | Some t' => exec ops' t'
      end
  end.

(** A connection as [client_init] leaves it, over a zeroed array. *)
Definition fresh : client :=
  client_init (Client 0 0 0 0 (replicate (Z.to_nat BUFLEN) Byte.x00) 0) 7.

Definition start : tally := Tally fresh 0 0 [].

(** [BUFLEN - 1] bytes fill the buffer, one more byte takes the write
    cursor round the end of the array. *)
Definition round_trip : list op :=
  [Put (replicate 4095 Byte.x61); Drain BUFLEN; Put [Byte.x62]; Drain BUFLEN].

(** Where the three cursors stand, over an array of the right size. *)
Definition cursors (c : client) (r w p : Z) : Prop :=
  readptr c = r /\ writeptr c = w /\ nextptr c = p /\
  Z.of_nat (length (buf c)) = BUFLEN.

(** The buffer that holds [ab] and has handed out [a]. *)
Definition half_peeked : client :=
  Client STATE_WRITING 0 2 1
    (Byte.x61 :: Byte.x62 :: replicate 4094 Byte.x00) 7.

End Buffer.

(** ** The outside world, and the program's calls into it *)

Module Server.
Import Buffer.

(** [struct pollfd] *)
Record pollfd : Type := Pollfd {
  fd : Z;
  events : Z;
  revents : Z
}.

Definition set_events (v : Z) (p : pollfd) : pollfd :=
  Pollfd (fd p) v (revents p).
Definition set_revents (v : Z) (p : pollfd) : pollfd :=
  Pollfd (fd p) (events p) v.

(** What a call into libtls or the kernel answers: a plain return value;
    for [tls_read] the return value and the bytes it left in the caller's
    buffer; for [tls_accept_socket] the return value and the new context;
    for [poll] the return value and the [revents] of every slot. *)
Inductive reply : Type :=
| R_int (r : Z)
| R_read (r : Z) (data : list Byte.byte)
| R_accept_socket (r : Z) (cctx : Z)
| R_poll (r : Z) (revs : list Z).

(** The calls the program makes, with their arguments and answers. *)
Inductive event : Type :=
| E_tls_read (tls : Z) (len : Z) (r : Z)
| E_tls_write (tls : Z) (data : list Byte.byte) (r : Z)
| E_tls_close (tls : Z) (r : Z)
| E_tls_free (tls : Z)
| E_close (d : Z)
| E_warn (msg : string)
| E_err (msg : string)
| E_accept (lfd : Z) (r : Z)
| E_tls_accept_socket (newfd : Z) (r : Z)
| E_fcntl_getfl (d : Z) (r : Z)
| E_fcntl_setfl (d : Z) (r : Z)
| E_poll (r : Z).

(** The global [throttle], the replies still to come, the calls made so
    far (oldest first). *)
Record sys : Type := Sys {
  throttle : Z;
  pending : list reply;
  trace : list event
}.

(** How a piece of the program ends: it returns, it exits the process
    ([err], [errx]), it touches memory outside an array, or the scripted
    replies end before the call it waits for is answered. *)
Inductive outcome (A : Type) : Type :=
| Done (a : A)
| Exit (code : Z)
| Fault
| Blocked.
Arguments Done {A} a.
Arguments Exit {A} code.
Arguments Fault {A}.
Arguments Blocked {A}.

Definition M (A : Type) : Type := sys -> outcome A * sys.

#[global] Instance M_ret : MRet M := fun A a s => (Done a, s).
#[global] Instance M_bind : MBind M := fun A B f m s =>
  match m s with
  | (Done a, s') => f a s'
  | (Exit code, s') => (Exit code, s')
  | (Fault, s') => (Fault, s')
  | (Blocked, s') => (Blocked, s')
  end.

Definition fault {A} : M A := fun s => (Fault, s).
Definition exit {A} (code : Z) : M A := fun s => (Exit code, s).
Definition emit (e : event) : M unit :=
  fun s => (Done tt, Sys (throttle s) (pending s) (trace s ++ [e])).
Definition set_throttle (v : Z) : M unit :=
  fun s => (Done tt, Sys v (pending s) (trace s)).

(** A call answered by a plain integer. *)
Definition call_int (e : Z -> event) : M Z := fun s =>
  match pending s with
  | R_int r :: q => (Done r, Sys (throttle s) q (trace s ++ [e r]))
  | _ => (Blocked, s)
  end.

Definition tls_read (tls len : Z) : M (Z * list Byte.byte) := fun s =>
  match pending s with
  | R_read r data :: q =>
      (Done (r, data), Sys (throttle s) q (trace s ++ [E_tls_read tls len r]))
  | _ => (Blocked, s)
  end.

Definition tls_write (tls : Z) (data : list Byte.byte) : M Z :=
  call_int (E_tls_write tls data).
Definition tls_close (tls : Z) : M Z := call_int (E_tls_close tls).
Definition tls_free (tls : Z) : M unit := emit (E_tls_free tls).
Definition close (d : Z) : M unit := emit (E_close d).
Definition warn (msg : string) : M unit := emit (E_warn msg).
Definition err {A} (code : Z) (msg : string) : M A :=
  emit (E_err msg) ≫= fun _ => exit code.
Definition accept (lfd : Z) : M Z := call_int (E_accept lfd).
Definition fcntl_getfl (d : Z) : M Z := call_int (E_fcntl_getfl d).
Definition fcntl_setfl (d : Z) : M Z := call_int (E_fcntl_setfl d).

Definition tls_accept_socket (newfd : Z) : M (Z * Z) := fun s =>
  match pending s with
  | R_accept_socket r cctx :: q =>
      (Done (r, cctx),
       Sys (throttle s) q (trace s ++ [E_tls_accept_socket newfd r]))
  | _ => (Blocked, s)
  end.

Definition is_want (i : Z) : bool :=
  (i =? TLS_WANT_POLLIN) || (i =? TLS_WANT_POLLOUT).

(** [do i = tls_close(ctx); while (i == TLS_WANT_POLLIN || i ==
    TLS_WANT_POLLOUT)].  Every round takes one reply, so [k] rounds are
    enough for a script of [k] replies. *)
Fixpoint close_retry (k : nat) (tls : Z) : M unit :=
  match k with
  | O => fun s => (Blocked, s)
  | S k' =>
      i ← tls_close tls;
      if is_want i then close_retry k' tls else mret tt
  end.

(** [closeconn] *)
Definition closeconn (pfd : pollfd) (c : client) : M pollfd := fun s =>
  (close_retry (length (pending s)) (ctx c) ≫= fun _ =>
   tls_free (ctx c) ≫= fun _ =>
   close (fd pfd) ≫= fun _ =>
   set_throttle 0 ≫= fun _ =>
   mret (Pollfd (-1) (events pfd) 0)) s.

(** [newconn] *)
Definition newconn (pfd : pollfd) (newfd : Z) : M pollfd :=
  sflags ← fcntl_getfl newfd;
  if sflags <? 0 then err 1 "fcntl failed"
  else
    r ← fcntl_setfl newfd;
    if r <? 0 then err 1 "fcntl failed"
    else mret (Pollfd newfd (Z.lor POLLIN POLLHUP) 0).

(** The [STATE_READING] branch of [handle_client]. *)
Definition handle_reading (pfd : pollfd) (c : client) : M (pollfd * client) :=
  '(len, scratch) ← tls_read (ctx c) BUFLEN;
  if len =? TLS_WANT_POLLIN then
    mret (set_events (Z.lor POLLIN POLLHUP) pfd, c)
  else if len =? TLS_WANT_POLLOUT then
    mret (set_events (Z.lor POLLOUT POLLHUP) pfd, c)
  else if len <? 0 then
    warn "tls_read" ≫= fun _ => mret (pfd, c)
  else if len =? 0 then
    pfd' ← closeconn pfd c; mret (pfd', c)
  else
    match client_put c scratch len with
    | None => fault
    | Some (c', n) =>
        if negb (n =? len) then
          warn "client buffer failed" ≫= fun _ =>
          pfd' ← closeconn pfd c'; mret (pfd', c')
        else
          mret (set_events (Z.lor POLLOUT POLLHUP) pfd,
                set_state STATE_WRITING c')
    end.

(** The [STATE_WRITING] branch of [handle_client]. *)
Definition handle_writing (pfd : pollfd) (c : client) : M (pollfd * client) :=
  match client_get c BUFLEN with
  | None => fault
  | Some (c1, out) =>
      let len := Z.of_nat (length out) in
      '(pfd2, c2, ret) ←
        (if negb (len =? 0) then
           ret ← tls_write (ctx c1) out;
           if ret =? TLS_WANT_POLLIN then
             mret (set_events (Z.lor POLLIN POLLHUP) pfd, c1, ret)
           else if ret =? TLS_WANT_POLLOUT then
             mret (set_events (Z.lor POLLOUT POLLHUP) pfd, c1, ret)
           else if ret <? 0 then
             warn "tls_write" ≫= fun _ => mret (pfd, c1, ret)
           else
             mret (pfd, fst (client_consume c1 ret), ret)
         else mret (pfd, c1, 0));
      if ret =? len then
        mret (set_events (Z.lor POLLIN POLLHUP) pfd2,
              set_state STATE_READING c2)
      else mret (pfd2, c2)
  end.

(** [handle_client] *)
Definition handle_client (pfd : pollfd) (c : client) : M (pollfd * client) :=
  if negb (Z.land (revents pfd) (Z.lor POLLERR POLLNVAL) =? 0) then
    err 1 "bad fd"
  else if negb (Z.land (revents pfd) POLLHUP =? 0) then
    pfd' ← closeconn pfd c; mret (pfd', c)
  else if negb (Z.land (revents pfd) (events pfd) =? 0) then
    if state c =? STATE_READING then handle_reading pfd c
    else if state c =? STATE_WRITING then handle_writing pfd c
    else mret (pfd, c)
  else mret (pfd, c).

(** ** The dispatcher: the body of [while (1)] in [main] *)

(** The global arrays [clients] and [pollfds]. *)
Record table : Type := Table {
  clients : list client;
  pollfds : list pollfd
}.

(** [if (!throttle) pollfds[0].events = POLLIN | POLLHUP; else
    pollfds[0].events = 0;] *)
Definition listen_events (thr : Z) : Z :=
  if thr =? 0 then Z.lor POLLIN POLLHUP else 0.

Definition arm_listener (g : table) : M table := fun s =>
  match pollfds g !! 0%nat with
  | None => (Fault, s)
  | Some l =>
      (Done (Table (clients g)
               (<[0%nat := set_events (listen_events (throttle s)) l]>
                  (pollfds g))), s)
  end.

(** [poll(pollfds, MAX_CONNECTIONS, -1)]: the kernel fills in every
    [revents]; [-1] ends the process. *)
Definition poll (g : table) : M table := fun s =>
  match pending s with
  | R_poll r revs :: q =>
      let s' := Sys (throttle s) q (trace s ++ [E_poll r]) in
      if r =? -1 then err 1 "poll failed" s'
      else if negb (length revs =? length (pollfds g))%nat then (Blocked, s)
      else (Done (Table (clients g) (zip_with set_revents revs (pollfds g))),
            s')
  | _ => (Blocked, s)
  end.

(** The body of [if (pollfds[i].fd == -1)] in the slot scan: slot [i],
    holding [p], is free and [newfd] was accepted. *)
Definition claim_slot (i : Z) (p : pollfd) (newfd : Z) (g : table) : M table :=
  set_throttle 0 ≫= fun _ =>
  '(r, cctx) ← tls_accept_socket newfd;
  if r =? -1 then
    warn "tls accept failed" ≫= fun _ =>
    close newfd ≫= fun _ => mret g
  else
    p' ← newconn p newfd;
    match clients g !! Z.to_nat i with
    | None => fault
    | Some c =>
        mret (Table (<[Z.to_nat i := client_init c cctx]> (clients g))
                (<[Z.to_nat i := p']> (pollfds g)))
    end.

(** [for (i = ...; fd >= 0 && i < MAX_CONNECTIONS; i++)]: [k] bounds the
    slots still to look at; both exits of the body [break]. *)
Fixpoint scan (k : nat) (i : Z) (newfd : Z) (g : table) : M table :=
  match k with
  | O => mret g
  | S k' =>
      if (0 <=? newfd) && (i <? MAX_CONNECTIONS) then
        match pollfds g !! Z.to_nat i with
        | None => fault
        | Some p =>
            if fd p =? -1 then claim_slot i p newfd g
            else scan k' (i + 1) newfd g
        end
      else mret g
  end.

(** The body of [if (pollfds[0].revents)]. *)
Definition accept_conn (g : table) : M table :=
  match pollfds g !! 0%nat with
  | None => fault
  | Some l =>
      newfd ← accept (fd l);
      set_throttle 1 ≫= fun _ =>
      scan (Z.to_nat (MAX_CONNECTIONS - 1)) 1 newfd g
  end.

(** [handle_client(&pollfds[i], &clients[i])] *)
Definition handle_client_at (i : nat) (g : table) : M table :=
  match pollfds g !! i, clients g !! i with
  | Some p, Some c =>
      '(p', c') ← handle_client p c;
      mret (Table (<[i := c']> (clients g)) (<[i := p']> (pollfds g)))
  | _, _ => fault
  end.

(** [for (i = 1; i < MAX_CONNECTIONS; i++) handle_client(...)] *)
Fixpoint handle_from (k : nat) (i : nat) (g : table) : M table :=
  match k with
  | O => mret g
  | S k' => g' ← handle_client_at i g; handle_from k' (S i) g'
  end.

(** One turn of the [while (1)] loop. *)
Definition loop_body (g : table) : M table :=
  g1 ← arm_listener g;
  g2 ← poll g1;
  g3 ← match pollfds g2 !! 0%nat with
       | None => fault
       | Some l => if negb (revents l =? 0) then accept_conn g2 else mret g2
       end;
  handle_from (Z.to_nat (MAX_CONNECTIONS - 1)) 1 g3.

(** The dispatcher polls and then calls [handle_client] on the slot: one
    readiness notification [rev] for a connection, and a run of them. *)
Definition notify (rev : Z) (pc : pollfd * client) : M (pollfd * client) :=
  handle_client (set_revents rev (fst pc)) (snd pc).

Fixpoint notify_all (revs : list Z) (pc : pollfd * client)
  : M (pollfd * client) :=
  match revs with
  | [] => mret pc
  | rev :: revs' => pc' ← notify rev pc; notify_all revs' pc'
  end.

(** A notification that reaches the state machine proper: no error bit,
    no hangup, and one of the requested events [ev]. *)
Definition ready (ev rev : Z) : Prop :=
  Z.land rev (Z.lor POLLERR POLLNVAL) = 0 /\
  Z.land rev POLLHUP = 0 /\
  Z.land rev ev <> 0.

(** Slot [i] of the table is a free connection slot. *)
Definition free_slot (g : table) (i : Z) : Prop :=
  1 <= i < MAX_CONNECTIONS /\
  exists p, pollfds g !! Z.to_nat i = Some p /\ fd p = -1.

(** The [tls_write] calls of an echo of [data] confirmed in steps [ks]:
    every call offers all that is left. *)
Fixpoint write_events (tls : Z) (data : list Byte.byte) (ks : list Z)
  : list event :=
  match ks with
  | [] => []
  | k :: ks' =>
      E_tls_write tls data k :: write_events tls (drop (Z.to_nat k) data) ks'
  end.

Fixpoint sum_list (ks : list Z) : Z :=
  match ks with
  | [] => 0
  | k :: ks' => k + sum_list ks'
  end.

(** What one call of [handle_client] did to the slot [pfd] and to the
    throttle [thr]: it did not exit; the descriptor and the throttle are
    as they were, or the connection was closed, which frees the slot and
    clears the throttle. *)
Definition settled (pfd : pollfd) (thr : Z)
  (r : outcome (pollfd * client) * sys) : Prop :=
  match fst r with
  | Done (p', _) =>
      (throttle (snd r) = thr /\ fd p' = fd pfd) \/
      (throttle (snd r) = 0 /\ fd p' = -1 /\ revents p' = 0)
  | Exit _ => False
  | Fault | Blocked => throttle (snd r) = thr
  end.

(** The connection slots [i], ..., [j - 1] are all taken. *)
Definition occupied (g : table) (i j : Z) : Prop :=
  forall j', i <= j' < j ->
    exists p, pollfds g !! Z.to_nat j' = Some p /\ fd p <> -1.

(** Slot [j], holding [p], is the first free connection slot. *)
Definition first_free (g : table) (j : Z) (p : pollfd) : Prop :=
  1 <= j < MAX_CONNECTIONS /\ occupied g 1 j /\
  pollfds g !! Z.to_nat j = Some p /\ fd p = -1.

(** A connection while the echo of the [N] bytes [data], stored from
    offset [o] on, is under way: [sent] bytes are confirmed, the rest
    lies between the read and the write cursor. *)
Definition echoing (N o : Z) (data : list Byte.byte) (c : client)
  (sent : Z) : Prop :=
  state c = STATE_WRITING /\
  Z.of_nat (length (buf c)) = BUFLEN /\
  readptr c = o + sent /\ writeptr c = o + N /\
  forall i, 0 <= i < N -> load (buf c) (o + i) = data !! Z.to_nat i.

(** *** Sample states *)

(** The slot of a connection on descriptor 5, as [newconn] leaves it. *)
Definition slot5 : pollfd := Pollfd 5 (Z.lor POLLIN POLLHUP) 0.

(** The same slot once the connection is in [STATE_WRITING]. *)
Definition slot5_out : pollfd := Pollfd 5 (Z.lor POLLOUT POLLHUP) 0.

(** A connection in [STATE_WRITING] with nothing buffered. *)
Definition idle_writer : client := set_state STATE_WRITING fresh.

(** No reply scripted, nothing logged, throttle clear. *)
Definition quiet : sys := Sys 0 [] [].

Definition hello : list Byte.byte :=
  [Byte.x68; Byte.x65; Byte.x6c; Byte.x6c; Byte.x6f].

(** The listening slot (descriptor 3, readable) and the table right after
    start-up: every connection slot free. *)
Definition listener : pollfd := Pollfd 3 (Z.lor POLLIN POLLHUP) POLLIN.
Definition free_pfd : pollfd := Pollfd (-1) (Z.lor POLLIN POLLHUP) 0.
Definition empty_table : table :=
  Table (replicate 256 fresh) (listener :: replicate 255 free_pfd).

(** The same table with a connection on descriptor 5 in slot 1, and
    [revents] as given. *)
Definition one_conn (rev : Z) : table :=
  Table (replicate 256 fresh)
    (listener :: set_revents rev slot5 :: replicate 254 free_pfd).

(** *** Start-up of the table *)

(** [for (i = 0; i < MAX_CONNECTIONS; i++)] with the three assignments
    [pollfds[i].fd = -1; pollfds[i].events = POLLIN | POLLHUP;
    pollfds[i].revents = 0;] of [main]; [k] counts the entries left. *)
Fixpoint init_from (k : nat) (i : nat) (pfds : list pollfd) : list pollfd :=
  match k with
  | O => pfds
  | S k' =>
      init_from k' (S i) (<[i := Pollfd (-1) (Z.lor POLLIN POLLHUP) 0]> pfds)
  end.

Definition init_pollfds (pfds : list pollfd) : list pollfd :=
  init_from (Z.to_nat MAX_CONNECTIONS) 0 pfds.

(** What [main] does to the table before it enters [while (1)]: the loop
    above and, once [socket], [bind], [listen] and [setsockopt] have
    produced [listenfd], [newconn(&pollfds[0], listenfd)]. *)
Definition start_polling (g : table) (listenfd : Z) : M table :=
  let pfds := init_pollfds (pollfds g) in
  match pfds !! 0%nat with
  | None => fault
  | Some l =>
      p ← newconn l listenfd;
      mret (Table (clients g) (<[0%nat := p]> pfds))
  end.

(** A table with a connection in every slot: slot [n + 1] holds
    descriptor [n + 4]. *)
Definition busy_slot (n : nat) : pollfd :=
  Pollfd (Z.of_nat n + 4) (Z.lor POLLIN POLLHUP) 0.
Definition full_table : table :=
  Table (replicate 256 fresh) (listener :: map busy_slot (seq 0 255)).

(** The listening slot as [newconn] leaves it. *)
Definition listener0 : pollfd := Pollfd 3 (Z.lor POLLIN POLLHUP) 0.

(** *** Connections whose cursors are in the array *)

(** The cursors that [client_get] and [client_put] follow point into an
    array of [BUFLEN] bytes. *)
Definition in_range (c : client) : Prop :=
  Z.of_nat (length (buf c)) = BUFLEN /\
  in_buf (readptr c) /\ in_buf (writeptr c).

(** Every [tls_read] among the replies [q] leaves in the caller's buffer
    at least the bytes it reports. *)
Definition reads_filled (q : list reply) : Prop :=
  Forall (fun rp => match rp with
                    | R_read r data => r <= Z.of_nat (length data)
                    | _ => True
                    end) q.

(** The replies [q] let [closeconn] return: retry requests only, then an
    answer of [tls_close] that is none. *)
Definition closes (q : list reply) : Prop :=
  exists wants e q',
    q = map R_int wants ++ R_int e :: q' /\
    Forall (fun i => is_want i = true) wants /\ is_want e = false.

(** The replies [q] answer every call that [handle_client] can make for
    the notification in [p] to the connection [c]: [tls_close] after a
    hangup; [tls_read], and [tls_close] should the connection be closed,
    in [STATE_READING]; [tls_write] in [STATE_WRITING] unless nothing is
    buffered. *)
Definition answered (p : pollfd) (c : client) (q : list reply) : Prop :=
  if negb (Z.land (revents p) POLLHUP =? 0) then closes q
  else if negb (Z.land (revents p) (events p) =? 0) then
    if state c =? STATE_READING then
      exists r data q1,
        q = R_read r data :: q1 /\ r <= Z.of_nat (length data) /\ closes q1
    else if state c =? STATE_WRITING then
      readptr c = writeptr c \/ exists ret q1, q = R_int ret :: q1
    else True
  else True.

(** [handle_client] on the slots [js], one after the other. *)
Fixpoint handle_each (js : list nat) (g : table) : M table :=
  match js with
  | [] => mret g
  | j :: js' => g' ← handle_client_at j g; handle_each js' g'
  end.

(** The slots among [i], ..., [i + k - 1] of [pfds] whose [revents] is
    not 0, in slot order. *)
Fixpoint stirred (pfds : list pollfd) (k i : nat) : list nat :=
  match k with
  | O => []
  | S k' =>
      match pfds !! i with
      | Some p =>
          if revents p =? 0 then stirred pfds k' (S i)
          else i :: stirred pfds k' (S i)
      | None => i :: stirred pfds k' (S i)
      end
  end.

End Server.

(** * Properties *)

Import Buffer Server.

(** ** Cursor arithmetic *)

Section Cursors.

Lemma to_size_t_small z : 0 <= z < 2 ^ 64 -> to_size_t z = z.
Proof. intros H. unfold to_size_t. apply Z.mod_small. exact H. Qed.

Lemma bump_eq p : in_buf p -> bump p = if p + 1 =? BUFLEN then 0 else p + 1.
Proof.
  unfold in_buf, bump, BUFLEN. intros H.
  rewrite to_size_t_small by (change (2 ^ 64) with 18446744073709551616; lia).
  destruct (4096 <=? p + 1) eqn:E1, (p + 1 =? 4096) eqn:E2; lia.
Qed.

Lemma bump_mod p : in_buf p -> bump p = (p + 1) mod BUFLEN.
Proof.
  intros H. rewrite bump_eq by exact H. unfold in_buf, BUFLEN in *.
  destruct (p + 1 =? 4096) eqn:E.
  - apply Z.eqb_eq in E. rewrite E. reflexivity.
  - apply Z.eqb_neq in E. symmetry. apply Z.mod_small. lia.
Qed.

Lemma bump_in_buf p : in_buf p -> in_buf (bump p).
Proof.
  intros H. rewrite bump_eq by exact H. unfold in_buf, BUFLEN in *.
  destruct (p + 1 =? 4096) eqn:E; lia.
Qed.

Lemma load_in_buf b off :
  Z.of_nat (length b) = BUFLEN -> in_buf off -> is_Some (load b off).
Proof.
  unfold load, in_buf. intros Hl H.
  destruct (off <? 0) eqn:E; [lia|].
  apply lookup_lt_is_Some. lia.
Qed.

Lemma store_in_buf b off v :
  Z.of_nat (length b) = BUFLEN -> in_buf off ->
  store b off v = Some (<[Z.to_nat off := v]> b).
Proof.
  unfold store, in_buf. intros Hl H.
  destruct (0 <=? off) eqn:E1; [|lia].
  destruct (off <? Z.of_nat (length b)) eqn:E2; [reflexivity|lia].
Qed.

Lemma load_insert b off v off' :
  Z.of_nat (length b) = BUFLEN -> in_buf off -> in_buf off' ->
  load (<[Z.to_nat off := v]> b) off' =
  if off' =? off then Some v else load b off'.
Proof.
  unfold load, in_buf. intros Hl H H'.
  destruct (off' <? 0) eqn:E; [lia|].
  destruct (off' =? off) eqn:E2.
  - apply Z.eqb_eq in E2. subst off'. apply list_lookup_insert_eq. lia.
  - apply Z.eqb_neq in E2. apply list_lookup_insert_ne. lia.
Qed.

Lemma free_range c : 0 <= free c < BUFLEN.
Proof. unfold free, BUFLEN. Z.div_mod_to_equations. lia. Qed.

Lemma used_range c : 0 <= used c < BUFLEN.
Proof. unfold used, BUFLEN. Z.div_mod_to_equations. lia. Qed.

Lemma free_used c :
  in_buf (readptr c) -> in_buf (writeptr c) -> free c = BUFLEN - 1 - used c.
Proof.
  unfold free, used, in_buf, BUFLEN. intros Hr Hw.
  Z.div_mod_to_equations. lia.
Qed.

Lemma set_nextptr_twice u v c :
  set_nextptr u (set_nextptr v c) = set_nextptr u c.
Proof. reflexivity. Qed.

Lemma set_readptr_same c : set_readptr (readptr c) c = c.
Proof. destruct c; reflexivity. Qed.

End Cursors.

(** ** The three loops of the buffer *)

Section Loops.

(** [client_put] on a buffer whose cursors point into the array: the
    count, the cursors and every byte of the array afterwards. *)
Lemma put_loop_spec k : forall c inbuf n,
  Z.of_nat (length (buf c)) = BUFLEN ->
  in_buf (readptr c) -> in_buf (writeptr c) ->
  (k <= length inbuf)%nat ->
  exists c',
    put_loop k c (writeptr c) inbuf n
      = Some (c', n + Z.min (Z.of_nat k) (free c)) /\
    state c' = state c /\ readptr c' = readptr c /\
    nextptr c' = nextptr c /\ ctx c' = ctx c /\
    writeptr c' = (writeptr c + Z.min (Z.of_nat k) (free c)) mod BUFLEN /\
    Z.of_nat (length (buf c')) = BUFLEN /\
    forall off, in_buf off ->
      load (buf c') off =
      if (off - writeptr c) mod BUFLEN <? Z.min (Z.of_nat k) (free c)
      then inbuf !! Z.to_nat ((off - writeptr c) mod BUFLEN)
      else load (buf c) off.
Proof.
  induction k as [|k IH]; intros c inbuf n Hlen Hr Hw Hk.
  - pose proof (free_range c) as Hf.
    exists c. replace (Z.min (Z.of_nat 0) (free c)) with 0 by lia.
    cbn [put_loop]. rewrite !Z.add_0_r.
    repeat split; try reflexivity; try assumption.
    + symmetry. apply Z.mod_small. exact Hw.
    + intros off Hoff.
      destruct ((off - writeptr c) mod BUFLEN <? 0) eqn:E; [|reflexivity].
      apply Z.ltb_lt in E. unfold BUFLEN in E. Z.div_mod_to_equations. lia.
  - cbn [put_loop]. pose proof (bump_eq _ Hw) as Hb.
    pose proof (bump_in_buf _ Hw) as Hbi.
    destruct (bump (writeptr c) =? readptr c) eqn:E.
    + apply Z.eqb_eq in E.
      assert (Hf : free c = 0).
      { unfold free. unfold in_buf, BUFLEN in *.
        destruct (writeptr c + 1 =? 4096) eqn:E'; Z.div_mod_to_equations; lia. }
      exists c. rewrite Hf. replace (Z.min (Z.of_nat (S k)) 0) with 0 by lia.
      rewrite !Z.add_0_r.
      repeat split; try reflexivity; try assumption.
      * symmetry. apply Z.mod_small. exact Hw.
      * intros off Hoff.
        destruct ((off - writeptr c) mod BUFLEN <? 0) eqn:E'; [|reflexivity].
        apply Z.ltb_lt in E'. unfold BUFLEN in E'. Z.div_mod_to_equations. lia.
    + apply Z.eqb_neq in E.
      destruct inbuf as [|b inbuf']; [cbn in Hk; lia|].
      rewrite (store_in_buf _ _ b Hlen Hw).
      set (c1 := set_writeptr (bump (writeptr c))
                   (set_buf (<[Z.to_nat (writeptr c) := b]> (buf c)) c)).
      assert (Hlen1 : Z.of_nat (length (buf c1)) = BUFLEN).
      { subst c1. cbn. rewrite length_insert. exact Hlen. }
      assert (Hf1 : free c1 = free c - 1 /\ 1 <= free c).
      { subst c1. unfold free. cbn. unfold in_buf, BUFLEN in *.
        destruct (writeptr c + 1 =? 4096) eqn:E'; rewrite Hb in *;
          Z.div_mod_to_equations; lia. }
      destruct Hf1 as [Hf1 Hf1'].
      destruct (IH c1 inbuf' (n + 1) Hlen1 Hr Hbi)
        as (c' & Hrun & Hs & Hrd & Hnx & Hcx & Hwr & Hl' & Hcont).
      { cbn in Hk. lia. }
      exists c'. change (writeptr c1) with (bump (writeptr c)) in *.
      rewrite Hrun, Hf1.
      assert (Hmin : Z.min (Z.of_nat (S k)) (free c)
                     = 1 + Z.min (Z.of_nat k) (free c - 1)) by lia.
      rewrite Hmin.
      repeat split; try assumption.
      * f_equal. f_equal. lia.
      * rewrite Hwr, Hf1. unfold in_buf, BUFLEN in *.
        destruct (writeptr c + 1 =? 4096) eqn:E'; rewrite Hb;
          Z.div_mod_to_equations; lia.
      * intros off Hoff. rewrite (Hcont off Hoff). rewrite Hf1.
        change (buf c1) with (<[Z.to_nat (writeptr c) := b]> (buf c)).
        rewrite (load_insert _ _ _ _ Hlen Hw Hoff).
        pose proof (free_range c) as Hfc.
        destruct (off =? writeptr c) eqn:Eo.
        -- apply Z.eqb_eq in Eo. subst off.
           rewrite Z.sub_diag. change (0 mod BUFLEN) with 0.
           replace (0 <? 1 + Z.min (Z.of_nat k) (free c - 1)) with true
             by (symmetry; apply Z.ltb_lt; lia).
           replace ((writeptr c - bump (writeptr c)) mod BUFLEN
                     <? Z.min (Z.of_nat k) (free c - 1)) with false.
           { reflexivity. }
           symmetry. apply Z.ltb_ge. unfold in_buf, BUFLEN in *.
           destruct (writeptr c + 1 =? 4096) eqn:E'; rewrite Hb;
             Z.div_mod_to_equations; lia.
        -- apply Z.eqb_neq in Eo.
           assert (Hd : (off - bump (writeptr c)) mod BUFLEN
                        = (off - writeptr c) mod BUFLEN - 1
                        /\ 1 <= (off - writeptr c) mod BUFLEN).
           { unfold in_buf, BUFLEN in *.
             destruct (writeptr c + 1 =? 4096) eqn:E'; rewrite Hb;
               Z.div_mod_to_equations; lia. }
           destruct Hd as [Hd Hd1]. rewrite Hd.
           set (d := (off - writeptr c) mod BUFLEN) in *.
           destruct (d - 1 <? Z.min (Z.of_nat k) (free c - 1)) eqn:E1;
             destruct (d <? 1 + Z.min (Z.of_nat k) (free c - 1)) eqn:E2;
             try lia; [|reflexivity].
           replace (Z.to_nat d) with (S (Z.to_nat (d - 1))) by lia.
           reflexivity.
Qed.

(** A full buffer stops [client_put] before its first copy. *)
Lemma put_loop_full k c inbuf n :
  in_buf (readptr c) -> in_buf (writeptr c) -> free c = 0 ->
  put_loop k c (writeptr c) inbuf n = Some (c, n).
Proof.
  intros Hr Hw Hf. destruct k as [|k]; [reflexivity|].
  cbn [put_loop]. rewrite (bump_eq _ Hw).
  replace ((if writeptr c + 1 =? BUFLEN then 0 else writeptr c + 1)
             =? readptr c) with true; [reflexivity|].
  symmetry. apply Z.eqb_eq. unfold free, in_buf, BUFLEN in *.
  destruct (writeptr c + 1 =? 4096) eqn:E; Z.div_mod_to_equations; lia.
Qed.

(** [client_get] from [p]: it copies what lies between [p] and the write
    cursor, [k] bytes at most. *)
Lemma get_loop_spec k : forall c p,
  Z.of_nat (length (buf c)) = BUFLEN ->
  in_buf p -> in_buf (writeptr c) ->
  exists out,
    get_loop k c p = Some (peeked c p out, out) /\
    Z.of_nat (length out) = Z.min (Z.of_nat k) ((writeptr c - p) mod BUFLEN) /\
    forall i, (i < length out)%nat ->
      load (buf c) ((p + Z.of_nat i) mod BUFLEN) = out !! i.
Proof.
  induction k as [|k IH]; intros c p Hlen Hp Hw.
  - exists []. cbn [get_loop peeked length]. split; [reflexivity|].
    split; [|intros i Hi; cbn in Hi; lia].
    unfold BUFLEN. Z.div_mod_to_equations. lia.
  - cbn [get_loop]. destruct (p =? writeptr c) eqn:E.
    + apply Z.eqb_eq in E. subst p. exists [].
      cbn [peeked length]. split; [reflexivity|].
      split; [|intros i Hi; cbn in Hi; lia].
      rewrite Z.sub_diag. change (0 mod BUFLEN) with 0. lia.
    + apply Z.eqb_neq in E.
      destruct (load_in_buf (buf c) p Hlen Hp) as [b Hb]. rewrite Hb.
      pose proof (bump_eq _ Hp) as Hbe. pose proof (bump_in_buf _ Hp) as Hbi.
      destruct (IH (set_nextptr (bump p) c) (bump p) Hlen Hbi Hw)
        as (out & Hrun & Hn & Hout).
      rewrite Hrun. exists (b :: out).
      change (writeptr (set_nextptr (bump p) c)) with (writeptr c) in Hn.
      change (buf (set_nextptr (bump p) c)) with (buf c) in Hout.
      assert (Hd : (writeptr c - bump p) mod BUFLEN
                   = (writeptr c - p) mod BUFLEN - 1
                   /\ 1 <= (writeptr c - p) mod BUFLEN).
      { unfold in_buf, BUFLEN in *.
        destruct (p + 1 =? 4096) eqn:E'; rewrite Hbe;
          Z.div_mod_to_equations; lia. }
      destruct Hd as [Hd Hd1].
      split; [|split].
      * f_equal. f_equal. destruct out as [|b' out'].
        -- cbn [peeked length]. f_equal. rewrite bump_mod by exact Hp.
           reflexivity.
        -- cbn [peeked]. rewrite set_nextptr_twice. f_equal.
           rewrite bump_mod by exact Hp. rewrite Zplus_mod_idemp_l.
           f_equal. cbn [length]. lia.
      * cbn [length]. rewrite Nat2Z.inj_succ, Hn, Hd. lia.
      * intros [|i] Hi.
        -- cbn [lookup list_lookup]. rewrite Z.add_0_r.
           rewrite Z.mod_small by exact Hp. exact Hb.
        -- cbn in Hi. change ((b :: out) !! S i) with (out !! i).
           rewrite <- (Hout i) by lia.
           rewrite bump_mod by exact Hp. rewrite Zplus_mod_idemp_l.
           f_equal. f_equal. lia.
Qed.

(** [client_consume] adds the count to the read cursor, and nothing
    takes the sum back into the array. *)
Lemma consume_loop_spec k : forall c n,
  exists m,
    consume_loop k c n = (set_readptr (readptr c + m) c, n + m) /\
    0 <= m <= Z.of_nat k /\
    (readptr c <= nextptr c ->
     m = Z.min (Z.of_nat k) (nextptr c - readptr c)) /\
    (nextptr c < readptr c -> m = Z.of_nat k).
Proof.
  induction k as [|k IH]; intros c n.
  - exists 0. cbn [consume_loop]. rewrite !Z.add_0_r, set_readptr_same.
    repeat split; lia.
  - cbn [consume_loop]. destruct (readptr c =? nextptr c) eqn:E.
    + apply Z.eqb_eq in E. exists 0.
      rewrite !Z.add_0_r, set_readptr_same. repeat split; lia.
    + apply Z.eqb_neq in E.
      destruct (IH (set_readptr (readptr c + 1) c) (n + 1))
        as (m & Hrun & Hm & Hle & Hgt).
      cbn [readptr nextptr set_readptr] in Hrun, Hle, Hgt.
      exists (1 + m). rewrite Hrun. split; [|repeat split; lia].
      f_equal; [|lia]. unfold set_readptr. cbn. f_equal. lia.
Qed.

End Loops.


(** ** The buffer operations, by their cursors *)

Section Operations.

Lemma client_put_spec c inbuf inlen :
  Z.of_nat (length (buf c)) = BUFLEN ->
  in_buf (readptr c) -> in_buf (writeptr c) ->
  0 <= inlen <= Z.of_nat (length inbuf) ->
  exists c',
    client_put c inbuf inlen = Some (c', Z.min inlen (free c)) /\
    state c' = state c /\ readptr c' = readptr c /\
    nextptr c' = nextptr c /\ ctx c' = ctx c /\
    writeptr c' = (writeptr c + Z.min inlen (free c)) mod BUFLEN /\
    Z.of_nat (length (buf c')) = BUFLEN /\
    forall off, in_buf off ->
      load (buf c') off =
      if (off - writeptr c) mod BUFLEN <? Z.min inlen (free c)
      then inbuf !! Z.to_nat ((off - writeptr c) mod BUFLEN)
      else load (buf c) off.
Proof.
  intros Hlen Hr Hw Hin. unfold client_put.
  destruct (put_loop_spec (Z.to_nat inlen) c inbuf 0 Hlen Hr Hw) as (c' & H);
    [lia|].
  rewrite Z2Nat.id in H by lia. rewrite Z.add_0_l in H.
  exists c'. exact H.
Qed.

Lemma client_put_full c inbuf inlen :
  in_buf (readptr c) -> in_buf (writeptr c) -> free c = 0 ->
  client_put c inbuf inlen = Some (c, 0).
Proof. intros Hr Hw Hf. unfold client_put. apply put_loop_full; assumption. Qed.

Lemma client_get_spec c outlen :
  Z.of_nat (length (buf c)) = BUFLEN ->
  in_buf (readptr c) -> in_buf (writeptr c) -> 0 <= outlen ->
  exists out,
    client_get c outlen = Some (peeked c (readptr c) out, out) /\
    Z.of_nat (length out) = Z.min outlen (used c) /\
    forall i, (i < length out)%nat ->
      load (buf c) ((readptr c + Z.of_nat i) mod BUFLEN) = out !! i.
Proof.
  intros Hlen Hr Hw Hout. unfold client_get.
  destruct (get_loop_spec (Z.to_nat outlen) c (readptr c) Hlen Hr Hw)
    as (out & H).
  rewrite Z2Nat.id in H by lia. exists out. exact H.
Qed.

Lemma get_loop_nil k c p c' : get_loop k c p = Some (c', []) -> c' = c.
Proof.
  destruct k as [|k]; cbn [get_loop]; [congruence|].
  destruct (p =? writeptr c); [congruence|].
  destruct (load (buf c) p); [|discriminate].
  destruct (get_loop k _ _) as [[c2 out]|]; discriminate.
Qed.

Lemma client_get_nil c n c1 : client_get c n = Some (c1, []) -> c1 = c.
Proof. unfold client_get. apply get_loop_nil. Qed.

(** A read cursor that has left the array makes the next read-out that
    finds the cursors apart touch memory outside [buf]. *)
Lemma client_get_outside c outlen :
  0 < outlen -> Z.of_nat (length (buf c)) = BUFLEN ->
  BUFLEN <= readptr c -> readptr c <> writeptr c ->
  client_get c outlen = None.
Proof.
  intros Hout Hlen Hr Hne. unfold client_get.
  replace (Z.to_nat outlen) with (S (Z.to_nat (outlen - 1))) by lia.
  cbn [get_loop]. apply Z.eqb_neq in Hne. rewrite Hne.
  unfold load. replace (readptr c <? 0) with false
    by (symmetry; apply Z.ltb_ge; unfold BUFLEN in *; lia).
  rewrite lookup_ge_None_2 by lia. reflexivity.
Qed.

Lemma client_consume_spec c len :
  0 <= len ->
  exists m,
    client_consume c len = (set_readptr (readptr c + m) c, m) /\
    0 <= m <= len /\
    (readptr c <= nextptr c -> m = Z.min len (nextptr c - readptr c)) /\
    (nextptr c < readptr c -> m = len).
Proof.
  intros Hlen. unfold client_consume.
  destruct (consume_loop_spec (Z.to_nat len) c 0) as (m & H).
  rewrite Z2Nat.id in H by lia. rewrite Z.add_0_l in H.
  exists m. exact H.
Qed.

(** One step of a caller, by the cursors alone. *)
Lemma step_put t data r w p :
  cursors (cl t) r w p -> in_buf r -> in_buf w ->
  Z.of_nat (length data) <= (r - w - 1) mod BUFLEN ->
  exists t',
    step t (Put data) = Some t' /\
    cursors (cl t') r ((w + Z.of_nat (length data)) mod BUFLEN) p /\
    total_put t' = total_put t + Z.of_nat (length data) /\
    total_consumed t' = total_consumed t.
Proof.
  intros (Hr & Hw & Hp & Hlen) Hir Hiw Hfit. subst r w p.
  destruct (client_put_spec (cl t) data (Z.of_nat (length data)) Hlen Hir Hiw)
    as (c' & Hrun & _ & Hr' & Hp' & _ & Hw' & Hlen' & _); [lia|].
  fold (free (cl t)) in Hfit.
  rewrite Z.min_l in Hrun, Hw' by exact Hfit.
  unfold step. rewrite Hrun. eexists. split; [reflexivity|].
  cbn [cl total_put total_consumed]. unfold cursors. auto.
Qed.

Lemma step_drain t r w p :
  cursors (cl t) r w p -> in_buf r -> in_buf w -> r <> w ->
  exists t',
    step t (Drain BUFLEN) = Some t' /\
    cursors (cl t') (r + (w - r) mod BUFLEN) w w /\
    total_put t' = total_put t /\
    total_consumed t' = total_consumed t + (w - r) mod BUFLEN.
Proof.
  intros (Hr & Hw & Hp & Hlen) Hir Hiw Hne. subst r w p.
  destruct (client_get_spec (cl t) BUFLEN Hlen Hir Hiw) as (out & Hrun & Hn & _);
    [unfold BUFLEN; lia|].
  fold (used (cl t)) in *. pose proof (used_range (cl t)) as Hu.
  rewrite Z.min_r in Hn by lia.
  assert (Hpos : 0 < used (cl t)).
  { unfold used, in_buf, BUFLEN in *. Z.div_mod_to_equations. lia. }
  destruct out as [|b out]; [cbn [length] in Hn; lia|].
  cbn [peeked] in Hrun. rewrite Hn in Hrun.
  assert (Hnext : (readptr (cl t) + used (cl t)) mod BUFLEN = writeptr (cl t)).
  { unfold used, in_buf, BUFLEN in *. Z.div_mod_to_equations. lia. }
  rewrite Hnext in Hrun.
  set (c1 := set_nextptr (writeptr (cl t)) (cl t)) in *.
  destruct (client_consume_spec c1 (Z.of_nat (length (b :: out))))
    as (m & Hcon & _ & Hle & Hgt); [lia|].
  rewrite Hn in Hcon, Hle, Hgt.
  change (readptr c1) with (readptr (cl t)) in *.
  change (nextptr c1) with (writeptr (cl t)) in *.
  assert (Hm : m = used (cl t)).
  { destruct (Z.le_gt_cases (readptr (cl t)) (writeptr (cl t))) as [H|H].
    - rewrite (Hle H). unfold used, in_buf, BUFLEN in *.
      Z.div_mod_to_equations. lia.
    - apply Hgt. lia. }
  subst m. unfold step. rewrite Hrun, Hn, Hcon.
  eexists. split; [reflexivity|].
  cbn [cl total_put total_consumed]. unfold cursors. cbn. auto.
Qed.

Lemma step_consume t r w p len :
  cursors (cl t) r w p -> 0 <= len -> (r <= p -> len <= p - r) ->
  exists t',
    step t (Consume len) = Some t' /\
    cursors (cl t') (r + len) w p /\
    total_put t' = total_put t /\
    total_consumed t' = total_consumed t + len.
Proof.
  intros (Hr & Hw & Hp & Hlen) Hl Hfit. subst r w p.
  destruct (client_consume_spec (cl t) len Hl) as (m & Hrun & _ & Hle & Hgt).
  assert (Hm : m = len).
  { destruct (Z.le_gt_cases (readptr (cl t)) (nextptr (cl t))) as [H|H].
    - rewrite (Hle H). specialize (Hfit H). lia.
    - apply Hgt. lia. }
  subst m. unfold step. rewrite Hrun. eexists. split; [reflexivity|].
  cbn [cl total_put total_consumed]. unfold cursors. cbn. auto.
Qed.

Lemma exec_app ops1 : forall ops2 t,
  exec (ops1 ++ ops2) t =
  match exec ops1 t with
  | None => None
  | Some t' => exec ops2 t'
  end.
Proof.
  induction ops1 as [|o ops1 IH]; intros ops2 t; [reflexivity|].
  cbn [app exec]. destruct (step t o); [apply IH|reflexivity].
Qed.

Lemma cursors_fresh : cursors fresh 0 0 0.
Proof.
  unfold cursors, fresh. cbn [client_init readptr writeptr nextptr buf].
  rewrite length_replicate. split_and!; reflexivity.
Qed.

(** The calls of [round_trip] leave the read cursor one past the end of
    the array, with as many bytes consumed as were put in. *)
Lemma round_trip_cursors :
  exists t, exec round_trip start = Some t /\
            cursors (cl t) BUFLEN 0 0 /\
            total_put t = 4096 /\ total_consumed t = 4096.
Proof.
  unfold round_trip.
  destruct (step_put start (replicate 4095 Byte.x61) 0 0 0 cursors_fresh)
    as (t1 & H1 & C1 & P1 & U1);
    [unfold in_buf, BUFLEN; lia | unfold in_buf, BUFLEN; lia
    | rewrite length_replicate;
      change ((0 - 0 - 1) mod BUFLEN) with 4095; lia |].
  rewrite length_replicate in C1, P1.
  change ((0 + Z.of_nat 4095) mod BUFLEN) with 4095 in C1.
  destruct (step_drain t1 0 4095 0 C1) as (t2 & H2 & C2 & P2 & U2);
    [unfold in_buf, BUFLEN; lia | unfold in_buf, BUFLEN; lia | lia |].
  change (0 + (4095 - 0) mod BUFLEN) with 4095 in C2.
  change ((4095 - 0) mod BUFLEN) with 4095 in U2.
  destruct (step_put t2 [Byte.x62] 4095 4095 4095 C2)
    as (t3 & H3 & C3 & P3 & U3);
    [unfold in_buf, BUFLEN; lia | unfold in_buf, BUFLEN; lia
    | change ((4095 - 4095 - 1) mod BUFLEN) with 4095; cbn [length]; lia |].
  change ((4095 + Z.of_nat (length [Byte.x62])) mod BUFLEN) with 0 in C3.
  destruct (step_drain t3 4095 0 4095 C3) as (t4 & H4 & C4 & P4 & U4);
    [unfold in_buf, BUFLEN; lia | unfold in_buf, BUFLEN; lia | lia |].
  change (4095 + (0 - 4095) mod BUFLEN) with BUFLEN in C4.
  change ((0 - 4095) mod BUFLEN) with 1 in U4.
  exists t4. cbn [exec]. rewrite H1, H2, H3, H4.
  split; [reflexivity|]. split; [exact C4|].
  cbn [total_put total_consumed start length] in *. lia.
Qed.

End Operations.

(** ** The buffer operations: the claims *)

Section BufferClaims.

(** On a buffer whose read and write cursors point into the array,
    [client_put] copies [min inlen free] bytes: it stops before the write
    cursor would reach the read cursor, so never more than [BUFLEN - 1]
    bytes are held, every byte between the read and the write cursor is
    left as it was, and a buffer with no free byte gives [0] and is left
    unchanged.  What it does once [client_consume] has taken the read
    cursor out of the array is a theorem of its own. *)
Theorem client_put_keeps_unread c inbuf inlen :
  Z.of_nat (length (buf c)) = BUFLEN ->
  in_buf (readptr c) -> in_buf (writeptr c) ->
  0 <= inlen <= Z.of_nat (length inbuf) ->
  exists c' n,
    client_put c inbuf inlen = Some (c', n) /\
    n = Z.min inlen (free c) /\
    used c' = used c + n /\ used c' <= BUFLEN - 1 /\
    readptr c' = readptr c /\ nextptr c' = nextptr c /\
    writeptr c' = (writeptr c + n) mod BUFLEN /\
    (forall off, in_buf off -> (off - readptr c) mod BUFLEN < used c ->
       load (buf c') off = load (buf c) off) /\
    (forall i, 0 <= i < n ->
       load (buf c') ((writeptr c + i) mod BUFLEN) = inbuf !! Z.to_nat i) /\
    (free c = 0 -> n = 0 /\ c' = c).
Proof.
  intros Hlen Hr Hw Hin.
  destruct (client_put_spec c inbuf inlen Hlen Hr Hw Hin)
    as (c' & Hrun & _ & Hrd & Hnx & _ & Hwr & _ & Hcont).
  pose proof (free_range c) as Hf. pose proof (free_used c Hr Hw) as Hfu.
  pose proof (used_range c) as Hu.
  set (n := Z.min inlen (free c)) in *.
  assert (Hn : 0 <= n <= free c) by lia.
  assert (Hused : used c' = used c + n).
  { unfold used in *. rewrite Hrd, Hwr. unfold in_buf, BUFLEN in *.
    Z.div_mod_to_equations. lia. }
  exists c', n. split_and!; try assumption; try lia.
  - intros off Hoff Hlt. rewrite (Hcont off Hoff).
    replace ((off - writeptr c) mod BUFLEN <? n) with false; [reflexivity|].
    symmetry. apply Z.ltb_ge. unfold used in *. unfold in_buf, BUFLEN in *.
    Z.div_mod_to_equations. lia.
  - intros i Hi.
    assert (Hoff : in_buf ((writeptr c + i) mod BUFLEN)).
    { unfold in_buf, BUFLEN. Z.div_mod_to_equations. lia. }
    rewrite (Hcont _ Hoff).
    assert (Hd : ((writeptr c + i) mod BUFLEN - writeptr c) mod BUFLEN = i).
    { unfold in_buf, BUFLEN in *. Z.div_mod_to_equations. lia. }
    rewrite Hd.
    replace (i <? n) with true by (symmetry; apply Z.ltb_lt; lia).
    reflexivity.
  - intros Hz. rewrite (client_put_full _ _ _ Hr Hw Hz) in Hrun.
    injection Hrun as Hc Hn0. split; [lia|congruence].
Qed.

Lemma client_put_keeps_unread_witness :
  exists c' n,
    client_put fresh hello 5 = Some (c', n) /\
    n = Z.min 5 (free fresh) /\
    used c' = used fresh + n /\ used c' <= BUFLEN - 1 /\
    readptr c' = readptr fresh /\ nextptr c' = nextptr fresh /\
    writeptr c' = (writeptr fresh + n) mod BUFLEN /\
    (forall off, in_buf off -> (off - readptr fresh) mod BUFLEN < used fresh ->
       load (buf c') off = load (buf fresh) off) /\
    (forall i, 0 <= i < n ->
       load (buf c') ((writeptr fresh + i) mod BUFLEN)
       = hello !! Z.to_nat i) /\
    (free fresh = 0 -> n = 0 /\ c' = fresh).
Proof.
  apply (client_put_keeps_unread fresh hello 5).
  - vm_compute. reflexivity.
  - unfold in_buf. vm_compute. split; congruence.
  - unfold in_buf. vm_compute. split; congruence.
  - cbn. lia.
Defined.

(** C6, as the code has it: on a buffer whose read and write cursors
    point into the array, [client_get] copies the bytes from the read
    cursor on, [min outlen used] of them, leaves the peek cursor at the
    read cursor plus that count (modulo [BUFLEN]) when the count is not
    zero, and changes nothing else; a second call with no consume in
    between starts at the read cursor again and returns the same bytes. *)
Theorem client_get_from_read_cursor c outlen :
  Z.of_nat (length (buf c)) = BUFLEN ->
  in_buf (readptr c) -> in_buf (writeptr c) ->
  0 <= outlen ->
  exists c' out,
    client_get c outlen = Some (c', out) /\
    Z.of_nat (length out) = Z.min outlen (used c) /\
    (forall i, (i < length out)%nat ->
       load (buf c) ((readptr c + Z.of_nat i) mod BUFLEN) = out !! i) /\
    nextptr c' = (if Z.of_nat (length out) =? 0 then nextptr c
                  else (readptr c + Z.of_nat (length out)) mod BUFLEN) /\
    readptr c' = readptr c /\ writeptr c' = writeptr c /\
    buf c' = buf c /\ state c' = state c /\ ctx c' = ctx c /\
    client_get c' outlen = Some (c', out).
Proof.
  intros Hlen Hr Hw Hout.
  destruct (client_get_spec c outlen Hlen Hr Hw Hout)
    as (out & Hrun & Hn & Hbytes).
  set (c' := peeked c (readptr c) out) in *.
  assert (Hfields : readptr c' = readptr c /\ writeptr c' = writeptr c /\
                    buf c' = buf c /\ state c' = state c /\ ctx c' = ctx c).
  { subst c'. destruct out; cbn; repeat split; reflexivity. }
  destruct Hfields as (Hr' & Hw' & Hb' & Hs' & Hc').
  exists c', out. split; [exact Hrun|]. split; [exact Hn|].
  split; [exact Hbytes|]. split.
  { subst c'. destruct out as [|b out]; [reflexivity|].
    cbn [peeked nextptr set_nextptr length].
    destruct (Z.of_nat (S (length out)) =? 0) eqn:E; [|reflexivity].
    apply Z.eqb_eq in E. lia. }
  repeat (split; [assumption|]).
  destruct (client_get_spec c' outlen) as (out2 & Hrun2 & Hn2 & Hbytes2);
    [rewrite Hb'; exact Hlen | rewrite Hr'; exact Hr
    | rewrite Hw'; exact Hw | exact Hout |].
  assert (Hu : used c' = used c) by (unfold used; rewrite Hr', Hw'; reflexivity).
  rewrite Hu in Hn2. rewrite Hb', Hr' in Hbytes2. rewrite Hr' in Hrun2.
  assert (Hlen2 : length out2 = length out) by lia.
  assert (Heq : out2 = out).
  { apply list_eq. intros i. destruct (decide (i < length out)%nat) as [Hi|Hi].
    - rewrite <- Hbytes by exact Hi. rewrite <- Hbytes2 by lia. reflexivity.
    - rewrite !lookup_ge_None_2 by lia. reflexivity. }
  subst out2. rewrite Hrun2. f_equal. f_equal.
  subst c'. destruct out; reflexivity.
Qed.

Lemma client_get_from_read_cursor_witness :
  exists c' out,
    client_get half_peeked 1 = Some (c', out) /\
    Z.of_nat (length out) = Z.min 1 (used half_peeked) /\
    (forall i, (i < length out)%nat ->
       load (buf half_peeked) ((readptr half_peeked + Z.of_nat i) mod BUFLEN)
       = out !! i) /\
    nextptr c' = (if Z.of_nat (length out) =? 0 then nextptr half_peeked
                  else (readptr half_peeked + Z.of_nat (length out))
                         mod BUFLEN) /\
    readptr c' = readptr half_peeked /\ writeptr c' = writeptr half_peeked /\
    buf c' = buf half_peeked /\ state c' = state half_peeked /\
    ctx c' = ctx half_peeked /\
    client_get c' 1 = Some (c', out).
Proof.
  apply (client_get_from_read_cursor half_peeked 1).
  - vm_compute. reflexivity.
  - unfold in_buf. vm_compute. split; congruence.
  - unfold in_buf. vm_compute. split; congruence.
  - lia.
Defined.

(** C6, as the specification words it, fails: with [ab] buffered and [a]
    already handed out, the next [client_get] hands out [a] again, where a
    copy that starts at the peek cursor gives [b]. *)
Lemma client_get_repeats_peeked_bytes :
  client_get half_peeked 1 = Some (half_peeked, [Byte.x61]) /\
  peek_out_spec half_peeked 1
    = Some (set_nextptr 2 half_peeked, [Byte.x62]) /\
  client_get half_peeked 1 <> peek_out_spec half_peeked 1.
Proof.
  assert (H1 : client_get half_peeked 1 = Some (half_peeked, [Byte.x61]))
    by reflexivity.
  assert (H2 : peek_out_spec half_peeked 1
               = Some (set_nextptr 2 half_peeked, [Byte.x62]))
    by reflexivity.
  split; [exact H1|]. split; [exact H2|].
  rewrite H1, H2. intros H. discriminate H.
Qed.

Lemma client_put_one c b r w p :
  cursors c r w p -> in_buf w -> bump w <> r ->
  exists c', client_put c [b] 1 = Some (c', 1) /\ cursors c' r (bump w) p.
Proof.
  intros (Hr & Hw & Hp & Hlen) Hiw Hne. subst r w p.
  unfold client_put. change (Z.to_nat 1) with 1%nat. cbn [put_loop].
  apply Z.eqb_neq in Hne. rewrite Hne.
  rewrite (store_in_buf _ _ b Hlen Hiw).
  eexists. split; [reflexivity|].
  unfold cursors. cbn. rewrite length_insert. auto.
Qed.

(** C1 at the failing input: [BUFLEN - 1] bytes in and out, then one more
    byte in and out, which takes the write and the peek cursor round the
    end of the array but not the read cursor.  The caller has put 4096
    bytes and consumed 4096, and a further [client_consume] still hands
    back a count of 1; and after a further [Put] the read-out starts
    outside the array. *)
Theorem consume_exceeds_put_after_wrap :
  (exists t, exec (round_trip ++ [Consume 1]) start = Some t /\
             total_put t = 4096 /\ total_consumed t = 4097) /\
  exec (round_trip ++ [Put [Byte.x63]; Drain BUFLEN]) start = None.
Proof.
  destruct round_trip_cursors as (t & Hrun & C & P & U).
  split.
  - destruct (step_consume t BUFLEN 0 0 1 C) as (t' & Hs & _ & P' & U');
      [lia | unfold BUFLEN; lia |].
    exists t'. rewrite exec_app, Hrun. cbn [exec]. rewrite Hs.
    split; [reflexivity|]. lia.
  - rewrite exec_app, Hrun. cbn [exec].
    destruct (client_put_one (cl t) Byte.x63 BUFLEN 0 0 C)
      as (c' & Hput & (Hr' & Hw' & _ & Hlen'));
      [unfold in_buf, BUFLEN; lia | vm_compute; discriminate |].
    unfold step at 1. change (Z.of_nat (length [Byte.x63])) with 1.
    rewrite Hput. unfold step. cbn [cl].
    rewrite client_get_outside; [reflexivity | unfold BUFLEN; lia | exact Hlen'
      | lia |].
    rewrite Hr', Hw'. vm_compute. discriminate.
Qed.

(** C2 at the failing input: after the same calls the read cursor stands
    at offset [BUFLEN], outside [0, BUFLEN), while the write and the peek
    cursor have wrapped to 0. *)
Theorem consume_leaves_read_cursor_unwrapped :
  exists t, exec round_trip start = Some t /\
            readptr (cl t) = BUFLEN /\ ~ in_buf (readptr (cl t)) /\
            writeptr (cl t) = 0 /\ nextptr (cl t) = 0.
Proof.
  destruct round_trip_cursors as (t & Hrun & (Hr & Hw & Hp & _) & _).
  exists t. split; [exact Hrun|]. rewrite Hr.
  split_and!; try assumption; try reflexivity.
  unfold in_buf. lia.
Qed.

End BufferClaims.

(** ** The state machine and the dispatcher *)

Section Machine.

Lemma bind_run {A B} (m : M A) (f : A -> M B) s :
  (m ≫= f) s =
  match m s with
  | (Done a, s') => f a s'
  | (Exit code, s') => (Exit code, s')
  | (Fault, s') => (Fault, s')
  | (Blocked, s') => (Blocked, s')
  end.
Proof. reflexivity. Qed.

(** Closes the side conditions on concrete notifications. *)
Ltac ready_now :=
  unfold ready; cbn; split_and!; try reflexivity; discriminate.

Lemma handle_client_ready pfd c s :
  ready (events pfd) (revents pfd) ->
  handle_client pfd c s =
  if state c =? STATE_READING then handle_reading pfd c s
  else if state c =? STATE_WRITING then handle_writing pfd c s
  else (Done (pfd, c), s).
Proof.
  intros (He & Hh & Hr). unfold handle_client.
  rewrite He, Hh. cbn [Z.eqb negb].
  apply Z.eqb_neq in Hr. rewrite Hr. cbn [negb].
  destruct (state c =? STATE_READING); [reflexivity|].
  destruct (state c =? STATE_WRITING); reflexivity.
Qed.

(** C3, as the code has it: a connection in [STATE_WRITING] that is
    notified of a requested event and whose [client_get] returns no byte
    makes no call at all (the log, the replies and the throttle are as
    before, the buffer is untouched), and since [ret] and [len] are both 0
    it is put back to [STATE_READING] and asks for [POLLIN | POLLHUP]. *)
Theorem empty_writer_returns_to_reading pfd c s c1 :
  state c = STATE_WRITING ->
  ready (events pfd) (revents pfd) ->
  client_get c BUFLEN = Some (c1, []) ->
  c1 = c /\
  handle_client pfd c s
  = (Done (set_events (Z.lor POLLIN POLLHUP) pfd, set_state STATE_READING c),
     s).
Proof.
  intros Hst Hrdy Hget.
  assert (Hc : c1 = c) by (apply (client_get_nil _ _ _ Hget)).
  subst c1. split; [reflexivity|].
  rewrite (handle_client_ready _ _ _ Hrdy), Hst.
  change (STATE_WRITING =? STATE_READING) with false.
  change (STATE_WRITING =? STATE_WRITING) with true. cbv iota.
  unfold handle_writing. rewrite Hget. reflexivity.
Qed.

Lemma empty_writer_returns_to_reading_witness :
  idle_writer = idle_writer /\
  handle_client (set_revents POLLOUT slot5_out) idle_writer quiet
  = (Done (set_events (Z.lor POLLIN POLLHUP) (set_revents POLLOUT slot5_out),
           set_state STATE_READING idle_writer),
     quiet).
Proof.
  apply (empty_writer_returns_to_reading
           (set_revents POLLOUT slot5_out) idle_writer quiet idle_writer).
  - reflexivity.
  - ready_now.
  - reflexivity.
Defined.

(** C3, as the specification words it, fails: the writer with an empty
    buffer is in [STATE_READING] when [handle_client] returns. *)
Lemma empty_writer_is_demoted :
  state idle_writer = STATE_WRITING /\
  ready (events slot5_out) POLLOUT /\
  client_get idle_writer BUFLEN = Some (idle_writer, []) /\
  exists p' c',
    notify POLLOUT (slot5_out, idle_writer) quiet = (Done (p', c'), quiet) /\
    state c' = STATE_READING /\ state c' <> STATE_WRITING.
Proof.
  split; [reflexivity|]. split; [ready_now|]. split; [reflexivity|].
  eexists _, _. split; [reflexivity|]. split; [reflexivity|].
  cbn. discriminate.
Qed.

(** C4, as the code has it: when [tls_read] (in [STATE_READING]) or
    [tls_write] (in [STATE_WRITING]) answers a negative value that is
    neither [TLS_WANT_POLLIN] nor [TLS_WANT_POLLOUT], [handle_client] logs
    the error with [warn] and returns: the slot, the state and the
    throttle are as before, nothing is consumed, and neither [tls_close],
    [tls_free] nor [close] is called. *)
Theorem hard_error_only_warns :
  (forall pfd c s len data q,
     state c = STATE_READING ->
     ready (events pfd) (revents pfd) ->
     pending s = R_read len data :: q ->
     len < 0 -> len <> TLS_WANT_POLLIN -> len <> TLS_WANT_POLLOUT ->
     handle_client pfd c s
     = (Done (pfd, c),
        Sys (throttle s) q
          (trace s ++ [E_tls_read (ctx c) BUFLEN len; E_warn "tls_read"]))) /\
  (forall pfd c s c1 out ret q,
     state c = STATE_WRITING ->
     ready (events pfd) (revents pfd) ->
     client_get c BUFLEN = Some (c1, out) -> out <> [] ->
     pending s = R_int ret :: q ->
     ret < 0 -> ret <> TLS_WANT_POLLIN -> ret <> TLS_WANT_POLLOUT ->
     handle_client pfd c s
     = (Done (pfd, c1),
        Sys (throttle s) q
          (trace s ++ [E_tls_write (ctx c1) out ret; E_warn "tls_write"]))).
Proof.
  split.
  - intros pfd c s len data q Hst Hrdy Hq Hneg Hin Hout.
    rewrite (handle_client_ready _ _ _ Hrdy), Hst.
    change (STATE_READING =? STATE_READING) with true. cbv iota.
    unfold handle_reading. rewrite bind_run. unfold tls_read. rewrite Hq.
    apply Z.eqb_neq in Hin, Hout. rewrite Hin, Hout.
    apply Z.ltb_lt in Hneg. rewrite Hneg.
    unfold warn, emit. rewrite bind_run. cbn.
    rewrite <- app_assoc. reflexivity.
  - intros pfd c s c1 out ret q Hst Hrdy Hget Hne Hq Hneg Hin Hout.
    rewrite (handle_client_ready _ _ _ Hrdy), Hst.
    change (STATE_WRITING =? STATE_READING) with false.
    change (STATE_WRITING =? STATE_WRITING) with true. cbv iota.
    unfold handle_writing. rewrite Hget.
    assert (Hlen : 0 < Z.of_nat (length out)).
    { destruct out; [congruence|cbn [length]; lia]. }
    replace (Z.of_nat (length out) =? 0) with false
      by (symmetry; apply Z.eqb_neq; lia).
    cbn [negb]. rewrite bind_run. rewrite bind_run.
    unfold tls_write, call_int. rewrite Hq.
    apply Z.eqb_neq in Hin, Hout. rewrite Hin, Hout.
    pose proof Hneg as Hneg'. apply Z.ltb_lt in Hneg'. rewrite Hneg'.
    unfold warn, emit. rewrite bind_run. cbn.
    replace (ret =? Z.of_nat (length out)) with false
      by (symmetry; apply Z.eqb_neq; lia).
    rewrite <- app_assoc. reflexivity.
Qed.

Lemma hard_error_only_warns_witness :
  handle_client (set_revents POLLIN slot5) fresh (Sys 0 [R_read (-1) []] [])
  = (Done (set_revents POLLIN slot5, fresh),
     Sys 0 [] ([] ++ [E_tls_read (ctx fresh) BUFLEN (-1); E_warn "tls_read"]))
  /\
  handle_client (set_revents POLLOUT slot5_out) half_peeked
    (Sys 0 [R_int (-1)] [])
  = (Done (set_revents POLLOUT slot5_out, set_nextptr 2 half_peeked),
     Sys 0 []
       ([] ++ [E_tls_write (ctx (set_nextptr 2 half_peeked))
                 [Byte.x61; Byte.x62] (-1);
               E_warn "tls_write"])).
Proof.
  split.
  - apply (proj1 hard_error_only_warns
             (set_revents POLLIN slot5) fresh (Sys 0 [R_read (-1) []] [])
             (-1) [] []).
    + reflexivity.
    + ready_now.
    + reflexivity.
    + lia.
    + discriminate.
    + discriminate.
  - apply (proj2 hard_error_only_warns
             (set_revents POLLOUT slot5_out) half_peeked
             (Sys 0 [R_int (-1)] []) (set_nextptr 2 half_peeked)
             [Byte.x61; Byte.x62] (-1) []).
    + reflexivity.
    + ready_now.
    + reflexivity.
    + discriminate.
    + reflexivity.
    + lia.
    + discriminate.
    + discriminate.
Defined.

(** C4, as the specification words it, fails: after a hard read error
    the slot still holds descriptor 5, the reply scripted for [tls_close]
    is still pending, and only [tls_read] and [warn] were called. *)
Lemma hard_read_error_keeps_connection :
  exists p' c' s',
    notify POLLIN (slot5, fresh) (Sys 0 [R_read (-1) []; R_int 0] [])
    = (Done (p', c'), s') /\
    fd p' = 5 /\ fd p' <> -1 /\
    pending s' = [R_int 0] /\
    trace s' = [E_tls_read 7 BUFLEN (-1); E_warn "tls_read"].
Proof.
  eexists _, _, _. split; [reflexivity|].
  cbn. split_and!; try reflexivity. discriminate.
Qed.

Lemma close_retry_throttle k tls : forall s,
  exists s', throttle s' = throttle s /\
    (close_retry k tls s = (Done tt, s') \/ close_retry k tls s = (Blocked, s')).
Proof.
  induction k as [|k IH]; intros s.
  - exists s. split; [reflexivity|]. right. reflexivity.
  - cbn [close_retry]. rewrite bind_run. unfold tls_close, call_int.
    destruct (pending s) as [|[r| | | ] q];
      try (exists s; split; [reflexivity|right; reflexivity]).
    destruct (is_want r).
    + destruct (IH (Sys (throttle s) q (trace s ++ [E_tls_close tls r])))
        as (s' & Ht & Hrun).
      exists s'. split; [exact Ht|exact Hrun].
    + eexists. split; [|left; reflexivity]. reflexivity.
Qed.

(** [closeconn] either frees the slot and clears the throttle, or is
    still retrying [tls_close] when the scripted replies end. *)
Lemma closeconn_cases pfd c s :
  exists s',
    (closeconn pfd c s = (Done (Pollfd (-1) (events pfd) 0), s') /\
     throttle s' = 0) \/
    (closeconn pfd c s = (Blocked, s') /\ throttle s' = throttle s).
Proof.
  unfold closeconn. rewrite bind_run.
  destruct (close_retry_throttle (length (pending s)) (ctx c) s)
    as (s1 & Ht & [Hrun|Hrun]); rewrite Hrun.
  - eexists. left. split; reflexivity.
  - exists s1. right. split; [reflexivity|exact Ht].
Qed.

Lemma closeconn_settled pfd c c' s :
  settled pfd (throttle s) ((pfd' ← closeconn pfd c; mret (pfd', c')) s).
Proof.
  rewrite bind_run.
  destruct (closeconn_cases pfd c s) as (s' & [[Hrun Ht]|[Hrun Ht]]);
    rewrite Hrun; unfold settled; cbn.
  - right. auto.
  - exact Ht.
Qed.

Lemma handle_reading_settled pfd c s :
  settled pfd (throttle s) (handle_reading pfd c s).
Proof.
  unfold handle_reading. rewrite bind_run. unfold tls_read.
  destruct (pending s) as [|[r|r data| | ] q]; try reflexivity.
  set (s1 := Sys (throttle s) q (trace s ++ [E_tls_read (ctx c) BUFLEN r])).
  change (throttle s) with (throttle s1).
  destruct (r =? TLS_WANT_POLLIN); [left; split; reflexivity|].
  destruct (r =? TLS_WANT_POLLOUT); [left; split; reflexivity|].
  destruct (r <? 0); [left; split; reflexivity|].
  destruct (r =? 0); [apply closeconn_settled|].
  destruct (client_put c data r) as [[c' n]|]; [|reflexivity].
  destruct (negb (n =? r)); [|left; split; reflexivity].
  unfold warn, emit. rewrite bind_run.
  set (s2 := Sys _ _ _). change (throttle s1) with (throttle s2).
  apply closeconn_settled.
Qed.

Ltac case_if :=
  match goal with
  | |- context [?a =? Z.of_nat (length ?l)] =>
      destruct (a =? Z.of_nat (length l))
  end.

Lemma handle_writing_settled pfd c s :
  settled pfd (throttle s) (handle_writing pfd c s).
Proof.
  unfold handle_writing.
  destruct (client_get c BUFLEN) as [[c1 out]|]; [|reflexivity].
  cbv zeta. destruct (negb (Z.of_nat (length out) =? 0)).
  - rewrite bind_run, bind_run. unfold tls_write, call_int.
    destruct (pending s) as [|[r| | | ] q]; try reflexivity.
    destruct (r =? TLS_WANT_POLLIN).
    { cbn. case_if; left; split; reflexivity. }
    destruct (r =? TLS_WANT_POLLOUT).
    { cbn. case_if; left; split; reflexivity. }
    destruct (r <? 0).
    { unfold warn, emit. rewrite bind_run. cbn.
      case_if; left; split; reflexivity. }
    cbn. case_if; left; split; reflexivity.
  - cbn. destruct (Z.of_nat (length out)); left; split; reflexivity.
Qed.

Lemma handle_client_settled pfd c s :
  Z.land (revents pfd) (Z.lor POLLERR POLLNVAL) = 0 ->
  settled pfd (throttle s) (handle_client pfd c s).
Proof.
  intros He. unfold handle_client. rewrite He. cbn [Z.eqb negb].
  destruct (negb (Z.land (revents pfd) POLLHUP =? 0)).
  { apply closeconn_settled. }
  destruct (negb (Z.land (revents pfd) (events pfd) =? 0));
    [|left; split; reflexivity].
  destruct (state c =? STATE_READING); [apply handle_reading_settled|].
  destruct (state c =? STATE_WRITING); [apply handle_writing_settled|].
  left; split; reflexivity.
Qed.

Lemma handle_client_bad_fd pfd c s :
  Z.land (revents pfd) (Z.lor POLLERR POLLNVAL) <> 0 ->
  handle_client pfd c s
  = (Exit 1, Sys (throttle s) (pending s) (trace s ++ [E_err "bad fd"])).
Proof.
  intros He. unfold handle_client. apply Z.eqb_neq in He. rewrite He.
  reflexivity.
Qed.

(** C9, as the specification words it, fails: a notification with
    [POLLERR] on slot 1 ends the process with status 1. *)
Lemma pollerr_ends_process :
  pollfds (one_conn POLLERR) !! 1%nat = Some (set_revents POLLERR slot5) /\
  handle_client_at 1 (one_conn POLLERR) quiet
  = (Exit 1, Sys 0 [] [E_err "bad fd"]).
Proof. split; reflexivity. Qed.

(** *** The accept path *)

Lemma scan_negative k i newfd g s :
  newfd < 0 -> scan k i newfd g s = (Done g, s).
Proof.
  intros H. destruct k as [|k]; [reflexivity|]. cbn [scan].
  replace (0 <=? newfd) with false by (symmetry; apply Z.leb_gt; lia).
  reflexivity.
Qed.

Lemma scan_cases k : forall i g s newfd,
  0 <= newfd -> 0 <= i ->
  i + Z.of_nat k = MAX_CONNECTIONS ->
  MAX_CONNECTIONS <= Z.of_nat (length (pollfds g)) ->
  (occupied g i MAX_CONNECTIONS /\ scan k i newfd g s = (Done g, s)) \/
  (exists j p, i <= j < MAX_CONNECTIONS /\ occupied g i j /\
     pollfds g !! Z.to_nat j = Some p /\ fd p = -1 /\
     scan k i newfd g s = claim_slot j p newfd g s).
Proof.
  induction k as [|k IH]; intros i g s newfd Hfd Hi Hk Hlen.
  - left. split; [|reflexivity]. intros j' Hj'. lia.
  - cbn [scan].
    replace (0 <=? newfd) with true by (symmetry; apply Z.leb_le; lia).
    replace (i <? MAX_CONNECTIONS) with true by (symmetry; apply Z.ltb_lt; lia).
    cbn [andb].
    destruct (pollfds g !! Z.to_nat i) as [p|] eqn:Hp.
    2:{ apply lookup_ge_None in Hp. lia. }
    destruct (fd p =? -1) eqn:Hf.
    + apply Z.eqb_eq in Hf. right. exists i, p.
      split; [lia|]. split; [intros j' Hj'; lia|].
      split; [exact Hp|]. split; [exact Hf|reflexivity].
    + apply Z.eqb_neq in Hf.
      destruct (IH (i + 1) g s newfd Hfd) as [[Hocc Hrun]|(j & p' & Hj & Hocc & Hp' & Hf' & Hrun)];
        try lia.
      * left. split; [|exact Hrun]. intros j' Hj'.
        destruct (decide (j' = i)) as [->|Hne]; [exists p; auto|].
        apply Hocc. lia.
      * right. exists j, p'. split; [lia|]. split; [|auto].
        intros j' Hj'.
        destruct (decide (j' = i)) as [->|Hne]; [exists p; auto|].
        apply Hocc. lia.
Qed.

Lemma accept_conn_run g s l newfd q :
  pollfds g !! 0%nat = Some l -> pending s = R_int newfd :: q ->
  accept_conn g s
  = scan (Z.to_nat (MAX_CONNECTIONS - 1)) 1 newfd g
      (Sys 1 q (trace s ++ [E_accept (fd l) newfd])).
Proof.
  intros Hl Hq. unfold accept_conn. rewrite Hl, bind_run.
  unfold accept, call_int. rewrite Hq. reflexivity.
Qed.

Lemma newconn_throttle p newfd s :
  throttle (snd (newconn p newfd s)) = throttle s.
Proof.
  unfold newconn. rewrite bind_run. unfold fcntl_getfl, fcntl_setfl, call_int.
  destruct (pending s) as [|[r| | | ] q]; try reflexivity.
  destruct (r <? 0); [reflexivity|]. rewrite bind_run. cbn [pending].
  destruct q as [|[r2| | | ] q]; try reflexivity.
  destruct (r2 <? 0); reflexivity.
Qed.

Lemma claim_slot_throttle j p newfd g s :
  throttle (snd (claim_slot j p newfd g s)) = 0.
Proof.
  unfold claim_slot. rewrite bind_run. unfold set_throttle.
  rewrite bind_run. unfold tls_accept_socket. cbn [pending].
  destruct (pending s) as [|[ | |r cctx| ] q]; try reflexivity.
  destruct (r =? -1); [reflexivity|].
  rewrite bind_run.
  pose proof (newconn_throttle p newfd
    (Sys 0 q (trace s ++ [E_tls_accept_socket newfd r]))) as Hn.
  cbn [throttle] in *.
  destruct (newconn p newfd _) as [[p'|code| |] s']; cbn [snd] in *;
    try exact Hn.
  destruct (clients g !! Z.to_nat j); exact Hn.
Qed.

Lemma scan_first_free k : forall i j g s newfd p,
  0 <= newfd -> 0 <= i <= j -> j < i + Z.of_nat k ->
  i + Z.of_nat k <= MAX_CONNECTIONS ->
  occupied g i j -> pollfds g !! Z.to_nat j = Some p -> fd p = -1 ->
  scan k i newfd g s = claim_slot j p newfd g s.
Proof.
  induction k as [|k IH]; intros i j g s newfd p Hfd Hij Hjk Hk Hocc Hp Hf.
  - lia.
  - cbn [scan].
    replace (0 <=? newfd) with true by (symmetry; apply Z.leb_le; lia).
    replace (i <? MAX_CONNECTIONS) with true by (symmetry; apply Z.ltb_lt; lia).
    cbn [andb]. destruct (decide (i = j)) as [->|Hne].
    + rewrite Hp. apply Z.eqb_eq in Hf. rewrite Hf. reflexivity.
    + destruct (Hocc i) as (p0 & Hp0 & Hf0); [lia|].
      rewrite Hp0. apply Z.eqb_neq in Hf0. rewrite Hf0.
      apply IH; try assumption; try lia.
      intros j' Hj'. apply Hocc. lia.
Qed.

Lemma accept_conn_first_free g s l newfd q j p :
  pollfds g !! 0%nat = Some l -> pending s = R_int newfd :: q ->
  0 <= newfd -> first_free g j p ->
  accept_conn g s
  = claim_slot j p newfd g (Sys 1 q (trace s ++ [E_accept (fd l) newfd])).
Proof.
  intros Hl Hq Hfd (Hj & Hocc & Hp & Hf).
  rewrite (accept_conn_run _ _ _ _ _ Hl Hq).
  apply scan_first_free; try assumption; unfold MAX_CONNECTIONS in *; lia.
Qed.

(** C5, as the code has it: once [accept] has answered, the throttle is
    clear afterwards exactly when a descriptor was accepted and a free
    slot exists, whether or not the handshake then succeeds; otherwise it
    is 1 and the table is untouched.  A failed handshake on the first
    free slot closes the accepted descriptor and leaves the table as it
    was; a successful one claims that slot.  And a [handle_client] call
    leaves the throttle as it is unless it closes its connection. *)
Theorem accept_clears_throttle_for_free_slot g s l newfd q :
  MAX_CONNECTIONS <= Z.of_nat (length (pollfds g)) ->
  pollfds g !! 0%nat = Some l ->
  pending s = R_int newfd :: q ->
  (throttle (snd (accept_conn g s)) = 0 <->
   0 <= newfd /\ exists i, free_slot g i) /\
  (throttle (snd (accept_conn g s)) <> 0 ->
   throttle (snd (accept_conn g s)) = 1 /\ fst (accept_conn g s) = Done g) /\
  (forall j p cctx q',
     0 <= newfd -> first_free g j p ->
     q = R_accept_socket (-1) cctx :: q' ->
     accept_conn g s
     = (Done g,
        Sys 0 q'
          (trace s ++ [E_accept (fd l) newfd; E_tls_accept_socket newfd (-1);
                       E_warn "tls accept failed"; E_close newfd]))) /\
  (forall j p c r cctx fl r2 q',
     0 <= newfd -> first_free g j p -> clients g !! Z.to_nat j = Some c ->
     q = R_accept_socket r cctx :: R_int fl :: R_int r2 :: q' ->
     r <> -1 -> 0 <= fl -> 0 <= r2 ->
     accept_conn g s
     = (Done (Table (<[Z.to_nat j := client_init c cctx]> (clients g))
                (<[Z.to_nat j := Pollfd newfd (Z.lor POLLIN POLLHUP) 0]>
                   (pollfds g))),
        Sys 0 q'
          (trace s ++ [E_accept (fd l) newfd; E_tls_accept_socket newfd r;
                       E_fcntl_getfl newfd fl; E_fcntl_setfl newfd r2]))) /\
  (forall pfd c s1,
     Z.land (revents pfd) (Z.lor POLLERR POLLNVAL) = 0 ->
     settled pfd (throttle s1) (handle_client pfd c s1)).
Proof.
  intros Hlen Hl Hq.
  pose proof (accept_conn_run _ _ _ _ _ Hl Hq) as Hrun.
  set (s1 := Sys 1 q (trace s ++ [E_accept (fd l) newfd])) in *.
  assert (Hcases :
    (throttle (snd (accept_conn g s)) = 1 /\ fst (accept_conn g s) = Done g /\
     (newfd < 0 \/ occupied g 1 MAX_CONNECTIONS)) \/
    (throttle (snd (accept_conn g s)) = 0 /\ 0 <= newfd /\
     exists i, free_slot g i)).
  { destruct (Z.lt_ge_cases newfd 0) as [Hneg|Hpos].
    - left. rewrite Hrun, (scan_negative _ _ _ _ _ Hneg). auto.
    - destruct (scan_cases (Z.to_nat (MAX_CONNECTIONS - 1)) 1 g s1 newfd)
        as [[Hocc Hs]|(j & p & Hj & Hocc & Hp & Hf & Hs)];
        try assumption; try (unfold MAX_CONNECTIONS; lia).
      + left. rewrite Hrun, Hs. auto.
      + right. rewrite Hrun, Hs, claim_slot_throttle.
        split; [reflexivity|]. split; [exact Hpos|].
        exists j. split; [exact Hj|]. exists p. auto. }
  split; [|split; [|split; [|split]]].
  - split.
    + intros H0. destruct Hcases as [(H1 & _)|(_ & Hfd & Hfree)]; [lia|auto].
    + intros (Hfd & i & Hi & p & Hp & Hf).
      destruct Hcases as [(_ & _ & [Hneg|Hocc])|(H0 & _)]; [lia| |exact H0].
      destruct (Hocc i Hi) as (p0 & Hp0 & Hf0). congruence.
  - intros Hne. destruct Hcases as [(H1 & Hd & _)|(H0 & _)]; [auto|lia].
  - intros j p cctx q' Hfd Hff ->.
    rewrite (accept_conn_first_free _ _ _ _ _ _ _ Hl Hq Hfd Hff).
    unfold claim_slot, set_throttle. rewrite bind_run, bind_run.
    unfold tls_accept_socket. cbn [pending].
    change (-1 =? -1) with true. cbv iota.
    unfold warn, close, emit. rewrite bind_run, bind_run.
    cbn [throttle pending trace]. unfold mret, M_ret.
    rewrite <- !app_assoc. reflexivity.
  - intros j p c r cctx fl r2 q' Hfd Hff Hc -> Hr Hfl Hr2.
    rewrite (accept_conn_first_free _ _ _ _ _ _ _ Hl Hq Hfd Hff).
    unfold claim_slot, set_throttle. rewrite bind_run, bind_run.
    unfold tls_accept_socket. cbn [pending].
    apply Z.eqb_neq in Hr. rewrite Hr.
    rewrite bind_run. unfold newconn. rewrite bind_run.
    unfold fcntl_getfl, fcntl_setfl, call_int. cbn [pending throttle trace].
    replace (fl <? 0) with false by (symmetry; apply Z.ltb_ge; lia).
    rewrite bind_run. cbn [pending throttle trace].
    replace (r2 <? 0) with false by (symmetry; apply Z.ltb_ge; lia).
    unfold mret, M_ret. rewrite Hc.
    rewrite <- !app_assoc. reflexivity.
  - intros pfd c s2 He. apply handle_client_settled. exact He.
Qed.

Lemma accept_clears_throttle_for_free_slot_witness :
  let g := empty_table in
  let s := Sys 0 [R_int 7; R_accept_socket (-1) 0] [] in
  let l := listener in
  let newfd := 7 in
  let q := [R_accept_socket (-1) 0] in
  (throttle (snd (accept_conn g s)) = 0 <->
   0 <= newfd /\ exists i, free_slot g i) /\
  (throttle (snd (accept_conn g s)) <> 0 ->
   throttle (snd (accept_conn g s)) = 1 /\ fst (accept_conn g s) = Done g) /\
  (forall j p cctx q',
     0 <= newfd -> first_free g j p ->
     q = R_accept_socket (-1) cctx :: q' ->
     accept_conn g s
     = (Done g,
        Sys 0 q'
          (trace s ++ [E_accept (fd l) newfd; E_tls_accept_socket newfd (-1);
                       E_warn "tls accept failed"; E_close newfd]))) /\
  (forall j p c r cctx fl r2 q',
     0 <= newfd -> first_free g j p -> clients g !! Z.to_nat j = Some c ->
     q = R_accept_socket r cctx :: R_int fl :: R_int r2 :: q' ->
     r <> -1 -> 0 <= fl -> 0 <= r2 ->
     accept_conn g s
     = (Done (Table (<[Z.to_nat j := client_init c cctx]> (clients g))
                (<[Z.to_nat j := Pollfd newfd (Z.lor POLLIN POLLHUP) 0]>
                   (pollfds g))),
        Sys 0 q'
          (trace s ++ [E_accept (fd l) newfd; E_tls_accept_socket newfd r;
                       E_fcntl_getfl newfd fl; E_fcntl_setfl newfd r2]))) /\
  (forall pfd c s1,
     Z.land (revents pfd) (Z.lor POLLERR POLLNVAL) = 0 ->
     settled pfd (throttle s1) (handle_client pfd c s1)).
Proof.
  apply (accept_clears_throttle_for_free_slot empty_table
           (Sys 0 [R_int 7; R_accept_socket (-1) 0] []) listener 7
           [R_accept_socket (-1) 0]).
  - vm_compute. discriminate.
  - reflexivity.
  - reflexivity.
Defined.

(** C5, as the specification words it, fails: slot 1 is free, the
    handshake on the accepted descriptor 7 fails, and the throttle is
    clear afterwards. *)
Lemma failed_handshake_clears_throttle :
  first_free empty_table 1 free_pfd /\
  accept_conn empty_table (Sys 0 [R_int 7; R_accept_socket (-1) 0] [])
  = (Done empty_table,
     Sys 0 [] [E_accept 3 7; E_tls_accept_socket 7 (-1);
               E_warn "tls accept failed"; E_close 7]).
Proof.
  split; [|reflexivity].
  unfold first_free, occupied, MAX_CONNECTIONS.
  split_and!; try reflexivity; lia.
Qed.

(** C10: when [accept] answers a negative descriptor the dispatcher sets
    the throttle to 1 and returns without looking at a single slot (the
    table is untouched and [accept] is the only call made), whatever free
    slots there are; with the throttle set the head of the loop asks for
    no event on the listening slot; and a [handle_client] call leaves the
    throttle as it is unless it closes its connection, which clears it. *)
Theorem failed_accept_leaves_throttle_set g s l newfd q :
  pollfds g !! 0%nat = Some l ->
  pending s = R_int newfd :: q ->
  newfd < 0 ->
  accept_conn g s
  = (Done g, Sys 1 q (trace s ++ [E_accept (fd l) newfd])) /\
  (forall g1 l1 s1,
     pollfds g1 !! 0%nat = Some l1 -> throttle s1 <> 0 ->
     arm_listener g1 s1
     = (Done (Table (clients g1) (<[0%nat := set_events 0 l1]> (pollfds g1))),
        s1)) /\
  (forall pfd c s1,
     Z.land (revents pfd) (Z.lor POLLERR POLLNVAL) = 0 ->
     settled pfd (throttle s1) (handle_client pfd c s1)).
Proof.
  intros Hl Hq Hneg. split; [|split].
  - rewrite (accept_conn_run _ _ _ _ _ Hl Hq). apply scan_negative. exact Hneg.
  - intros g1 l1 s1 Hl1 Ht. unfold arm_listener, listen_events. rewrite Hl1.
    apply Z.eqb_neq in Ht. rewrite Ht. reflexivity.
  - intros pfd c s1 He. apply handle_client_settled. exact He.
Qed.

Lemma failed_accept_leaves_throttle_set_witness :
  (exists i, free_slot empty_table i) /\
  accept_conn empty_table (Sys 0 [R_int (-1)] [])
  = (Done empty_table, Sys 1 [] ([] ++ [E_accept (fd listener) (-1)])) /\
  (forall g1 l1 s1,
     pollfds g1 !! 0%nat = Some l1 -> throttle s1 <> 0 ->
     arm_listener g1 s1
     = (Done (Table (clients g1) (<[0%nat := set_events 0 l1]> (pollfds g1))),
        s1)) /\
  (forall pfd c s1,
     Z.land (revents pfd) (Z.lor POLLERR POLLNVAL) = 0 ->
     settled pfd (throttle s1) (handle_client pfd c s1)).
Proof.
  split.
  - exists 1. unfold free_slot, MAX_CONNECTIONS. split; [lia|].
    exists free_pfd. split; reflexivity.
  - apply (failed_accept_leaves_throttle_set empty_table
             (Sys 0 [R_int (-1)] []) listener (-1) []).
    + reflexivity.
    + reflexivity.
    + lia.
Defined.

Lemma sum_list_pos ks : Forall (fun k => 0 < k) ks -> 0 <= sum_list ks.
Proof. induction 1; cbn [sum_list]; lia. Qed.

Section Echo.

Variables (N o : Z) (data : list Byte.byte).
Hypothesis HN : 0 < N.
Hypothesis Ho : 0 <= o.
Hypothesis HoN : o + N <= BUFLEN - 1.
Hypothesis Hdata : Z.of_nat (length data) = N.

Lemma echoing_get c sent :
  echoing N o data c sent -> 0 <= sent < N ->
  client_get c BUFLEN
  = Some (set_nextptr (o + N) c, drop (Z.to_nat sent) data).
Proof.
  intros (Hst & Hlen & Hr & Hw & Hbuf) Hsent.
  destruct (client_get_spec c BUFLEN Hlen) as (out & Hrun & Hn & Hbytes).
  { rewrite Hr. unfold in_buf, BUFLEN in *. lia. }
  { rewrite Hw. unfold in_buf, BUFLEN in *. lia. }
  { unfold BUFLEN. lia. }
  assert (Hused : used c = N - sent).
  { unfold used. rewrite Hr, Hw. unfold BUFLEN in *.
    Z.div_mod_to_equations. lia. }
  rewrite Hused in Hn.
  assert (Hlo : Z.of_nat (length out) = N - sent) by (unfold BUFLEN in *; lia).
  assert (Hout : out = drop (Z.to_nat sent) data).
  { apply list_eq. intros i. rewrite lookup_drop.
    destruct (decide (i < length out)%nat) as [Hi|Hi].
    - rewrite <- (Hbytes i Hi). rewrite Hr.
      rewrite Z.mod_small by (unfold BUFLEN in *; lia).
      replace (o + sent + Z.of_nat i) with (o + (sent + Z.of_nat i)) by lia.
      rewrite Hbuf by lia. f_equal. lia.
    - rewrite !lookup_ge_None_2 by lia. reflexivity. }
  rewrite Hrun. f_equal. f_equal; [|exact Hout].
  destruct out as [|b out']; [cbn [length] in Hlo; lia|].
  cbn [peeked]. f_equal. rewrite Hr, Hlo.
  replace (o + sent + (N - sent)) with (o + N) by lia.
  apply Z.mod_small. unfold BUFLEN in *. lia.
Qed.

Lemma echoing_consume c sent k :
  echoing N o data c sent -> 0 <= sent -> 0 < k -> sent + k <= N ->
  client_consume (set_nextptr (o + N) c) k
  = (set_readptr (o + (sent + k)) (set_nextptr (o + N) c), k).
Proof.
  intros (Hst & Hlen & Hr & Hw & Hbuf) Hsent Hk Hle.
  destruct (client_consume_spec (set_nextptr (o + N) c) k) as (m & Hrun & _ & Hm & _);
    [lia|].
  cbn [readptr nextptr set_nextptr] in Hm, Hrun.
  rewrite Hr in Hm, Hrun.
  assert (Hmk : m = k) by lia. subst m.
  rewrite Hrun. f_equal. f_equal. lia.
Qed.

Lemma drain_steps ks : forall routs pfd c s sent q,
  Forall (ready (Z.lor POLLOUT POLLHUP)) routs ->
  length routs = length ks ->
  Forall (fun k => 0 < k) ks -> ks <> [] ->
  sum_list ks = N - sent -> 0 <= sent ->
  events pfd = Z.lor POLLOUT POLLHUP ->
  echoing N o data c sent ->
  pending s = map R_int ks ++ q ->
  exists p' c',
    notify_all routs (pfd, c) s
    = (Done (p', c'),
       Sys (throttle s) q
         (trace s ++ write_events (ctx c) (drop (Z.to_nat sent) data) ks)) /\
    state c' = STATE_READING /\
    readptr c' = o + N /\ writeptr c' = o + N /\
    fd p' = fd pfd /\ events p' = Z.lor POLLIN POLLHUP.
Proof.
  induction ks as [|k ks IH];
    intros routs pfd c s sent q Hrdy Hlen Hpos Hne Hsum Hsent Hev Hech Hq;
    [congruence|].
  destruct routs as [|rv routs]; [discriminate Hlen|].
  apply Forall_cons in Hrdy as [Hrv Hrdy].
  apply Forall_cons in Hpos as [Hk Hpos].
  cbn [sum_list] in Hsum. pose proof (sum_list_pos ks Hpos) as Hrest.
  cbn [notify_all]. rewrite bind_run. unfold notify. cbn [fst snd].
  rewrite handle_client_ready
    by (cbn [events revents set_revents]; rewrite Hev; exact Hrv).
  pose proof Hech as (Hst & Hbl & Hr & Hw & Hbuf).
  rewrite Hst. change (STATE_WRITING =? STATE_READING) with false.
  change (STATE_WRITING =? STATE_WRITING) with true. cbv iota.
  unfold handle_writing.
  rewrite (echoing_get c sent Hech) by lia.
  assert (Hlo : Z.of_nat (length (drop (Z.to_nat sent) data)) = N - sent).
  { rewrite length_drop. lia. }
  rewrite Hlo. cbv zeta.
  replace (N - sent =? 0) with false by (symmetry; apply Z.eqb_neq; lia).
  cbn [negb]. rewrite bind_run, bind_run.
  unfold tls_write, call_int. rewrite Hq. cbn [map app].
  replace (k =? TLS_WANT_POLLIN) with false
    by (symmetry; apply Z.eqb_neq; unfold TLS_WANT_POLLIN; lia).
  replace (k =? TLS_WANT_POLLOUT) with false
    by (symmetry; apply Z.eqb_neq; unfold TLS_WANT_POLLOUT; lia).
  replace (k <? 0) with false by (symmetry; apply Z.ltb_ge; lia).
  rewrite (echoing_consume c sent k Hech) by lia.
  unfold mret at 1, M_ret at 1. cbn [fst].
  set (s1 := Sys (throttle s) (map R_int ks ++ q) _).
  set (c2 := set_readptr (o + (sent + k)) (set_nextptr (o + N) c)).
  destruct ks as [|k2 ks].
  - (* the last step: everything left was confirmed *)
    cbn [sum_list] in Hsum.
    replace (k =? N - sent) with true by (symmetry; apply Z.eqb_eq; lia).
    destruct routs; [|discriminate Hlen].
    unfold mret, M_ret. cbn [notify_all].
    eexists _, _. split; [reflexivity|].
    cbn. repeat split; try lia. 
  - (* a partial step *)
    assert (Hk2 : 0 < sum_list (k2 :: ks)).
    { apply Forall_cons in Hpos as [Hk2 Hpos'].
      pose proof (sum_list_pos ks Hpos'). cbn [sum_list]. lia. }
    replace (k =? N - sent) with false by (symmetry; apply Z.eqb_neq; lia).
    unfold mret, M_ret.
    assert (Hech2 : echoing N o data c2 (sent + k)).
    { subst c2. unfold echoing. cbn. repeat split; try assumption. }
    assert (Hlen' : length routs = length (k2 :: ks))
      by (cbn [length] in Hlen |- *; lia).
    assert (Hne' : k2 :: ks <> []) by discriminate.
    assert (Hsum' : sum_list (k2 :: ks) = N - (sent + k))
      by (cbn [sum_list] in Hsum |- *; lia).
    assert (Hsent' : 0 <= sent + k) by lia.
    assert (Hq' : pending s1 = map R_int (k2 :: ks) ++ q) by reflexivity.
    destruct (IH routs (set_revents rv pfd) c2 s1 (sent + k) q
                Hrdy Hlen' Hpos Hne' Hsum' Hsent' Hev Hech2 Hq')
      as (p' & c' & Hrun & Hfin).
    assert (Htr :
      trace s1 ++ write_events (ctx c2) (drop (Z.to_nat (sent + k)) data)
                    (k2 :: ks)
      = trace s ++ write_events (ctx c) (drop (Z.to_nat sent) data)
                     (k :: k2 :: ks)).
    { subst s1 c2. cbn [trace ctx set_readptr set_nextptr].
      rewrite <- app_assoc. cbn [app].
      change (write_events (ctx c) (drop (Z.to_nat sent) data) (k :: k2 :: ks))
        with (E_tls_write (ctx c) (drop (Z.to_nat sent) data) k
                :: write_events (ctx c)
                     (drop (Z.to_nat k) (drop (Z.to_nat sent) data))
                     (k2 :: ks)).
      rewrite drop_drop.
      replace (Z.to_nat sent + Z.to_nat k)%nat with (Z.to_nat (sent + k))
        by lia.
      reflexivity. }
    exists p', c'. split; [|exact Hfin].
    rewrite Hrun, Htr. reflexivity.
Qed.

End Echo.

(** C7, as the code has it: for [0 < N] and a connection in
    [STATE_READING] whose buffer is empty with both cursors at offset [o],
    [o + N <= BUFLEN - 1] (for a connection fresh from [client_init],
    every [N <= 4095]): when [tls_read] delivers [N] bytes and the
    following [tls_write] calls confirm the positive counts [ks], which
    sum to [N], the connection ends in [STATE_READING] with an empty
    buffer, still open and asking for [POLLIN | POLLHUP]; every
    [tls_write] was offered exactly the bytes not yet confirmed. *)
Theorem echo_completes_after_partial_writes
  N o data ks rin routs pfd c s q :
  0 < N -> 0 <= o -> o + N <= BUFLEN - 1 ->
  Z.of_nat (length data) = N ->
  state c = STATE_READING ->
  Z.of_nat (length (buf c)) = BUFLEN ->
  readptr c = o -> writeptr c = o ->
  ready (events pfd) rin ->
  Forall (ready (Z.lor POLLOUT POLLHUP)) routs ->
  length routs = length ks ->
  Forall (fun k => 0 < k) ks -> sum_list ks = N ->
  pending s = R_read N data :: map R_int ks ++ q ->
  exists p' c',
    notify_all (rin :: routs) (pfd, c) s
    = (Done (p', c'),
       Sys (throttle s) q
         (trace s ++ E_tls_read (ctx c) BUFLEN N
                       :: write_events (ctx c) data ks)) /\
    state c' = STATE_READING /\
    readptr c' = writeptr c' /\ used c' = 0 /\
    fd p' = fd pfd /\ events p' = Z.lor POLLIN POLLHUP.
Proof.
  intros HN Ho HoN Hdata Hst Hlen Hr Hw Hrin Hrouts Hlr Hpos Hsum Hq.
  cbn [notify_all]. rewrite bind_run. unfold notify. cbn [fst snd].
  rewrite handle_client_ready by exact Hrin.
  rewrite Hst. change (STATE_READING =? STATE_READING) with true. cbv iota.
  unfold handle_reading. rewrite bind_run. unfold tls_read. rewrite Hq.
  replace (N =? TLS_WANT_POLLIN) with false
    by (symmetry; apply Z.eqb_neq; unfold TLS_WANT_POLLIN; lia).
  replace (N =? TLS_WANT_POLLOUT) with false
    by (symmetry; apply Z.eqb_neq; unfold TLS_WANT_POLLOUT; lia).
  replace (N <? 0) with false by (symmetry; apply Z.ltb_ge; lia).
  replace (N =? 0) with false by (symmetry; apply Z.eqb_neq; lia).
  destruct (client_put_spec c data N Hlen)
    as (c1 & Hput & Hst1 & Hr1 & _ & Hctx1 & Hw1 & Hlen1 & Hbuf1);
    [rewrite Hr; unfold in_buf, BUFLEN in *; lia
    |rewrite Hw; unfold in_buf, BUFLEN in *; lia | lia |].
  assert (Hfree : free c = BUFLEN - 1).
  { unfold free. rewrite Hr, Hw. unfold BUFLEN. Z.div_mod_to_equations. lia. }
  rewrite Hfree, Z.min_l in Hput, Hw1, Hbuf1 by lia.
  rewrite Hput, Z.eqb_refl. cbn [negb]. unfold mret at 1, M_ret at 1.
  set (s1 := Sys (throttle s) (map R_int ks ++ q)
               (trace s ++ [E_tls_read (ctx c) BUFLEN N])).
  assert (Hech : echoing N o data (set_state STATE_WRITING c1) 0).
  { unfold echoing. cbn [state readptr writeptr buf set_state].
    split_and!; try assumption; try reflexivity.
    - rewrite Hr1, Hr. lia.
    - rewrite Hw1, Hw. apply Z.mod_small. unfold BUFLEN in *. lia.
    - intros i Hi. rewrite Hbuf1 by (unfold in_buf, BUFLEN in *; lia).
      rewrite Hw. replace (o + i - o) with i by lia.
      rewrite Z.mod_small by (unfold BUFLEN in *; lia).
      replace (i <? N) with true by (symmetry; apply Z.ltb_lt; lia).
      reflexivity. }
  assert (Hne : ks <> []).
  { intros ->. cbn [sum_list] in Hsum. lia. }
  destruct (drain_steps N o data HN Ho HoN Hdata ks routs
              (set_events (Z.lor POLLOUT POLLHUP) (set_revents rin pfd))
              (set_state STATE_WRITING c1) s1 0 q)
    as (p' & c' & Hrun & Hst' & Hr' & Hw' & Hfd & Hev);
    try assumption; try reflexivity; try lia.
  exists p', c'. rewrite Hrun. split.
  - subst s1. cbn [throttle trace ctx set_state].
    rewrite Hctx1, <- app_assoc. reflexivity.
  - split_and!; try assumption.
    + congruence.
    + unfold used. rewrite Hr', Hw', Z.sub_diag. reflexivity.
Qed.

Lemma echo_completes_after_partial_writes_witness :
  exists p' c',
    notify_all [POLLIN; POLLOUT; POLLOUT] (slot5, fresh)
      (Sys 0 [R_read 5 hello; R_int 2; R_int 3] [])
    = (Done (p', c'),
       Sys 0 []
         ([] ++ E_tls_read (ctx fresh) BUFLEN 5
                  :: write_events (ctx fresh) hello [2; 3])) /\
    state c' = STATE_READING /\
    readptr c' = writeptr c' /\ used c' = 0 /\
    fd p' = fd slot5 /\ events p' = Z.lor POLLIN POLLHUP.
Proof.
  apply (echo_completes_after_partial_writes 5 0 hello [2; 3] POLLIN
           [POLLOUT; POLLOUT] slot5 fresh
           (Sys 0 [R_read 5 hello; R_int 2; R_int 3] []) []).
  - lia.
  - lia.
  - unfold BUFLEN. lia.
  - reflexivity.
  - reflexivity.
  - vm_compute. reflexivity.
  - reflexivity.
  - reflexivity.
  - ready_now.
  - repeat constructor; discriminate.
  - reflexivity.
  - repeat constructor.
  - reflexivity.
  - reflexivity.
Defined.

(** C7, as the specification words it, fails at [N = 4096]: the fresh
    connection takes 4095 of the 4096 bytes read, and is closed. *)
Lemma full_read_closes_connection :
  exists c',
    notify POLLIN (slot5, fresh)
      (Sys 0 [R_read BUFLEN (replicate (Z.to_nat BUFLEN) Byte.x61); R_int 0] [])
    = (Done (Pollfd (-1) (Z.lor POLLIN POLLHUP) 0, c'),
       Sys 0 []
         [E_tls_read 7 BUFLEN BUFLEN; E_warn "client buffer failed";
          E_tls_close 7 0; E_tls_free 7; E_close 5]).
Proof.
  destruct cursors_fresh as (Hr & Hw & _ & Hlen).
  destruct (client_put_spec fresh (replicate (Z.to_nat BUFLEN) Byte.x61)
              BUFLEN Hlen)
    as (c1 & Hput & _ & _ & _ & Hctx & _);
    [rewrite Hr; unfold in_buf, BUFLEN; lia
    |rewrite Hw; unfold in_buf, BUFLEN; lia
    |rewrite length_replicate; unfold BUFLEN; lia |].
  change (Z.min BUFLEN (free fresh)) with 4095 in Hput.
  exists c1. unfold notify. cbn [fst snd].
  rewrite handle_client_ready by ready_now.
  change (state fresh =? STATE_READING) with true. cbv iota.
  unfold handle_reading. rewrite bind_run. unfold tls_read.
  cbn [pending]. change (BUFLEN =? TLS_WANT_POLLIN) with false.
  change (BUFLEN =? TLS_WANT_POLLOUT) with false.
  change (BUFLEN <? 0) with false. change (BUFLEN =? 0) with false.
  cbv iota. rewrite Hput. change (4095 =? BUFLEN) with false.
  cbn [negb]. unfold warn, emit. rewrite bind_run, bind_run.
  unfold closeconn. cbn [pending throttle trace length close_retry].
  rewrite bind_run, bind_run. unfold tls_close, call_int.
  cbn [pending throttle trace]. change (is_want 0) with false. cbv iota.
  unfold mret at 1, M_ret at 1.
  unfold tls_free, close, emit, set_throttle.
  rewrite bind_run, bind_run, bind_run.
  cbn [pending throttle trace fd events slot5 set_revents].
  rewrite Hctx. reflexivity.
Qed.

End Machine.

(** ** More on the buffer *)

Section BufferExtras.

(** What is read out after a [client_put] is what was readable before it,
    followed by the bytes the put accepted, in order; this holds wherever
    the cursors stand in the array, also when the new bytes go round its
    end. *)
Theorem put_then_get_is_fifo c data :
  Z.of_nat (length (buf c)) = BUFLEN ->
  in_buf (readptr c) -> in_buf (writeptr c) ->
  exists old c1 n c2,
    client_get c BUFLEN = Some (peeked c (readptr c) old, old) /\
    client_put c data (Z.of_nat (length data)) = Some (c1, n) /\
    n = Z.min (Z.of_nat (length data)) (free c) /\
    client_get c1 BUFLEN = Some (c2, old ++ take (Z.to_nat n) data).
Proof.
  intros Hlen Hr Hw.
  destruct (client_get_spec c BUFLEN Hlen Hr Hw) as (old & Hget & Hno & Hold);
    [unfold BUFLEN; lia|].
  destruct (client_put_spec c data (Z.of_nat (length data)) Hlen Hr Hw)
    as (c1 & Hput & _ & Hr1 & _ & _ & Hw1 & Hlen1 & Hbuf1); [lia|].
  pose proof (used_range c) as Hu. pose proof (free_range c) as Hf.
  pose proof (free_used c Hr Hw) as Hfu.
  set (n := Z.min (Z.of_nat (length data)) (free c)) in *.
  assert (Hn : 0 <= n <= free c /\ n <= Z.of_nat (length data)) by lia.
  assert (Hw1i : in_buf (writeptr c1)).
  { rewrite Hw1. unfold in_buf, BUFLEN. Z.div_mod_to_equations. lia. }
  destruct (client_get_spec c1 BUFLEN Hlen1) as (out & Hget1 & Hn1 & Hout);
    [rewrite Hr1; exact Hr | exact Hw1i | unfold BUFLEN; lia |].
  assert (Hu1 : used c1 = used c + n).
  { unfold used in *. rewrite Hr1, Hw1. unfold in_buf, BUFLEN in *.
    Z.div_mod_to_equations. lia. }
  rewrite Z.min_r in Hno by lia. rewrite Z.min_r in Hn1 by (unfold BUFLEN in *; lia).
  rewrite Hr1 in Hout.
  assert (Heq : out = old ++ take (Z.to_nat n) data).
  { apply list_eq. intros i.
    destruct (decide (i < length out)%nat) as [Hi|Hi].
    - rewrite <- (Hout i Hi).
      assert (Hoff : in_buf ((readptr c + Z.of_nat i) mod BUFLEN)).
      { unfold in_buf, BUFLEN. Z.div_mod_to_equations. lia. }
      rewrite (Hbuf1 _ Hoff).
      destruct (decide (i < length old)%nat) as [Ho|Ho].
      + rewrite lookup_app_l by exact Ho. rewrite <- (Hold i Ho).
        replace (((readptr c + Z.of_nat i) mod BUFLEN - writeptr c) mod BUFLEN
                   <? n) with false; [reflexivity|].
        symmetry. apply Z.ltb_ge. unfold used, in_buf, BUFLEN in *.
        Z.div_mod_to_equations. lia.
      + rewrite lookup_app_r by lia.
        assert (Hd : ((readptr c + Z.of_nat i) mod BUFLEN - writeptr c)
                       mod BUFLEN = Z.of_nat i - used c).
        { unfold used, in_buf, BUFLEN in *. Z.div_mod_to_equations. lia. }
        rewrite Hd.
        replace (Z.of_nat i - used c <? n) with true
          by (symmetry; apply Z.ltb_lt; lia).
        rewrite lookup_take_lt by lia. f_equal. lia.
    - rewrite lookup_ge_None_2 by lia.
      rewrite lookup_ge_None_2; [reflexivity|].
      rewrite length_app, length_take. lia. }
  exists old, c1, n, (peeked c1 (readptr c) out).
  rewrite <- Hr1 at 2. rewrite <- Heq.
  split_and!; try assumption; reflexivity.
Qed.

Lemma put_then_get_is_fifo_witness :
  exists old c1 n c2,
    client_get half_peeked BUFLEN
    = Some (peeked half_peeked (readptr half_peeked) old, old) /\
    client_put half_peeked hello (Z.of_nat (length hello)) = Some (c1, n) /\
    n = Z.min (Z.of_nat (length hello)) (free half_peeked) /\
    client_get c1 BUFLEN = Some (c2, old ++ take (Z.to_nat n) hello).
Proof.
  apply (put_then_get_is_fifo half_peeked hello).
  - vm_compute. reflexivity.
  - unfold in_buf. vm_compute. split; congruence.
  - unfold in_buf. vm_compute. split; congruence.
Defined.

(** [client_put] and [client_get] keep the three cursors inside the
    array: each wraps the cursor it moves, and moves no other. *)
Theorem put_and_get_keep_cursors_in_buf c :
  Z.of_nat (length (buf c)) = BUFLEN ->
  in_buf (readptr c) -> in_buf (writeptr c) -> in_buf (nextptr c) ->
  (forall inbuf inlen, 0 <= inlen <= Z.of_nat (length inbuf) ->
     exists c' n,
       client_put c inbuf inlen = Some (c', n) /\ 0 <= n <= inlen /\
       Z.of_nat (length (buf c')) = BUFLEN /\
       in_buf (readptr c') /\ in_buf (writeptr c') /\ in_buf (nextptr c')) /\
  (forall outlen, 0 <= outlen ->
     exists c' out,
       client_get c outlen = Some (c', out) /\
       Z.of_nat (length out) <= outlen /\
       Z.of_nat (length (buf c')) = BUFLEN /\
       in_buf (readptr c') /\ in_buf (writeptr c') /\ in_buf (nextptr c')).
Proof.
  intros Hlen Hr Hw Hp. split.
  - intros inbuf inlen Hin.
    destruct (client_put_spec c inbuf inlen Hlen Hr Hw Hin)
      as (c' & Hrun & _ & Hr' & Hp' & _ & Hw' & Hlen' & _).
    pose proof (free_range c) as Hf.
    exists c', (Z.min inlen (free c)). rewrite Hr', Hp', Hw'.
    split_and!; try assumption; try lia.
    unfold in_buf, BUFLEN. Z.div_mod_to_equations. lia.
  - intros outlen Hout.
    destruct (client_get_spec c outlen Hlen Hr Hw Hout) as (out & Hrun & Hn & _).
    exists (peeked c (readptr c) out), out.
    split; [exact Hrun|]. split; [lia|].
    destruct out as [|b out]; cbn [peeked]; [auto|].
    cbn [buf readptr writeptr nextptr set_nextptr].
    split_and!; try assumption.
    unfold in_buf, BUFLEN. Z.div_mod_to_equations. lia.
Qed.

Lemma put_and_get_keep_cursors_in_buf_witness :
  (forall inbuf inlen, 0 <= inlen <= Z.of_nat (length inbuf) ->
     exists c' n,
       client_put half_peeked inbuf inlen = Some (c', n) /\ 0 <= n <= inlen /\
       Z.of_nat (length (buf c')) = BUFLEN /\
       in_buf (readptr c') /\ in_buf (writeptr c') /\ in_buf (nextptr c')) /\
  (forall outlen, 0 <= outlen ->
     exists c' out,
       client_get half_peeked outlen = Some (c', out) /\
       Z.of_nat (length out) <= outlen /\
       Z.of_nat (length (buf c')) = BUFLEN /\
       in_buf (readptr c') /\ in_buf (writeptr c') /\ in_buf (nextptr c')).
Proof.
  apply (put_and_get_keep_cursors_in_buf half_peeked).
  - vm_compute. reflexivity.
  - unfold in_buf. vm_compute. split; congruence.
  - unfold in_buf. vm_compute. split; congruence.
  - unfold in_buf. vm_compute. split; congruence.
Defined.

(** While the read cursor is not beyond the peek cursor, [client_consume]
    advances it by [len] or up to the peek cursor, whichever comes first,
    returns that count and touches nothing else: it never consumes a byte
    that [client_get] has not handed out. *)
Theorem client_consume_stops_at_peek c len :
  0 <= len -> readptr c <= nextptr c ->
  exists c',
    client_consume c len = (c', Z.min len (nextptr c - readptr c)) /\
    readptr c' = readptr c + Z.min len (nextptr c - readptr c) /\
    readptr c' <= nextptr c' /\
    nextptr c' = nextptr c /\ writeptr c' = writeptr c /\
    buf c' = buf c /\ state c' = state c /\ ctx c' = ctx c.
Proof.
  intros Hlen Hle.
  destruct (client_consume_spec c len Hlen) as (m & Hrun & _ & Hm & _).
  specialize (Hm Hle). subst m.
  eexists. split; [exact Hrun|].
  cbn [readptr nextptr writeptr buf state ctx set_readptr].
  split_and!; try reflexivity. lia.
Qed.

Lemma client_consume_stops_at_peek_witness :
  exists c',
    client_consume half_peeked 5
    = (c', Z.min 5 (nextptr half_peeked - readptr half_peeked)) /\
    readptr c' = readptr half_peeked
                 + Z.min 5 (nextptr half_peeked - readptr half_peeked) /\
    readptr c' <= nextptr c' /\
    nextptr c' = nextptr half_peeked /\ writeptr c' = writeptr half_peeked /\
    buf c' = buf half_peeked /\ state c' = state half_peeked /\
    ctx c' = ctx half_peeked.
Proof.
  apply (client_consume_stops_at_peek half_peeked 5).
  - lia.
  - vm_compute. discriminate.
Defined.

(** Reading out all there is and consuming what was read, on a buffer
    that is not empty: the count is the number of bytes held.  When these
    bytes do not run round the end of the array the buffer is empty
    afterwards, the read cursor on the write cursor; when they do, the
    read cursor ends [BUFLEN] beyond the write cursor, outside the array,
    because [client_consume] does not wrap it. *)
Theorem drain_moves_read_cursor_by_count t :
  Z.of_nat (length (buf (cl t))) = BUFLEN ->
  in_buf (readptr (cl t)) -> in_buf (writeptr (cl t)) ->
  readptr (cl t) <> writeptr (cl t) ->
  exists t',
    step t (Drain BUFLEN) = Some t' /\
    total_consumed t' = total_consumed t + used (cl t) /\
    total_put t' = total_put t /\
    writeptr (cl t') = writeptr (cl t) /\
    nextptr (cl t') = writeptr (cl t) /\
    (readptr (cl t) < writeptr (cl t) ->
     readptr (cl t') = writeptr (cl t)) /\
    (writeptr (cl t) < readptr (cl t) ->
     readptr (cl t') = writeptr (cl t) + BUFLEN).
Proof.
  intros Hlen Hr Hw Hne.
  destruct (step_drain t (readptr (cl t)) (writeptr (cl t)) (nextptr (cl t)))
    as (t' & Hrun & (Hr' & Hw' & Hp' & _) & Hput & Hcon); try assumption.
  { unfold cursors. auto. }
  fold (used (cl t)) in *. exists t'.
  split_and!; try assumption.
  - intros Hlt. rewrite Hr'. unfold used, in_buf, BUFLEN in *.
    Z.div_mod_to_equations. lia.
  - intros Hlt. rewrite Hr'. unfold used, in_buf, BUFLEN in *.
    Z.div_mod_to_equations. lia.
Qed.

Lemma drain_moves_read_cursor_by_count_witness :
  let t := Tally half_peeked 2 0 [] in
  exists t',
    step t (Drain BUFLEN) = Some t' /\
    total_consumed t' = total_consumed t + used (cl t) /\
    total_put t' = total_put t /\
    writeptr (cl t') = writeptr (cl t) /\
    nextptr (cl t') = writeptr (cl t) /\
    (readptr (cl t) < writeptr (cl t) ->
     readptr (cl t') = writeptr (cl t)) /\
    (writeptr (cl t) < readptr (cl t) ->
     readptr (cl t') = writeptr (cl t) + BUFLEN).
Proof.
  apply (drain_moves_read_cursor_by_count (Tally half_peeked 2 0 [])).
  - vm_compute. reflexivity.
  - unfold in_buf. vm_compute. split; congruence.
  - unfold in_buf. vm_compute. split; congruence.
  - vm_compute. discriminate.
Defined.

End BufferExtras.

(** ** More on the state machine *)

Section MachineExtras.

Ltac ready_evt :=
  unfold ready; cbn; split_and!; try reflexivity; discriminate.

Lemma close_retry_run tls wants : forall k s r q,
  Forall (fun i => is_want i = true) wants -> is_want r = false ->
  pending s = map R_int wants ++ R_int r :: q ->
  (length wants < k)%nat ->
  close_retry k tls s
  = (Done tt,
     Sys (throttle s) q
       (trace s ++ map (E_tls_close tls) wants ++ [E_tls_close tls r])).
Proof.
  induction wants as [|w wants IH]; intros k s r q Hw Hr Hq Hk;
    (destruct k as [|k]; [cbn in Hk; lia|]);
    cbn [close_retry]; rewrite bind_run; unfold tls_close, call_int;
    rewrite Hq; cbn [map app].
  - rewrite Hr. reflexivity.
  - apply Forall_cons in Hw as [Hw0 Hw]. rewrite Hw0.
    rewrite (IH k _ r q Hw Hr); [|reflexivity|cbn in Hk; lia].
    cbn [throttle trace]. rewrite <- app_assoc. reflexivity.
Qed.

Lemma close_retry_starved tls wants : forall k s,
  Forall (fun i => is_want i = true) wants ->
  pending s = map R_int wants -> (length wants <= k)%nat ->
  close_retry k tls s
  = (Blocked, Sys (throttle s) [] (trace s ++ map (E_tls_close tls) wants)).
Proof.
  induction wants as [|w wants IH]; intros k s Hw Hq Hk.
  - cbn [map]. rewrite app_nil_r. destruct s as [t p tr]. cbn in Hq. subst p.
    destruct k; reflexivity.
  - apply Forall_cons in Hw as [Hw0 Hw].
    destruct k as [|k]; [cbn in Hk; lia|].
    cbn [close_retry]. rewrite bind_run. unfold tls_close, call_int.
    rewrite Hq. cbn [map]. rewrite Hw0.
    rewrite (IH k _ Hw); [|reflexivity|cbn in Hk; lia].
    cbn [throttle trace]. rewrite <- app_assoc. reflexivity.
Qed.

Lemma closeconn_run pfd c s wants r q :
  Forall (fun i => is_want i = true) wants -> is_want r = false ->
  pending s = map R_int wants ++ R_int r :: q ->
  closeconn pfd c s
  = (Done (Pollfd (-1) (events pfd) 0),
     Sys 0 q
       (trace s ++ map (E_tls_close (ctx c)) wants
          ++ [E_tls_close (ctx c) r; E_tls_free (ctx c); E_close (fd pfd)])).
Proof.
  intros Hw Hr Hq. unfold closeconn. rewrite bind_run.
  rewrite (close_retry_run (ctx c) wants _ s r q Hw Hr Hq)
    by (rewrite Hq, length_app, length_map; cbn [length]; lia).
  unfold tls_free, close, emit, set_throttle.
  rewrite bind_run, bind_run, bind_run. cbn [throttle pending trace].
  unfold mret, M_ret. rewrite <- !app_assoc. reflexivity.
Qed.

(** [closeconn] calls [tls_close] again for as long as it answers
    [TLS_WANT_POLLIN] or [TLS_WANT_POLLOUT]; on the first other answer,
    an error included, it frees the context, closes the descriptor, marks
    the slot free ([fd = -1], [revents = 0], [events] kept) and clears
    the throttle. *)
Theorem closeconn_retries_until_done pfd c s wants r q :
  Forall (fun i => is_want i = true) wants -> is_want r = false ->
  pending s = map R_int wants ++ R_int r :: q ->
  closeconn pfd c s
  = (Done (Pollfd (-1) (events pfd) 0),
     Sys 0 q
       (trace s ++ map (E_tls_close (ctx c)) wants
          ++ [E_tls_close (ctx c) r; E_tls_free (ctx c); E_close (fd pfd)])).
Proof. apply closeconn_run. Qed.

Lemma closeconn_retries_until_done_witness :
  closeconn slot5 fresh
    (Sys 1 (map R_int [TLS_WANT_POLLIN; TLS_WANT_POLLOUT] ++ R_int (-1) :: [])
       [])
  = (Done (Pollfd (-1) (events slot5) 0),
     Sys 0 []
       ([] ++ map (E_tls_close (ctx fresh)) [TLS_WANT_POLLIN; TLS_WANT_POLLOUT]
          ++ [E_tls_close (ctx fresh) (-1); E_tls_free (ctx fresh);
              E_close (fd slot5)])).
Proof.
  apply (closeconn_retries_until_done slot5 fresh
           (Sys 1 (map R_int [TLS_WANT_POLLIN; TLS_WANT_POLLOUT]
                     ++ R_int (-1) :: []) [])
           [TLS_WANT_POLLIN; TLS_WANT_POLLOUT] (-1) []).
  - repeat constructor.
  - reflexivity.
  - reflexivity.
Defined.

(** As long as every answer of [tls_close] is a retry request,
    [closeconn] goes on calling it and does nothing else: it neither
    frees the context nor closes the descriptor, and the throttle is as
    it was. *)
Theorem closeconn_waits_for_tls_close pfd c s wants :
  Forall (fun i => is_want i = true) wants ->
  pending s = map R_int wants ->
  closeconn pfd c s
  = (Blocked,
     Sys (throttle s) [] (trace s ++ map (E_tls_close (ctx c)) wants)).
Proof.
  intros Hw Hq. unfold closeconn. rewrite bind_run.
  rewrite (close_retry_starved (ctx c) wants _ s Hw Hq)
    by (rewrite Hq, length_map; lia).
  reflexivity.
Qed.

Lemma closeconn_waits_for_tls_close_witness :
  closeconn slot5 fresh
    (Sys 1 (map R_int [TLS_WANT_POLLIN; TLS_WANT_POLLIN; TLS_WANT_POLLOUT]) [])
  = (Blocked,
     Sys 1 []
       ([] ++ map (E_tls_close (ctx fresh))
                [TLS_WANT_POLLIN; TLS_WANT_POLLIN; TLS_WANT_POLLOUT])).
Proof.
  apply (closeconn_waits_for_tls_close slot5 fresh
           (Sys 1 (map R_int
                     [TLS_WANT_POLLIN; TLS_WANT_POLLIN; TLS_WANT_POLLOUT]) [])
           [TLS_WANT_POLLIN; TLS_WANT_POLLIN; TLS_WANT_POLLOUT]).
  - repeat constructor.
  - reflexivity.
Defined.

(** A notification with [POLLHUP] (and no error bit) closes the
    connection whatever its state: no [tls_read] or [tls_write] is
    attempted and the client, with whatever it still holds, is left as it
    was. *)
Theorem hangup_closes_in_any_state pfd c s wants r q :
  Z.land (revents pfd) (Z.lor POLLERR POLLNVAL) = 0 ->
  Z.land (revents pfd) POLLHUP <> 0 ->
  Forall (fun i => is_want i = true) wants -> is_want r = false ->
  pending s = map R_int wants ++ R_int r :: q ->
  handle_client pfd c s
  = (Done (Pollfd (-1) (events pfd) 0, c),
     Sys 0 q
       (trace s ++ map (E_tls_close (ctx c)) wants
          ++ [E_tls_close (ctx c) r; E_tls_free (ctx c); E_close (fd pfd)])).
Proof.
  intros He Hh Hw Hr Hq. unfold handle_client. rewrite He.
  apply Z.eqb_neq in Hh. rewrite Hh. cbn [Z.eqb negb].
  rewrite bind_run, (closeconn_run pfd c s wants r q Hw Hr Hq). reflexivity.
Qed.

Lemma hangup_closes_in_any_state_witness :
  handle_client (set_revents POLLHUP slot5_out) half_peeked
    (Sys 1 (map R_int [] ++ R_int 0 :: []) [])
  = (Done (Pollfd (-1) (events (set_revents POLLHUP slot5_out)) 0,
           half_peeked),
     Sys 0 []
       ([] ++ map (E_tls_close (ctx half_peeked)) []
          ++ [E_tls_close (ctx half_peeked) 0; E_tls_free (ctx half_peeked);
              E_close (fd (set_revents POLLHUP slot5_out))])).
Proof.
  apply (hangup_closes_in_any_state (set_revents POLLHUP slot5_out)
           half_peeked (Sys 1 (map R_int [] ++ R_int 0 :: []) []) [] 0 []).
  - reflexivity.
  - discriminate.
  - constructor.
  - reflexivity.
  - reflexivity.
Defined.

Lemma client_get_twice c outlen :
  Z.of_nat (length (buf c)) = BUFLEN ->
  in_buf (readptr c) -> in_buf (writeptr c) -> 0 <= outlen ->
  exists out,
    client_get c outlen = Some (peeked c (readptr c) out, out) /\
    Z.of_nat (length out) = Z.min outlen (used c) /\
    client_get (peeked c (readptr c) out) outlen
    = Some (peeked c (readptr c) out, out).
Proof.
  intros Hlen Hr Hw Hout.
  destruct (client_get_spec c outlen Hlen Hr Hw Hout)
    as (out & Hrun & Hn & Hbytes).
  exists out. split; [exact Hrun|]. split; [exact Hn|].
  set (c' := peeked c (readptr c) out).
  assert (Hf : readptr c' = readptr c /\ writeptr c' = writeptr c /\
               buf c' = buf c).
  { subst c'. destruct out; cbn; auto. }
  destruct Hf as (Hr' & Hw' & Hb').
  destruct (client_get_spec c' outlen) as (out2 & Hrun2 & Hn2 & Hbytes2);
    [rewrite Hb'; exact Hlen | rewrite Hr'; exact Hr
    | rewrite Hw'; exact Hw | exact Hout |].
  assert (Hu : used c' = used c) by (unfold used; rewrite Hr', Hw'; reflexivity).
  rewrite Hu in Hn2. rewrite Hb', Hr' in Hbytes2. rewrite Hr' in Hrun2.
  assert (Heq : out2 = out).
  { apply list_eq. intros i. destruct (decide (i < length out)%nat) as [Hi|Hi].
    - rewrite <- Hbytes by exact Hi. rewrite <- Hbytes2 by lia. reflexivity.
    - rewrite !lookup_ge_None_2 by lia. reflexivity. }
  subst out2. rewrite Hrun2. f_equal. f_equal.
  subst c'. destruct out; reflexivity.
Qed.

(** The events a retry request asks for. *)
Lemma is_want_cases i :
  is_want i = true -> i = TLS_WANT_POLLIN \/ i = TLS_WANT_POLLOUT.
Proof.
  unfold is_want. intros H. apply orb_true_iff in H as [H|H];
    apply Z.eqb_eq in H; auto.
Qed.

(** A retry request from the channel is no error.  On [tls_read] it only
    switches the requested events ([POLLIN | POLLHUP] for
    [TLS_WANT_POLLIN], [POLLOUT | POLLHUP] for [TLS_WANT_POLLOUT]) and the
    connection stays in [STATE_READING] with its buffer untouched.  On
    [tls_write] it does the same, the connection stays in
    [STATE_WRITING], nothing is consumed, and the next [client_get] hands
    out the very same bytes for the retry. *)
Theorem retry_request_only_switches_events :
  (forall pfd c s ret data q,
     state c = STATE_READING ->
     ready (events pfd) (revents pfd) ->
     pending s = R_read ret data :: q ->
     is_want ret = true ->
     handle_client pfd c s
     = (Done (set_events
                (Z.lor (if ret =? TLS_WANT_POLLIN then POLLIN else POLLOUT)
                   POLLHUP) pfd, c),
        Sys (throttle s) q (trace s ++ [E_tls_read (ctx c) BUFLEN ret]))) /\
  (forall pfd c s ret q,
     state c = STATE_WRITING ->
     ready (events pfd) (revents pfd) ->
     Z.of_nat (length (buf c)) = BUFLEN ->
     in_buf (readptr c) -> in_buf (writeptr c) ->
     readptr c <> writeptr c ->
     pending s = R_int ret :: q ->
     is_want ret = true ->
     exists c1 out,
       out <> [] /\
       handle_client pfd c s
       = (Done (set_events
                  (Z.lor (if ret =? TLS_WANT_POLLIN then POLLIN else POLLOUT)
                     POLLHUP) pfd, c1),
          Sys (throttle s) q (trace s ++ [E_tls_write (ctx c) out ret])) /\
       state c1 = STATE_WRITING /\
       readptr c1 = readptr c /\ writeptr c1 = writeptr c /\
       buf c1 = buf c /\
       client_get c1 BUFLEN = Some (c1, out)).
Proof.
  split.
  - intros pfd c s ret data q Hst Hrdy Hq Hwant.
    rewrite (handle_client_ready _ _ _ Hrdy), Hst.
    change (STATE_READING =? STATE_READING) with true. cbv iota.
    unfold handle_reading. rewrite bind_run. unfold tls_read. rewrite Hq.
    destruct (is_want_cases ret Hwant) as [->| ->]; reflexivity.
  - intros pfd c s ret q Hst Hrdy Hlen Hr Hw Hne Hq Hwant.
    destruct (client_get_twice c BUFLEN Hlen Hr Hw) as (out & Hget & Hn & Hagain);
      [unfold BUFLEN; lia|].
    pose proof (used_range c) as Hu.
    assert (Hpos : 0 < used c).
    { unfold used, in_buf, BUFLEN in *. Z.div_mod_to_equations. lia. }
    rewrite Z.min_r in Hn by lia.
    set (c1 := peeked c (readptr c) out) in *.
    assert (Hf : state c1 = state c /\ readptr c1 = readptr c /\
                 writeptr c1 = writeptr c /\ buf c1 = buf c /\
                 ctx c1 = ctx c).
    { subst c1. destruct out; cbn; auto. }
    destruct Hf as (Hs1 & Hr1 & Hw1 & Hb1 & Hc1).
    exists c1, out. split; [intros ->; cbn [length] in Hn; lia|].
    split; [|rewrite Hs1; auto].
    rewrite (handle_client_ready _ _ _ Hrdy), Hst.
    change (STATE_WRITING =? STATE_READING) with false.
    change (STATE_WRITING =? STATE_WRITING) with true. cbv iota.
    unfold handle_writing. rewrite Hget. cbv zeta.
    replace (Z.of_nat (length out) =? 0) with false
      by (symmetry; apply Z.eqb_neq; lia).
    cbn [negb]. rewrite bind_run, bind_run.
    unfold tls_write, call_int. rewrite Hq, Hc1.
    destruct (is_want_cases ret Hwant) as [->| ->].
    + change (TLS_WANT_POLLIN =? TLS_WANT_POLLIN) with true. cbv iota.
      unfold mret at 1, M_ret at 1. cbv iota beta.
      replace (TLS_WANT_POLLIN =? Z.of_nat (length out)) with false
        by (symmetry; apply Z.eqb_neq; unfold TLS_WANT_POLLIN; lia).
      reflexivity.
    + change (TLS_WANT_POLLOUT =? TLS_WANT_POLLIN) with false.
      change (TLS_WANT_POLLOUT =? TLS_WANT_POLLOUT) with true. cbv iota.
      unfold mret at 1, M_ret at 1. cbv iota beta.
      replace (TLS_WANT_POLLOUT =? Z.of_nat (length out)) with false
        by (symmetry; apply Z.eqb_neq; unfold TLS_WANT_POLLOUT; lia).
      reflexivity.
Qed.

Lemma retry_request_only_switches_events_witness :
  handle_client (set_revents POLLIN slot5) fresh
    (Sys 0 [R_read TLS_WANT_POLLOUT []] [])
  = (Done (set_events
             (Z.lor (if TLS_WANT_POLLOUT =? TLS_WANT_POLLIN
                     then POLLIN else POLLOUT) POLLHUP)
             (set_revents POLLIN slot5), fresh),
     Sys 0 [] ([] ++ [E_tls_read (ctx fresh) BUFLEN TLS_WANT_POLLOUT])) /\
  exists c1 out,
    out <> [] /\
    handle_client (set_revents POLLOUT slot5_out) half_peeked
      (Sys 0 [R_int TLS_WANT_POLLIN] [])
    = (Done (set_events
               (Z.lor (if TLS_WANT_POLLIN =? TLS_WANT_POLLIN
                       then POLLIN else POLLOUT) POLLHUP)
               (set_revents POLLOUT slot5_out), c1),
       Sys 0 [] ([] ++ [E_tls_write (ctx half_peeked) out TLS_WANT_POLLIN])) /\
    state c1 = STATE_WRITING /\
    readptr c1 = readptr half_peeked /\ writeptr c1 = writeptr half_peeked /\
    buf c1 = buf half_peeked /\
    client_get c1 BUFLEN = Some (c1, out).
Proof.
  split.
  - apply (proj1 retry_request_only_switches_events
             (set_revents POLLIN slot5) fresh
             (Sys 0 [R_read TLS_WANT_POLLOUT []] []) TLS_WANT_POLLOUT [] []).
    + reflexivity.
    + ready_evt.
    + reflexivity.
    + reflexivity.
  - apply (proj2 retry_request_only_switches_events
             (set_revents POLLOUT slot5_out) half_peeked
             (Sys 0 [R_int TLS_WANT_POLLIN] []) TLS_WANT_POLLIN []).
    + reflexivity.
    + ready_evt.
    + vm_compute. reflexivity.
    + unfold in_buf. vm_compute. split; congruence.
    + unfold in_buf. vm_compute. split; congruence.
    + vm_compute. discriminate.
    + reflexivity.
    + reflexivity.
Defined.

(** On a connection whose read and write cursor are in the array, a read
    that brings more bytes than the buffer has free closes the
    connection: [client_put] fills the buffer to its [BUFLEN - 1] bytes,
    returns less than [len], and [handle_client] warns and calls
    [closeconn]. *)
Theorem oversized_read_closes pfd c s len data wants r q :
  state c = STATE_READING ->
  ready (events pfd) (revents pfd) ->
  Z.of_nat (length (buf c)) = BUFLEN ->
  in_buf (readptr c) -> in_buf (writeptr c) ->
  free c < len <= Z.of_nat (length data) ->
  Forall (fun i => is_want i = true) wants -> is_want r = false ->
  pending s = R_read len data :: map R_int wants ++ R_int r :: q ->
  exists c1,
    handle_client pfd c s
    = (Done (Pollfd (-1) (events pfd) 0, c1),
       Sys 0 q
         (trace s
            ++ [E_tls_read (ctx c) BUFLEN len; E_warn "client buffer failed"]
            ++ map (E_tls_close (ctx c)) wants
            ++ [E_tls_close (ctx c) r; E_tls_free (ctx c); E_close (fd pfd)]))
    /\ used c1 = BUFLEN - 1.
Proof.
  intros Hst Hrdy Hlen Hr Hw Hfit Hwants Hrw Hq.
  pose proof (free_range c) as Hf. pose proof (free_used c Hr Hw) as Hfu.
  destruct (client_put_spec c data len Hlen Hr Hw)
    as (c1 & Hput & _ & Hr1 & _ & Hc1 & Hw1 & _); [lia|].
  rewrite Z.min_r in Hput, Hw1 by lia.
  exists c1. split.
  - rewrite (handle_client_ready _ _ _ Hrdy), Hst.
    change (STATE_READING =? STATE_READING) with true. cbv iota.
    unfold handle_reading. rewrite bind_run. unfold tls_read. rewrite Hq.
    replace (len =? TLS_WANT_POLLIN) with false
      by (symmetry; apply Z.eqb_neq; unfold TLS_WANT_POLLIN; lia).
    replace (len =? TLS_WANT_POLLOUT) with false
      by (symmetry; apply Z.eqb_neq; unfold TLS_WANT_POLLOUT; lia).
    replace (len <? 0) with false by (symmetry; apply Z.ltb_ge; lia).
    replace (len =? 0) with false by (symmetry; apply Z.eqb_neq; lia).
    rewrite Hput.
    replace (free c =? len) with false by (symmetry; apply Z.eqb_neq; lia).
    cbn [negb]. unfold warn, emit. rewrite bind_run, bind_run.
    cbn [throttle pending trace].
    rewrite (closeconn_run pfd c1 _ wants r q Hwants Hrw) by reflexivity.
    cbn [throttle pending trace]. unfold mret, M_ret.
    rewrite Hc1, <- !app_assoc. reflexivity.
  - unfold used. rewrite Hr1, Hw1. unfold free, in_buf, BUFLEN in *.
    Z.div_mod_to_equations. lia.
Qed.

Lemma oversized_read_closes_witness :
  exists c1,
    handle_client (set_revents POLLIN slot5) fresh
      (Sys 0 (R_read BUFLEN (replicate (Z.to_nat BUFLEN) Byte.x61)
                :: map R_int [] ++ R_int 0 :: []) [])
    = (Done (Pollfd (-1) (events (set_revents POLLIN slot5)) 0, c1),
       Sys 0 []
         ([] ++ [E_tls_read (ctx fresh) BUFLEN BUFLEN;
                 E_warn "client buffer failed"]
            ++ map (E_tls_close (ctx fresh)) []
            ++ [E_tls_close (ctx fresh) 0; E_tls_free (ctx fresh);
                E_close (fd (set_revents POLLIN slot5))]))
    /\ used c1 = BUFLEN - 1.
Proof.
  apply (oversized_read_closes (set_revents POLLIN slot5) fresh
           (Sys 0 (R_read BUFLEN (replicate (Z.to_nat BUFLEN) Byte.x61)
                     :: map R_int [] ++ R_int 0 :: []) [])
           BUFLEN (replicate (Z.to_nat BUFLEN) Byte.x61) [] 0 []).
  - reflexivity.
  - ready_evt.
  - vm_compute. reflexivity.
  - unfold in_buf. vm_compute. split; congruence.
  - unfold in_buf. vm_compute. split; congruence.
  - rewrite length_replicate. vm_compute. split; [reflexivity|discriminate].
  - constructor.
  - reflexivity.
  - reflexivity.
Defined.

Lemma claim_slot_ok j p newfd g s r cctx fl r2 q c :
  pending s = R_accept_socket r cctx :: R_int fl :: R_int r2 :: q ->
  r <> -1 -> 0 <= fl -> 0 <= r2 ->
  clients g !! Z.to_nat j = Some c ->
  claim_slot j p newfd g s
  = (Done (Table (<[Z.to_nat j := client_init c cctx]> (clients g))
             (<[Z.to_nat j := Pollfd newfd (Z.lor POLLIN POLLHUP) 0]>
                (pollfds g))),
     Sys 0 q
       (trace s ++ [E_tls_accept_socket newfd r; E_fcntl_getfl newfd fl;
                    E_fcntl_setfl newfd r2])).
Proof.
  intros Hq Hr Hfl Hr2 Hc.
  unfold claim_slot, set_throttle. rewrite bind_run, bind_run.
  unfold tls_accept_socket. cbn [pending]. rewrite Hq.
  apply Z.eqb_neq in Hr. rewrite Hr.
  rewrite bind_run. unfold newconn. rewrite bind_run.
  unfold fcntl_getfl, fcntl_setfl, call_int. cbn [pending throttle trace].
  replace (fl <? 0) with false by (symmetry; apply Z.ltb_ge; lia).
  rewrite bind_run. cbn [pending throttle trace].
  replace (r2 <? 0) with false by (symmetry; apply Z.ltb_ge; lia).
  unfold mret, M_ret. rewrite Hc.
  rewrite <- !app_assoc. reflexivity.
Qed.

Lemma eof_closes pfd c s data wants r q :
  state c = STATE_READING ->
  ready (events pfd) (revents pfd) ->
  Forall (fun i => is_want i = true) wants -> is_want r = false ->
  pending s = R_read 0 data :: map R_int wants ++ R_int r :: q ->
  handle_client pfd c s
  = (Done (Pollfd (-1) (events pfd) 0, c),
     Sys 0 q
       (trace s ++ [E_tls_read (ctx c) BUFLEN 0]
          ++ map (E_tls_close (ctx c)) wants
          ++ [E_tls_close (ctx c) r; E_tls_free (ctx c); E_close (fd pfd)])).
Proof.
  intros Hst Hrdy Hw Hr Hq.
  rewrite (handle_client_ready _ _ _ Hrdy), Hst.
  change (STATE_READING =? STATE_READING) with true. cbv iota.
  unfold handle_reading. rewrite bind_run. unfold tls_read. rewrite Hq.
  change (0 =? TLS_WANT_POLLIN) with false.
  change (0 =? TLS_WANT_POLLOUT) with false.
  change (0 <? 0) with false. change (0 =? 0) with true. cbv iota.
  rewrite bind_run.
  rewrite (closeconn_run pfd c _ wants r q Hw Hr) by reflexivity.
  cbn [throttle pending trace]. unfold mret, M_ret.
  rewrite <- !app_assoc. reflexivity.
Qed.

(** End of stream on a reading connection closes it, and the slot is
    free for the very next [accept]: with every lower slot taken, the new
    connection gets this slot, its descriptor, [POLLIN | POLLHUP], and a
    client reset by [client_init] whatever the old cursors were. *)
Theorem eof_frees_slot_for_next_accept
  g s i p c l data wants r newfd ra cctx fl r2 q :
  MAX_CONNECTIONS <= Z.of_nat (length (pollfds g)) ->
  1 <= Z.of_nat i < MAX_CONNECTIONS ->
  pollfds g !! 0%nat = Some l ->
  pollfds g !! i = Some p -> clients g !! i = Some c ->
  occupied g 1 (Z.of_nat i) ->
  state c = STATE_READING ->
  ready (events p) (revents p) ->
  Forall (fun k => is_want k = true) wants -> is_want r = false ->
  0 <= newfd -> ra <> -1 -> 0 <= fl -> 0 <= r2 ->
  pending s
  = R_read 0 data :: map R_int wants
      ++ R_int r :: R_int newfd :: R_accept_socket ra cctx
           :: R_int fl :: R_int r2 :: q ->
  exists g1 s1 s2,
    handle_client_at i g s = (Done g1, s1) /\
    throttle s1 = 0 /\ free_slot g1 (Z.of_nat i) /\
    clients g1 = clients g /\
    accept_conn g1 s1
    = (Done (Table (<[i := client_init c cctx]> (clients g))
               (<[i := Pollfd newfd (Z.lor POLLIN POLLHUP) 0]> (pollfds g))),
       s2) /\
    throttle s2 = 0 /\ pending s2 = q.
Proof.
  intros Hlen Hi Hl Hp Hc Hocc Hst Hrdy Hw Hr Hfd Hra Hfl Hr2 Hq.
  set (rest := R_int newfd :: R_accept_socket ra cctx
                 :: R_int fl :: R_int r2 :: q) in *.
  pose proof (eof_closes p c s data wants r rest Hst Hrdy Hw Hr Hq) as Hrun.
  set (s1 := Sys 0 rest _) in Hrun.
  set (g1 := Table (<[i := c]> (clients g))
               (<[i := Pollfd (-1) (events p) 0]> (pollfds g))).
  assert (Hat : handle_client_at i g s = (Done g1, s1)).
  { unfold handle_client_at. rewrite Hp, Hc, bind_run, Hrun. reflexivity. }
  assert (Hi0 : i <> 0%nat) by lia.
  assert (Hli : (i < length (pollfds g))%nat) by (unfold MAX_CONNECTIONS in *; lia).
  assert (Hff : first_free g1 (Z.of_nat i) (Pollfd (-1) (events p) 0)).
  { unfold first_free. split; [exact Hi|]. split.
    - intros j' Hj'. destruct (Hocc j' Hj') as (p0 & Hp0 & Hf0).
      exists p0. split; [|exact Hf0]. subst g1. cbn [pollfds].
      rewrite list_lookup_insert_ne by lia. exact Hp0.
    - subst g1. cbn [pollfds]. rewrite Nat2Z.id.
      rewrite list_lookup_insert_eq by exact Hli. auto. }
  assert (Hl1 : pollfds g1 !! 0%nat = Some l).
  { subst g1. cbn [pollfds]. rewrite list_lookup_insert_ne by lia. exact Hl. }
  assert (Hc1 : clients g1 = clients g).
  { subst g1. cbn [clients]. apply list_insert_id. exact Hc. }
  eexists g1, s1, _. split; [exact Hat|]. split; [reflexivity|].
  split.
  { destruct Hff as (H1 & _ & H2 & H3). split; [exact H1|]. eauto. }
  split; [exact Hc1|].
  rewrite (accept_conn_first_free g1 s1 l newfd
             (R_accept_socket ra cctx :: R_int fl :: R_int r2 :: q)
             (Z.of_nat i) _ Hl1 eq_refl Hfd Hff).
  rewrite (claim_slot_ok _ _ _ _ _ ra cctx fl r2 q c);
    [|reflexivity|exact Hra|exact Hfl|exact Hr2
     |rewrite Nat2Z.id, Hc1; exact Hc].
  rewrite Nat2Z.id, Hc1. subst g1. cbn [pollfds].
  rewrite list_insert_insert_eq. split; [reflexivity|]. split; reflexivity.
Qed.

Lemma eof_frees_slot_for_next_accept_witness :
  exists g1 s1 s2,
    handle_client_at 1 (one_conn POLLIN)
      (Sys 1 (R_read 0 [] :: map R_int []
                ++ R_int 0 :: R_int 9 :: R_accept_socket 0 44
                     :: R_int 0 :: R_int 0 :: []) [])
    = (Done g1, s1) /\
    throttle s1 = 0 /\ free_slot g1 (Z.of_nat 1) /\
    clients g1 = clients (one_conn POLLIN) /\
    accept_conn g1 s1
    = (Done (Table (<[1%nat := client_init fresh 44]>
                      (clients (one_conn POLLIN)))
               (<[1%nat := Pollfd 9 (Z.lor POLLIN POLLHUP) 0]>
                  (pollfds (one_conn POLLIN)))),
       s2) /\
    throttle s2 = 0 /\ pending s2 = [].
Proof.
  apply (eof_frees_slot_for_next_accept (one_conn POLLIN)
           (Sys 1 (R_read 0 [] :: map R_int []
                     ++ R_int 0 :: R_int 9 :: R_accept_socket 0 44
                          :: R_int 0 :: R_int 0 :: []) [])
           1%nat (set_revents POLLIN slot5) fresh listener [] [] 0 9 0 44
           0 0 []).
  - vm_compute. discriminate.
  - unfold MAX_CONNECTIONS. lia.
  - reflexivity.
  - reflexivity.
  - reflexivity.
  - intros j' Hj'. lia.
  - reflexivity.
  - ready_evt.
  - constructor.
  - reflexivity.
  - lia.
  - lia.
  - lia.
  - lia.
  - reflexivity.
Defined.

End MachineExtras.

(** ** More on the dispatcher *)

Section DispatcherExtras.

Lemma handle_client_idle pfd c s :
  revents pfd = 0 -> handle_client pfd c s = (Done (pfd, c), s).
Proof. intros H. unfold handle_client. rewrite H. reflexivity. Qed.

Lemma handle_from_idle k : forall i g s,
  (forall j, (i <= j < i + k)%nat ->
     exists p c, pollfds g !! j = Some p /\ clients g !! j = Some c /\
                 revents p = 0) ->
  handle_from k i g s = (Done g, s).
Proof.
  induction k as [|k IH]; intros i g s Hidle; [reflexivity|].
  cbn [handle_from]. rewrite bind_run.
  destruct (Hidle i) as (p & c & Hp & Hc & Hrev); [lia|].
  unfold handle_client_at. rewrite Hp, Hc, bind_run.
  rewrite (handle_client_idle p c s Hrev). unfold mret at 1, M_ret at 1.
  rewrite (list_insert_id _ _ _ Hp), (list_insert_id _ _ _ Hc).
  replace (Table (clients g) (pollfds g)) with g by (destruct g; reflexivity).
  apply IH. intros j Hj. apply Hidle. lia.
Qed.

Lemma handle_client_at_cases i g s p c :
  pollfds g !! i = Some p -> clients g !! i = Some c ->
  Z.land (revents p) (Z.lor POLLERR POLLNVAL) = 0 ->
  (exists p' c' s',
     handle_client_at i g s
     = (Done (Table (<[i := c']> (clients g)) (<[i := p']> (pollfds g))), s')
     /\ (throttle s' = throttle s \/ throttle s' = 0)) \/
  (exists s', (handle_client_at i g s = (Fault, s') \/
               handle_client_at i g s = (Blocked, s')) /\
              throttle s' = throttle s).
Proof.
  intros Hp Hc He. pose proof (handle_client_settled p c s He) as Hs.
  unfold settled in Hs. unfold handle_client_at. rewrite Hp, Hc, bind_run.
  destruct (handle_client p c s) as [[[p' c']|code| |] s']; cbn [fst snd] in *.
  - left. exists p', c', s'. split; [reflexivity|].
    destruct Hs as [[H _]|[H _]]; auto.
  - destruct Hs.
  - right. exists s'. auto.
  - right. exists s'. auto.
Qed.

Lemma scan_occupied k : forall i g s newfd,
  occupied g i (i + Z.of_nat k) ->
  scan k i newfd g s = (Done g, s).
Proof.
  induction k as [|k IH]; intros i g s newfd Hocc; [reflexivity|].
  cbn [scan]. destruct ((0 <=? newfd) && (i <? MAX_CONNECTIONS));
    [|reflexivity].
  destruct (Hocc i) as (p & Hp & Hf); [lia|].
  rewrite Hp. apply Z.eqb_neq in Hf. rewrite Hf.
  apply IH. intros j Hj. apply Hocc. lia.
Qed.

(** With every connection slot taken, the accept path makes no call but
    [accept] itself: the accepted descriptor is stored nowhere and is not
    closed, the table is as it was and the throttle is set. *)
Theorem accept_into_full_table_drops_descriptor g s l newfd q :
  pollfds g !! 0%nat = Some l ->
  occupied g 1 MAX_CONNECTIONS ->
  pending s = R_int newfd :: q ->
  accept_conn g s
  = (Done g, Sys 1 q (trace s ++ [E_accept (fd l) newfd])).
Proof.
  intros Hl Hocc Hq. rewrite (accept_conn_run _ _ _ _ _ Hl Hq).
  apply scan_occupied. exact Hocc.
Qed.

Lemma full_table_occupied : occupied full_table 1 MAX_CONNECTIONS.
Proof.
  intros j Hj. unfold MAX_CONNECTIONS in Hj.
  exists (busy_slot (Z.to_nat (j - 1))). unfold full_table. cbn [pollfds].
  replace (Z.to_nat j) with (S (Z.to_nat (j - 1))) by lia.
  cbn [lookup list_lookup].
  change ((busy_slot <$> seq 0 255) !! Z.to_nat (j - 1)
            = Some (busy_slot (Z.to_nat (j - 1))) /\
          fd (busy_slot (Z.to_nat (j - 1))) <> -1).
  rewrite list_lookup_fmap, lookup_seq_lt by lia.
  split; [reflexivity|]. cbn [fd busy_slot]. lia.
Qed.

Lemma accept_into_full_table_drops_descriptor_witness :
  accept_conn full_table (Sys 0 [R_int 300] [])
  = (Done full_table, Sys 1 [] ([] ++ [E_accept (fd listener) 300])).
Proof.
  apply (accept_into_full_table_drops_descriptor full_table
           (Sys 0 [R_int 300] []) listener 300 []).
  - reflexivity.
  - exact full_table_occupied.
  - reflexivity.
Defined.

(** When the handshake on a new connection has succeeded and one of the
    two [fcntl] calls of [newconn] fails, the whole process ends with
    status 1; the slot is not claimed. *)
Theorem fcntl_failure_ends_process g s l newfd j p r cctx :
  pollfds g !! 0%nat = Some l ->
  0 <= newfd -> first_free g j p -> r <> -1 ->
  (forall fl q,
     pending s = R_int newfd :: R_accept_socket r cctx :: R_int fl :: q ->
     fl < 0 ->
     accept_conn g s
     = (Exit 1,
        Sys 0 q
          (trace s ++ [E_accept (fd l) newfd; E_tls_accept_socket newfd r;
                       E_fcntl_getfl newfd fl; E_err "fcntl failed"]))) /\
  (forall fl r2 q,
     pending s
     = R_int newfd :: R_accept_socket r cctx :: R_int fl :: R_int r2 :: q ->
     0 <= fl -> r2 < 0 ->
     accept_conn g s
     = (Exit 1,
        Sys 0 q
          (trace s ++ [E_accept (fd l) newfd; E_tls_accept_socket newfd r;
                       E_fcntl_getfl newfd fl; E_fcntl_setfl newfd r2;
                       E_err "fcntl failed"]))).
Proof.
  intros Hl Hfd Hff Hr. apply Z.eqb_neq in Hr. split.
  - intros fl q Hq Hfl.
    rewrite (accept_conn_first_free _ _ _ _ _ _ _ Hl Hq Hfd Hff).
    unfold claim_slot, set_throttle. rewrite bind_run, bind_run.
    unfold tls_accept_socket. cbn [pending]. rewrite Hr.
    rewrite bind_run. unfold newconn. rewrite bind_run.
    unfold fcntl_getfl, call_int. cbn [pending throttle trace].
    replace (fl <? 0) with true by (symmetry; apply Z.ltb_lt; lia).
    unfold err, emit, exit. rewrite bind_run. cbn [pending throttle trace].
    rewrite <- !app_assoc. reflexivity.
  - intros fl r2 q Hq Hfl Hr2.
    rewrite (accept_conn_first_free _ _ _ _ _ _ _ Hl Hq Hfd Hff).
    unfold claim_slot, set_throttle. rewrite bind_run, bind_run.
    unfold tls_accept_socket. cbn [pending]. rewrite Hr.
    rewrite bind_run. unfold newconn. rewrite bind_run.
    unfold fcntl_getfl, fcntl_setfl, call_int. cbn [pending throttle trace].
    replace (fl <? 0) with false by (symmetry; apply Z.ltb_ge; lia).
    rewrite bind_run. cbn [pending throttle trace].
    replace (r2 <? 0) with true by (symmetry; apply Z.ltb_lt; lia).
    unfold err, emit, exit. rewrite bind_run. cbn [pending throttle trace].
    rewrite <- !app_assoc. reflexivity.
Qed.

Lemma empty_table_first_free : first_free empty_table 1 free_pfd.
Proof.
  unfold first_free, occupied, MAX_CONNECTIONS.
  split_and!; try reflexivity; lia.
Qed.

Lemma fcntl_failure_ends_process_witness :
  let s := Sys 0 [R_int 7; R_accept_socket 0 44; R_int (-1)] [] in
  (forall fl q,
     pending s = R_int 7 :: R_accept_socket 0 44 :: R_int fl :: q ->
     fl < 0 ->
     accept_conn empty_table s
     = (Exit 1,
        Sys 0 q
          (trace s ++ [E_accept (fd listener) 7; E_tls_accept_socket 7 0;
                       E_fcntl_getfl 7 fl; E_err "fcntl failed"]))) /\
  (forall fl r2 q,
     pending s
     = R_int 7 :: R_accept_socket 0 44 :: R_int fl :: R_int r2 :: q ->
     0 <= fl -> r2 < 0 ->
     accept_conn empty_table s
     = (Exit 1,
        Sys 0 q
          (trace s ++ [E_accept (fd listener) 7; E_tls_accept_socket 7 0;
                       E_fcntl_getfl 7 fl; E_fcntl_setfl 7 r2;
                       E_err "fcntl failed"]))).
Proof.
  apply (fcntl_failure_ends_process empty_table
           (Sys 0 [R_int 7; R_accept_socket 0 44; R_int (-1)] [])
           listener 7 1 free_pfd 0 44).
  - reflexivity.
  - lia.
  - exact empty_table_first_free.
  - discriminate.
Defined.

Lemma poll_ok g s r revs q :
  pending s = R_poll r revs :: q -> r <> -1 ->
  length revs = length (pollfds g) ->
  poll g s
  = (Done (Table (clients g) (zip_with set_revents revs (pollfds g))),
     Sys (throttle s) q (trace s ++ [E_poll r])).
Proof.
  intros Hq Hr Hlen. unfold poll. rewrite Hq.
  apply Z.eqb_neq in Hr. rewrite Hr, Hlen, Nat.eqb_refl. reflexivity.
Qed.

(** A failing [poll] ends the process with status 1 before anything is
    accepted or any connection is handled. *)
Theorem poll_failure_ends_process g s l revs q :
  pollfds g !! 0%nat = Some l ->
  pending s = R_poll (-1) revs :: q ->
  loop_body g s
  = (Exit 1,
     Sys (throttle s) q (trace s ++ [E_poll (-1); E_err "poll failed"])).
Proof.
  intros Hl Hq. unfold loop_body. rewrite bind_run.
  unfold arm_listener. rewrite Hl. rewrite bind_run.
  unfold poll. rewrite Hq. change (-1 =? -1) with true. cbv iota.
  unfold err, emit, exit. rewrite bind_run. cbn [throttle pending trace].
  rewrite <- !app_assoc. reflexivity.
Qed.

Lemma poll_failure_ends_process_witness :
  loop_body (one_conn 0) (Sys 0 [R_poll (-1) []; R_read 5 hello] [])
  = (Exit 1,
     Sys 0 [R_read 5 hello] ([] ++ [E_poll (-1); E_err "poll failed"])).
Proof.
  apply (poll_failure_ends_process (one_conn 0)
           (Sys 0 [R_poll (-1) []; R_read 5 hello] []) listener []
           [R_read 5 hello]).
  - reflexivity.
  - reflexivity.
Defined.

(** The table after [poll]: every slot keeps its descriptor and its
    requested events, the listening slot apart. *)
Lemma polled_lookup g thr l revs j p rv :
  pollfds g !! 0%nat = Some l -> j <> 0%nat ->
  pollfds g !! j = Some p -> revs !! j = Some rv ->
  zip_with set_revents revs
    (<[0%nat := set_events (listen_events thr) l]> (pollfds g)) !! j
  = Some (set_revents rv p).
Proof.
  intros Hl Hj Hp Hrv. rewrite lookup_zip_with, Hrv.
  rewrite list_lookup_insert_ne by congruence. rewrite Hp. reflexivity.
Qed.

Lemma polled_listener g thr l revs rv :
  pollfds g !! 0%nat = Some l -> revs !! 0%nat = Some rv ->
  zip_with set_revents revs
    (<[0%nat := set_events (listen_events thr) l]> (pollfds g)) !! 0%nat
  = Some (set_revents rv (set_events (listen_events thr) l)).
Proof.
  intros Hl Hrv. rewrite lookup_zip_with, Hrv.
  rewrite list_lookup_insert_eq by (apply lookup_lt_is_Some; eauto).
  reflexivity.
Qed.

(** A turn of the loop in which [poll] reports nothing for any slot
    makes no other call: nothing is accepted, no connection is touched,
    and the only change to the table is the listening slot's requested
    events, set from the throttle. *)
Theorem quiet_turn_only_polls g s l r revs q :
  Z.of_nat (length (pollfds g)) = MAX_CONNECTIONS ->
  Z.of_nat (length (clients g)) = MAX_CONNECTIONS ->
  pollfds g !! 0%nat = Some l ->
  pending s = R_poll r revs :: q -> r <> -1 ->
  length revs = length (pollfds g) ->
  Forall (fun rv => rv = 0) revs ->
  loop_body g s
  = (Done (Table (clients g)
             (zip_with set_revents revs
                (<[0%nat := set_events (listen_events (throttle s)) l]>
                   (pollfds g)))),
     Sys (throttle s) q (trace s ++ [E_poll r])).
Proof.
  intros Hlp Hlc Hl Hq Hr Hlen Hzero.
  unfold loop_body. rewrite bind_run. unfold arm_listener. rewrite Hl.
  rewrite bind_run.
  set (g1 := Table (clients g) (<[0%nat := _]> (pollfds g))).
  rewrite (poll_ok g1 s r revs q Hq Hr)
    by (subst g1; cbn [pollfds]; rewrite length_insert; exact Hlen).
  set (g2 := Table _ _). set (s2 := Sys _ _ _).
  assert (Hrv : forall j, (j < length revs)%nat -> revs !! j = Some 0).
  { intros j Hj. destruct (lookup_lt_is_Some_2 revs j Hj) as [rv Hrv].
    rewrite Hrv. f_equal. exact (proj1 (Forall_lookup _ revs) Hzero j rv Hrv). }
  assert (H0 : pollfds g2 !! 0%nat
               = Some (set_revents 0
                         (set_events (listen_events (throttle s)) l))).
  { subst g2 g1. cbn [pollfds clients].
    apply polled_listener; [exact Hl|]. apply Hrv.
    unfold MAX_CONNECTIONS in *. lia. }
  rewrite bind_run, H0. cbn [revents set_revents Z.eqb negb].
  unfold mret at 1, M_ret at 1.
  apply handle_from_idle. intros j Hj.
  change (Z.to_nat (MAX_CONNECTIONS - 1)) with 255%nat in Hj.
  unfold MAX_CONNECTIONS in *.
  destruct (lookup_lt_is_Some_2 (pollfds g) j) as [p Hp]; [lia|].
  destruct (lookup_lt_is_Some_2 (clients g) j) as [c Hc]; [lia|].
  exists (set_revents 0 p), c. subst g2 g1. cbn [pollfds clients].
  split; [|auto].
  apply polled_lookup; try assumption; [lia|]. apply Hrv. lia.
Qed.

Lemma quiet_turn_only_polls_witness :
  let s := Sys 1 [R_poll 0 (replicate 256 0)] [] in
  loop_body (one_conn 0) s
  = (Done (Table (clients (one_conn 0))
             (zip_with set_revents (replicate 256 0)
                (<[0%nat := set_events (listen_events (throttle s)) listener]>
                   (pollfds (one_conn 0))))),
     Sys (throttle s) [] (trace s ++ [E_poll 0])).
Proof.
  apply (quiet_turn_only_polls (one_conn 0)
           (Sys 1 [R_poll 0 (replicate 256 0)] []) listener 0
           (replicate 256 0) []).
  - vm_compute. reflexivity.
  - vm_compute. reflexivity.
  - reflexivity.
  - reflexivity.
  - discriminate.
  - vm_compute. reflexivity.
  - apply Forall_replicate. reflexivity.
Defined.

(** A turn of the loop in which only the listening slot is ready, the
    handshake succeeds and both [fcntl] calls succeed: the new connection
    takes the first free slot with a client reset by [client_init], the
    throttle is clear, and the sweep of the same turn makes no call for
    it; it is first served after the next [poll]. *)
Theorem new_connection_waits_for_next_poll
  g s l j p c r rl zeros newfd ra cctx fl r2 q :
  Z.of_nat (length (pollfds g)) = MAX_CONNECTIONS ->
  Z.of_nat (length (clients g)) = MAX_CONNECTIONS ->
  pollfds g !! 0%nat = Some l ->
  first_free g j p -> clients g !! Z.to_nat j = Some c ->
  r <> -1 -> rl <> 0 -> Forall (fun rv => rv = 0) zeros ->
  length (rl :: zeros) = length (pollfds g) ->
  0 <= newfd -> ra <> -1 -> 0 <= fl -> 0 <= r2 ->
  pending s
  = R_poll r (rl :: zeros) :: R_int newfd :: R_accept_socket ra cctx
      :: R_int fl :: R_int r2 :: q ->
  loop_body g s
  = (Done (Table (<[Z.to_nat j := client_init c cctx]> (clients g))
             (<[Z.to_nat j := Pollfd newfd (Z.lor POLLIN POLLHUP) 0]>
                (zip_with set_revents (rl :: zeros)
                   (<[0%nat := set_events (listen_events (throttle s)) l]>
                      (pollfds g))))),
     Sys 0 q
       (trace s ++ [E_poll r; E_accept (fd l) newfd;
                    E_tls_accept_socket newfd ra; E_fcntl_getfl newfd fl;
                    E_fcntl_setfl newfd r2])).
Proof.
  intros Hlp Hlc Hl Hff Hc Hr Hrl Hzero Hlen Hfd Hra Hfl Hr2 Hq.
  destruct Hff as (Hj & Hocc & Hp & Hfree).
  unfold loop_body. rewrite bind_run. unfold arm_listener. rewrite Hl.
  rewrite bind_run.
  set (g1 := Table (clients g) (<[0%nat := _]> (pollfds g))).
  rewrite (poll_ok g1 s r (rl :: zeros) _ Hq Hr)
    by (subst g1; cbn [pollfds]; rewrite length_insert; exact Hlen).
  set (g2 := Table _ _). set (s2 := Sys _ _ _).
  assert (Hrv : forall k, (1 <= k < length (pollfds g))%nat ->
                          (rl :: zeros) !! k = Some 0).
  { intros k Hk. destruct k as [|k]; [lia|]. cbn [lookup list_lookup].
    cbn [length] in Hlen.
    destruct (lookup_lt_is_Some_2 zeros k) as [rv Hrv]; [lia|].
    change (zeros !! k = Some 0). rewrite Hrv. f_equal.
    exact (proj1 (Forall_lookup _ zeros) Hzero k rv Hrv). }
  assert (Hslot : forall k pk, (1 <= k)%nat -> pollfds g !! k = Some pk ->
                    pollfds g2 !! k = Some (set_revents 0 pk)).
  { intros k pk Hk Hpk. subst g2 g1. cbn [pollfds clients].
    apply polled_lookup; try assumption; [lia|]. apply Hrv.
    apply lookup_lt_Some in Hpk. lia. }
  assert (H0 : pollfds g2 !! 0%nat
               = Some (set_revents rl
                         (set_events (listen_events (throttle s)) l))).
  { subst g2 g1. cbn [pollfds clients].
    apply polled_listener; [exact Hl|reflexivity]. }
  rewrite bind_run, H0. cbn [revents set_revents].
  apply Z.eqb_neq in Hrl. rewrite Hrl. cbn [negb].
  assert (Hff2 : first_free g2 j (set_revents 0 p)).
  { unfold first_free. split; [exact Hj|]. split; [|split].
    - intros j' Hj'. destruct (Hocc j' Hj') as (p0 & Hp0 & Hf0).
      exists (set_revents 0 p0). split; [|exact Hf0].
      apply Hslot; [lia|exact Hp0].
    - apply Hslot; [lia|exact Hp].
    - exact Hfree. }
  rewrite (accept_conn_first_free g2 s2
             (set_revents rl (set_events (listen_events (throttle s)) l))
             newfd (R_accept_socket ra cctx :: R_int fl :: R_int r2 :: q)
             j _ H0 eq_refl Hfd Hff2).
  rewrite (claim_slot_ok _ _ _ _ _ ra cctx fl r2 q c);
    [|reflexivity|exact Hra|exact Hfl|exact Hr2|exact Hc].
  subst s2. cbn [throttle pending trace fd set_revents set_events].
  rewrite <- !app_assoc. cbn [app].
  set (g3 := Table _ _). set (s3 := Sys _ _ _).
  apply handle_from_idle. intros k Hk.
  change (Z.to_nat (MAX_CONNECTIONS - 1)) with 255%nat in Hk.
  unfold MAX_CONNECTIONS in *.
  destruct (decide (k = Z.to_nat j)) as [->|Hne].
  - exists (Pollfd newfd (Z.lor POLLIN POLLHUP) 0), (client_init c cctx).
    subst g3 g2 g1. cbn [pollfds clients].
    rewrite list_lookup_insert_eq
      by (rewrite length_zip_with, length_insert; cbn [length] in *; lia).
    rewrite list_lookup_insert_eq by lia. auto.
  - destruct (lookup_lt_is_Some_2 (pollfds g) k) as [pk Hpk]; [lia|].
    destruct (lookup_lt_is_Some_2 (clients g) k) as [ck Hck]; [lia|].
    exists (set_revents 0 pk), ck. subst g3. cbn [pollfds clients].
    rewrite !list_lookup_insert_ne by congruence.
    split; [|auto]. apply Hslot; [lia|exact Hpk].
Qed.

Lemma new_connection_waits_for_next_poll_witness :
  let s := Sys 0 [R_poll 1 (POLLIN :: replicate 255 0); R_int 7;
                  R_accept_socket 0 44; R_int 0; R_int 0] [] in
  loop_body empty_table s
  = (Done (Table (<[Z.to_nat 1 := client_init fresh 44]> (clients empty_table))
             (<[Z.to_nat 1 := Pollfd 7 (Z.lor POLLIN POLLHUP) 0]>
                (zip_with set_revents (POLLIN :: replicate 255 0)
                   (<[0%nat := set_events (listen_events (throttle s))
                                 listener]>
                      (pollfds empty_table))))),
     Sys 0 []
       (trace s ++ [E_poll 1; E_accept (fd listener) 7;
                    E_tls_accept_socket 7 0; E_fcntl_getfl 7 0;
                    E_fcntl_setfl 7 0])).
Proof.
  apply (new_connection_waits_for_next_poll empty_table
           (Sys 0 [R_poll 1 (POLLIN :: replicate 255 0); R_int 7;
                   R_accept_socket 0 44; R_int 0; R_int 0] [])
           listener 1 free_pfd fresh 1 POLLIN (replicate 255 0) 7 0 44 0 0 []).
  - vm_compute. reflexivity.
  - vm_compute. reflexivity.
  - reflexivity.
  - exact empty_table_first_free.
  - reflexivity.
  - discriminate.
  - discriminate.
  - apply Forall_replicate. reflexivity.
  - vm_compute. reflexivity.
  - lia.
  - discriminate.
  - lia.
  - lia.
  - reflexivity.
Defined.

Lemma init_from_spec k : forall i pfds,
  (i + k = length pfds)%nat ->
  init_from k i pfds = take i pfds ++ replicate k free_pfd.
Proof.
  induction k as [|k IH]; intros i pfds Hlen.
  - cbn [init_from replicate]. rewrite app_nil_r, take_ge by lia. reflexivity.
  - cbn [init_from]. rewrite IH by (rewrite length_insert; lia).
    rewrite (take_S_r _ _ free_pfd)
      by (apply list_lookup_insert_eq; lia).
    rewrite take_insert_ge by lia.
    rewrite <- app_assoc. reflexivity.
Qed.

(** What [main] hands to its loop: whatever the table held, the
    initialising loop leaves every slot free and asking for
    [POLLIN | POLLHUP], [newconn] puts the listening descriptor in slot 0,
    the clients are not touched, and slot 1 is the first one an [accept]
    will claim. *)
Theorem start_polling_frees_every_slot g s listenfd fl r2 q :
  Z.of_nat (length (pollfds g)) = MAX_CONNECTIONS ->
  pending s = R_int fl :: R_int r2 :: q -> 0 <= fl -> 0 <= r2 ->
  exists g0,
    start_polling g listenfd s
    = (Done g0,
       Sys (throttle s) q
         (trace s ++ [E_fcntl_getfl listenfd fl; E_fcntl_setfl listenfd r2]))
    /\
    pollfds g0
    = Pollfd listenfd (Z.lor POLLIN POLLHUP) 0 :: replicate 255 free_pfd /\
    clients g0 = clients g /\
    first_free g0 1 free_pfd.
Proof.
  intros Hlen Hq Hfl Hr2.
  assert (Hinit : init_pollfds (pollfds g) = replicate 256 free_pfd).
  { unfold init_pollfds. change (Z.to_nat MAX_CONNECTIONS) with 256%nat.
    rewrite init_from_spec by (unfold MAX_CONNECTIONS in Hlen; lia).
    reflexivity. }
  exists (Table (clients g)
            (Pollfd listenfd (Z.lor POLLIN POLLHUP) 0
               :: replicate 255 free_pfd)).
  split; [|split; [reflexivity|split; [reflexivity|]]].
  - unfold start_polling. rewrite Hinit. cbv zeta.
    change (replicate 256 free_pfd !! 0%nat) with (Some free_pfd). cbv iota.
    rewrite bind_run. unfold newconn. rewrite bind_run.
    unfold fcntl_getfl, fcntl_setfl, call_int. rewrite Hq.
    replace (fl <? 0) with false by (symmetry; apply Z.ltb_ge; lia).
    rewrite bind_run. cbn [pending throttle trace].
    replace (r2 <? 0) with false by (symmetry; apply Z.ltb_ge; lia).
    unfold mret, M_ret. rewrite <- !app_assoc. reflexivity.
  - unfold first_free, occupied, MAX_CONNECTIONS. cbn [pollfds].
    split_and!; try reflexivity; lia.
Qed.

Lemma start_polling_frees_every_slot_witness :
  let s := Sys 0 [R_int 2; R_int 0] [] in
  exists g0,
    start_polling full_table 3 s
    = (Done g0,
       Sys (throttle s) []
         (trace s ++ [E_fcntl_getfl 3 2; E_fcntl_setfl 3 0]))
    /\
    pollfds g0
    = Pollfd 3 (Z.lor POLLIN POLLHUP) 0 :: replicate 255 free_pfd /\
    clients g0 = clients full_table /\
    first_free g0 1 free_pfd.
Proof.
  apply (start_polling_frees_every_slot full_table
           (Sys 0 [R_int 2; R_int 0] []) 3 2 0 []).
  - vm_compute. reflexivity.
  - reflexivity.
  - lia.
  - lia.
Defined.

End DispatcherExtras.

(** ** The buffer once the read cursor has left the array *)

Section Unwrapped.

(** [client_put] with the read cursor at or past the end of the array:
    the write cursor, which wraps, never meets it, so nothing stops the
    copy. *)
Lemma put_loop_unwrapped k : forall c inbuf n,
  Z.of_nat (length (buf c)) = BUFLEN ->
  BUFLEN <= readptr c -> in_buf (writeptr c) ->
  (k <= length inbuf)%nat -> Z.of_nat k <= BUFLEN ->
  exists c',
    put_loop k c (writeptr c) inbuf n = Some (c', n + Z.of_nat k) /\
    readptr c' = readptr c /\ nextptr c' = nextptr c /\
    writeptr c' = (writeptr c + Z.of_nat k) mod BUFLEN /\
    Z.of_nat (length (buf c')) = BUFLEN /\
    forall off, in_buf off ->
      load (buf c') off =
      if (off - writeptr c) mod BUFLEN <? Z.of_nat k
      then inbuf !! Z.to_nat ((off - writeptr c) mod BUFLEN)
      else load (buf c) off.
Proof.
  induction k as [|k IH]; intros c inbuf n Hlen Hr Hw Hk Hkb.
  - exists c. cbn [put_loop]. rewrite !Z.add_0_r.
    split_and!; try reflexivity; try assumption.
    + symmetry. apply Z.mod_small. exact Hw.
    + intros off Hoff.
      destruct ((off - writeptr c) mod BUFLEN <? Z.of_nat 0) eqn:E;
        [|reflexivity].
      apply Z.ltb_lt in E. unfold BUFLEN in E. Z.div_mod_to_equations. lia.
  - cbn [put_loop]. pose proof (bump_eq _ Hw) as Hb.
    pose proof (bump_in_buf _ Hw) as Hbi.
    replace (bump (writeptr c) =? readptr c) with false
      by (symmetry; apply Z.eqb_neq; unfold in_buf in Hbi; lia).
    destruct inbuf as [|b inbuf']; [cbn in Hk; lia|].
    rewrite (store_in_buf _ _ b Hlen Hw).
    set (c1 := set_writeptr (bump (writeptr c))
                 (set_buf (<[Z.to_nat (writeptr c) := b]> (buf c)) c)).
    assert (Hlen1 : Z.of_nat (length (buf c1)) = BUFLEN).
    { subst c1. cbn. rewrite length_insert. exact Hlen. }
    destruct (IH c1 inbuf' (n + 1) Hlen1 Hr Hbi)
      as (c' & Hrun & Hrd & Hnx & Hwr & Hl' & Hcont);
      [cbn in Hk; lia | lia |].
    exists c'. change (writeptr c1) with (bump (writeptr c)) in *.
    rewrite Hrun. split_and!; try assumption.
    + f_equal. f_equal. lia.
    + rewrite Hwr. unfold in_buf, BUFLEN in *.
      destruct (writeptr c + 1 =? 4096) eqn:E'; rewrite Hb;
        Z.div_mod_to_equations; lia.
    + intros off Hoff. rewrite (Hcont off Hoff).
      change (buf c1) with (<[Z.to_nat (writeptr c) := b]> (buf c)).
      rewrite (load_insert _ _ _ _ Hlen Hw Hoff).
      destruct (off =? writeptr c) eqn:Eo.
      * apply Z.eqb_eq in Eo. subst off.
        rewrite Z.sub_diag. change (0 mod BUFLEN) with 0.
        replace (0 <? Z.of_nat (S k)) with true
          by (symmetry; apply Z.ltb_lt; lia).
        replace ((writeptr c - bump (writeptr c)) mod BUFLEN <? Z.of_nat k)
          with false; [reflexivity|].
        symmetry. apply Z.ltb_ge. unfold in_buf, BUFLEN in *.
        destruct (writeptr c + 1 =? 4096) eqn:E'; rewrite Hb;
          Z.div_mod_to_equations; lia.
      * apply Z.eqb_neq in Eo.
        assert (Hd : (off - bump (writeptr c)) mod BUFLEN
                     = (off - writeptr c) mod BUFLEN - 1
                     /\ 1 <= (off - writeptr c) mod BUFLEN).
        { unfold in_buf, BUFLEN in *.
          destruct (writeptr c + 1 =? 4096) eqn:E'; rewrite Hb;
            Z.div_mod_to_equations; lia. }
        destruct Hd as [Hd Hd1]. rewrite Hd.
        set (d := (off - writeptr c) mod BUFLEN) in *.
        destruct (Z.ltb_spec (d - 1) (Z.of_nat k));
          destruct (Z.ltb_spec d (Z.of_nat (S k))); try lia; [|reflexivity].
        replace (Z.to_nat d) with (S (Z.to_nat (d - 1))) by lia.
        reflexivity.
Qed.

Lemma client_put_unwrapped c inbuf inlen :
  Z.of_nat (length (buf c)) = BUFLEN ->
  BUFLEN <= readptr c -> in_buf (writeptr c) ->
  0 <= inlen <= Z.of_nat (length inbuf) -> inlen <= BUFLEN ->
  exists c',
    client_put c inbuf inlen = Some (c', inlen) /\
    readptr c' = readptr c /\ nextptr c' = nextptr c /\
    writeptr c' = (writeptr c + inlen) mod BUFLEN /\
    Z.of_nat (length (buf c')) = BUFLEN /\
    forall off, in_buf off ->
      load (buf c') off =
      if (off - writeptr c) mod BUFLEN <? inlen
      then inbuf !! Z.to_nat ((off - writeptr c) mod BUFLEN)
      else load (buf c) off.
Proof.
  intros Hlen Hr Hw Hin Hb. unfold client_put.
  destruct (put_loop_unwrapped (Z.to_nat inlen) c inbuf 0 Hlen Hr Hw)
    as (c' & H); [lia | lia |].
  rewrite Z2Nat.id in H by lia. rewrite Z.add_0_l in H.
  exists c'. exact H.
Qed.

(** C8 at the failing input: the calls of [round_trip] leave nothing
    unread and the read cursor one past the end of the array.  From
    there [client_put] takes 4096 bytes at once, more than the
    [BUFLEN - 1] bytes that are free and that a buffer may hold.  And
    after a [client_put] of 4095 bytes, when no byte is free and offset 0
    holds the first unread byte [x63], a [client_put] of two more bytes
    returns 2, not 0, and offset 0 holds [x65]. *)
Theorem client_put_overruns_unread :
  exists t c1 c2 c3,
    exec round_trip start = Some t /\
    cursors (cl t) BUFLEN 0 0 /\ total_consumed t = total_put t /\
    free (cl t) = BUFLEN - 1 /\
    client_put (cl t) (replicate 4096 Byte.x63) 4096 = Some (c1, 4096) /\
    client_put (cl t) (replicate 4095 Byte.x63) 4095 = Some (c2, 4095) /\
    free c2 = 0 /\ load (buf c2) 0 = Some Byte.x63 /\
    client_put c2 [Byte.x64; Byte.x65] 2 = Some (c3, 2) /\
    load (buf c3) 0 = Some Byte.x65.
Proof.
  destruct round_trip_cursors as (t & Hrun & C & P & U).
  pose proof C as (Hr & Hw & Hp & Hlen).
  assert (Hiw : in_buf (writeptr (cl t))).
  { rewrite Hw. unfold in_buf, BUFLEN. lia. }
  destruct (client_put_unwrapped (cl t) (replicate 4096 Byte.x63) 4096 Hlen)
    as (c1 & Hput1 & _);
    [lia | exact Hiw | rewrite length_replicate; lia | unfold BUFLEN; lia |].
  destruct (client_put_unwrapped (cl t) (replicate 4095 Byte.x63) 4095 Hlen)
    as (c2 & Hput2 & Hr2 & _ & Hw2 & Hlen2 & Hcont2);
    [lia | exact Hiw | rewrite length_replicate; lia | unfold BUFLEN; lia |].
  rewrite Hw in Hw2, Hcont2. rewrite Hr in Hr2.
  change ((0 + 4095) mod BUFLEN) with 4095 in Hw2.
  assert (Hiw2 : in_buf (writeptr c2)).
  { rewrite Hw2. unfold in_buf, BUFLEN. lia. }
  destruct (client_put_unwrapped c2 [Byte.x64; Byte.x65] 2 Hlen2)
    as (c3 & Hput3 & _ & _ & _ & _ & Hcont3);
    [rewrite Hr2; lia | exact Hiw2 | cbn [length]; lia | unfold BUFLEN; lia |].
  rewrite Hw2 in Hcont3.
  assert (H0 : in_buf 0) by (unfold in_buf, BUFLEN; lia).
  exists t, c1, c2, c3. split_and!; try assumption.
  - lia.
  - unfold free. rewrite Hr, Hw. reflexivity.
  - unfold free. rewrite Hr2, Hw2. reflexivity.
  - rewrite (Hcont2 0 H0). change ((0 - 0) mod BUFLEN <? 4095) with true.
    cbv iota. change (Z.to_nat ((0 - 0) mod BUFLEN)) with 0%nat.
    apply lookup_replicate_2. lia.
  - rewrite (Hcont3 0 H0). reflexivity.
Qed.

End Unwrapped.

(** ** Connections whose cursors are in the array *)

Section InRange.

Ltac case_len :=
  match goal with
  | |- context [?a =? Z.of_nat (length ?l)] =>
      destruct (a =? Z.of_nat (length l))
  end.

Lemma reads_filled_tail rp q : reads_filled (rp :: q) -> reads_filled q.
Proof. unfold reads_filled. intros H. apply Forall_cons in H as [_ H]. exact H. Qed.

Lemma close_retry_filled k tls : forall s,
  reads_filled (pending s) ->
  fst (close_retry k tls s) <> Fault /\
  reads_filled (pending (snd (close_retry k tls s))).
Proof.
  induction k as [|k IH]; intros s Hf.
  - cbn. split; [discriminate|exact Hf].
  - cbn [close_retry]. rewrite bind_run. unfold tls_close, call_int.
    destruct (pending s) as [|[r| | | ] q] eqn:E;
      try (cbn [fst snd]; rewrite E; split; [discriminate|exact Hf]).
    apply reads_filled_tail in Hf.
    destruct (is_want r).
    + apply IH. exact Hf.
    + cbn. split; [discriminate|exact Hf].
Qed.

(** [closeconn] reads and writes no buffer. *)
Lemma closeconn_filled pfd c (c' : client) s :
  reads_filled (pending s) ->
  fst ((pfd' ← closeconn pfd c; mret (pfd', c')) s) <> Fault /\
  reads_filled (pending (snd ((pfd' ← closeconn pfd c; mret (pfd', c')) s))).
Proof.
  intros Hf. rewrite bind_run. unfold closeconn. rewrite bind_run.
  destruct (close_retry_filled (length (pending s)) (ctx c) s Hf) as [Hnf Hq].
  destruct (close_retry (length (pending s)) (ctx c) s) as [[[]|code| |] s1];
    cbn [fst snd] in *.
  - unfold tls_free, close, emit, set_throttle. rewrite !bind_run.
    cbn. split; [discriminate|exact Hq].
  - split; [discriminate|exact Hq].
  - congruence.
  - split; [discriminate|exact Hq].
Qed.

Lemma handle_reading_filled pfd c s :
  in_range c -> reads_filled (pending s) ->
  fst (handle_reading pfd c s) <> Fault /\
  reads_filled (pending (snd (handle_reading pfd c s))).
Proof.
  intros (Hlen & Hr & Hw) Hf. unfold handle_reading. rewrite bind_run.
  unfold tls_read.
  destruct (pending s) as [|[r|r data| | ] q] eqn:E;
    try (cbn [fst snd]; rewrite E; split; [discriminate|exact Hf]).
  pose proof Hf as Hhd. apply Forall_cons in Hhd as [Hhd _].
  apply reads_filled_tail in Hf.
  set (s1 := Sys (throttle s) q (trace s ++ [E_tls_read (ctx c) BUFLEN r])).
  change q with (pending s1) in Hf.
  destruct (r =? TLS_WANT_POLLIN); [split; [discriminate|exact Hf]|].
  destruct (r =? TLS_WANT_POLLOUT); [split; [discriminate|exact Hf]|].
  destruct (Z.ltb_spec r 0); [split; [discriminate|exact Hf]|].
  destruct (r =? 0); [apply closeconn_filled; exact Hf|].
  destruct (client_put_spec c data r Hlen Hr Hw) as (c' & Hput & _); [lia|].
  rewrite Hput.
  destruct (negb (Z.min r (free c) =? r)); [|split; [discriminate|exact Hf]].
  unfold warn, emit. rewrite bind_run.
  apply closeconn_filled. exact Hf.
Qed.

Lemma handle_writing_filled pfd c s :
  in_range c -> reads_filled (pending s) ->
  fst (handle_writing pfd c s) <> Fault /\
  reads_filled (pending (snd (handle_writing pfd c s))).
Proof.
  intros (Hlen & Hr & Hw) Hf. unfold handle_writing.
  destruct (client_get_spec c BUFLEN Hlen Hr Hw) as (out & Hget & _);
    [unfold BUFLEN; lia|].
  rewrite Hget. cbv zeta. destruct (negb (Z.of_nat (length out) =? 0)).
  - rewrite bind_run, bind_run. unfold tls_write, call_int.
    destruct (pending s) as [|[r| | | ] q] eqn:E;
      try (cbn [fst snd]; rewrite E; split; [discriminate|exact Hf]).
    apply reads_filled_tail in Hf.
    destruct (r =? TLS_WANT_POLLIN).
    { cbn. case_len; split; solve [discriminate|exact Hf]. }
    destruct (r =? TLS_WANT_POLLOUT).
    { cbn. case_len; split; solve [discriminate|exact Hf]. }
    destruct (r <? 0).
    { unfold warn, emit. rewrite bind_run. cbn.
      case_len; split; solve [discriminate|exact Hf]. }
    cbn. case_len; split; solve [discriminate|exact Hf].
  - cbn. destruct (Z.of_nat (length out)); split; solve [discriminate|exact Hf].
Qed.

(** Without an error bit, on a connection whose cursors are in the array
    (or for which [poll] reported nothing), [handle_client] touches no
    memory outside the buffer. *)
Lemma handle_client_filled pfd c s :
  Z.land (revents pfd) (Z.lor POLLERR POLLNVAL) = 0 ->
  revents pfd = 0 \/ in_range c ->
  reads_filled (pending s) ->
  fst (handle_client pfd c s) <> Fault /\
  reads_filled (pending (snd (handle_client pfd c s))).
Proof.
  intros He [H0|Hin] Hf.
  { unfold handle_client. rewrite H0. cbn. split; [discriminate|exact Hf]. }
  unfold handle_client. rewrite He. cbn [Z.eqb negb].
  destruct (negb (Z.land (revents pfd) POLLHUP =? 0)).
  { apply closeconn_filled. exact Hf. }
  destruct (negb (Z.land (revents pfd) (events pfd) =? 0));
    [|split; [discriminate|exact Hf]].
  destruct (state c =? STATE_READING);
    [apply handle_reading_filled; assumption|].
  destruct (state c =? STATE_WRITING);
    [apply handle_writing_filled; assumption|].
  split; [discriminate|exact Hf].
Qed.

Lemma closeconn_closes pfd c s :
  closes (pending s) ->
  exists s', closeconn pfd c s = (Done (Pollfd (-1) (events pfd) 0), s').
Proof.
  intros (wants & e & q' & Hq & Hw & He).
  rewrite (closeconn_run pfd c s wants e q' Hw He Hq). eexists. reflexivity.
Qed.

(** When the replies answer its calls, [handle_client] on a connection
    whose cursors are in the array returns. *)
Lemma handle_client_answered pfd c s :
  Z.land (revents pfd) (Z.lor POLLERR POLLNVAL) = 0 ->
  in_range c -> answered pfd c (pending s) ->
  exists p' c' s', handle_client pfd c s = (Done (p', c'), s').
Proof.
  intros He (Hlen & Hr & Hw) Ha. unfold handle_client, answered in *.
  rewrite He. cbn [Z.eqb negb].
  destruct (negb (Z.land (revents pfd) POLLHUP =? 0)).
  { rewrite bind_run. destruct (closeconn_closes pfd c s Ha) as (s' & Hrun).
    rewrite Hrun. eexists _, _, _. reflexivity. }
  destruct (negb (Z.land (revents pfd) (events pfd) =? 0));
    [|eexists _, _, _; reflexivity].
  destruct (state c =? STATE_READING).
  { destruct Ha as (r & data & q1 & Hq & Hrd & Hcl).
    unfold handle_reading. rewrite bind_run. unfold tls_read. rewrite Hq.
    set (s1 := Sys (throttle s) q1 (trace s ++ [E_tls_read (ctx c) BUFLEN r])).
    destruct (r =? TLS_WANT_POLLIN); [eexists _, _, _; reflexivity|].
    destruct (r =? TLS_WANT_POLLOUT); [eexists _, _, _; reflexivity|].
    destruct (Z.ltb_spec r 0); [eexists _, _, _; reflexivity|].
    destruct (r =? 0).
    { rewrite bind_run. destruct (closeconn_closes pfd c s1 Hcl) as (s' & Hrun).
      rewrite Hrun. eexists _, _, _. reflexivity. }
    destruct (client_put_spec c data r Hlen Hr Hw) as (c' & Hput & _); [lia|].
    rewrite Hput.
    destruct (negb (Z.min r (free c) =? r)); [|eexists _, _, _; reflexivity].
    unfold warn, emit. rewrite bind_run, bind_run.
    set (s2 := Sys _ _ _).
    destruct (closeconn_closes pfd c' s2 Hcl) as (s' & Hrun).
    rewrite Hrun. eexists _, _, _. reflexivity. }
  destruct (state c =? STATE_WRITING); [|eexists _, _, _; reflexivity].
  unfold handle_writing.
  destruct (client_get_spec c BUFLEN Hlen Hr Hw) as (out & Hget & Hn & _);
    [unfold BUFLEN; lia|].
  rewrite Hget. cbv zeta.
  destruct (Z.eqb_spec (Z.of_nat (length out)) 0) as [Hz|Hnz]; cbn [negb].
  { cbn. rewrite Hz. eexists _, _, _. reflexivity. }
  destruct Ha as [Heq|(ret & q1 & Hq)].
  { exfalso. apply Hnz. rewrite Hn. unfold used. rewrite Heq, Z.sub_diag.
    change (0 mod BUFLEN) with 0. unfold BUFLEN. lia. }
  rewrite bind_run, bind_run. unfold tls_write, call_int. rewrite Hq.
  destruct (ret =? TLS_WANT_POLLIN).
  { cbn. case_len; eexists _, _, _; reflexivity. }
  destruct (ret =? TLS_WANT_POLLOUT).
  { cbn. case_len; eexists _, _, _; reflexivity. }
  destruct (ret <? 0).
  { unfold warn, emit. rewrite bind_run. cbn.
    case_len; eexists _, _, _; reflexivity. }
  cbn. case_len; eexists _, _, _; reflexivity.
Qed.

End InRange.

(** ** One notification, one slot *)

Section OneSlot.

(** C9, as the code has it: a notification with [POLLERR] or [POLLNVAL]
    set ends the process ([errx(1, ...)]).  No other notification makes
    [handle_client] exit; on a connection whose read and write cursor are
    in the array it touches no memory outside the buffer, whatever the
    channel answers, and it returns when the channel answers the calls it
    makes; and the table it returns differs from the table before in the
    notified slot and its client only. *)
Theorem handle_client_at_touches_one_slot i g s p c :
  pollfds g !! i = Some p -> clients g !! i = Some c ->
  (Z.land (revents p) (Z.lor POLLERR POLLNVAL) <> 0 ->
   handle_client_at i g s
   = (Exit 1, Sys (throttle s) (pending s) (trace s ++ [E_err "bad fd"]))) /\
  (Z.land (revents p) (Z.lor POLLERR POLLNVAL) = 0 ->
   (forall code, fst (handle_client_at i g s) <> Exit code) /\
   (in_range c -> reads_filled (pending s) ->
      fst (handle_client_at i g s) <> Fault) /\
   (in_range c -> answered p c (pending s) ->
      exists g', fst (handle_client_at i g s) = Done g') /\
   (forall g', fst (handle_client_at i g s) = Done g' ->
      length (pollfds g') = length (pollfds g) /\
      length (clients g') = length (clients g) /\
      forall j, j <> i ->
        pollfds g' !! j = pollfds g !! j /\
        clients g' !! j = clients g !! j)).
Proof.
  intros Hp Hc. unfold handle_client_at. rewrite Hp, Hc. split.
  - intros He. rewrite bind_run, (handle_client_bad_fd _ _ _ He). reflexivity.
  - intros He. pose proof (handle_client_settled p c s He) as Hs.
    unfold settled in Hs. rewrite bind_run. split_and!.
    + intros code.
      destruct (handle_client p c s) as [[[p' c']|code'| |] s'];
        cbn [fst snd] in *; solve [discriminate|destruct Hs].
    + intros Hin Hf.
      destruct (handle_client_filled p c s He (or_intror Hin) Hf) as [Hnf _].
      destruct (handle_client p c s) as [[[p' c']|code'| |] s'];
        cbn [fst snd] in *; solve [discriminate|congruence].
    + intros Hin Ha.
      destruct (handle_client_answered p c s He Hin Ha)
        as (p' & c' & s' & Hrun).
      rewrite Hrun. eexists. reflexivity.
    + intros g' Hg.
      destruct (handle_client p c s) as [[[p' c']|code'| |] s'];
        cbn [fst snd] in *; try discriminate.
      injection Hg as <-. cbn [pollfds clients].
      rewrite !length_insert. split; [reflexivity|]. split; [reflexivity|].
      intros j Hj. rewrite !list_lookup_insert_ne by congruence.
      split; reflexivity.
Qed.

Lemma in_range_fresh : in_range fresh.
Proof.
  unfold in_range, in_buf, fresh.
  cbn [client_init buf readptr writeptr]. rewrite length_replicate.
  unfold BUFLEN. lia.
Qed.

Lemma handle_client_at_touches_one_slot_witness :
  let g := one_conn POLLIN in
  let s := Sys 0 [R_read 5 hello; R_int 0] [] in
  Z.land (revents (set_revents POLLIN slot5)) (Z.lor POLLERR POLLNVAL) = 0 /\
  in_range fresh /\ reads_filled (pending s) /\
  answered (set_revents POLLIN slot5) fresh (pending s) /\
  (forall code, fst (handle_client_at 1 g s) <> Exit code) /\
  fst (handle_client_at 1 g s) <> Fault /\
  (exists g', fst (handle_client_at 1 g s) = Done g') /\
  (forall g', fst (handle_client_at 1 g s) = Done g' ->
     length (pollfds g') = length (pollfds g) /\
     length (clients g') = length (clients g) /\
     forall j, j <> 1%nat ->
       pollfds g' !! j = pollfds g !! j /\
       clients g' !! j = clients g !! j).
Proof.
  intros g s.
  assert (Hf : reads_filled (pending s)).
  { subst s. unfold reads_filled. cbn [pending].
    repeat constructor. cbn [length hello]. lia. }
  assert (Ha : answered (set_revents POLLIN slot5) fresh (pending s)).
  { subst s. unfold answered. cbn.
    exists 5, hello, [R_int 0]. split; [reflexivity|]. split; [cbn; lia|].
    exists [], 0, []. split; [reflexivity|]. split; [constructor|reflexivity]. }
  destruct (handle_client_at_touches_one_slot 1 g s
              (set_revents POLLIN slot5) fresh eq_refl eq_refl) as [_ H].
  destruct (H eq_refl) as (H1 & H2 & H3 & H4).
  split; [reflexivity|]. split; [exact in_range_fresh|].
  split; [exact Hf|]. split; [exact Ha|]. split; [exact H1|].
  split; [exact (H2 in_range_fresh Hf)|].
  split; [exact (H3 in_range_fresh Ha)|exact H4].
Defined.

End OneSlot.

(** ** The sweep over the table *)

Section Sweep.

Lemma handle_client_at_idle i g s p c :
  pollfds g !! i = Some p -> clients g !! i = Some c -> revents p = 0 ->
  handle_client_at i g s = (Done g, s).
Proof.
  intros Hp Hc Hrev. unfold handle_client_at. rewrite Hp, Hc, bind_run.
  rewrite (handle_client_idle p c s Hrev). unfold mret at 1, M_ret at 1.
  rewrite (list_insert_id _ _ _ Hp), (list_insert_id _ _ _ Hc).
  destruct g; reflexivity.
Qed.

Lemma stirred_insert pfds i p' k : forall j,
  (i < j)%nat -> stirred (<[i := p']> pfds) k j = stirred pfds k j.
Proof.
  induction k as [|k IH]; intros j Hj; [reflexivity|].
  cbn [stirred]. rewrite list_lookup_insert_ne by lia.
  rewrite IH by lia. reflexivity.
Qed.

Lemma stirred_spec pfds k : forall i j,
  (i + k <= length pfds)%nat ->
  j ∈ stirred pfds k i <->
  (i <= j < i + k)%nat /\ exists p, pfds !! j = Some p /\ revents p <> 0.
Proof.
  induction k as [|k IH]; intros i j Hlen.
  - cbn [stirred]. split; [intros H; inversion H|intros [H _]; lia].
  - cbn [stirred].
    destruct (lookup_lt_is_Some_2 pfds i) as [p Hp]; [lia|]. rewrite Hp.
    specialize (IH (S i) j).
    destruct (Z.eqb_spec (revents p) 0) as [Hz|Hnz].
    + rewrite IH by lia. split.
      * intros [Hj Hex]. split; [lia|exact Hex].
      * intros [Hj (pj & Hpj & Hrev)]. split; [|eauto].
        destruct (decide (j = i)) as [->|Hne]; [|lia].
        rewrite Hp in Hpj. injection Hpj as <-. contradiction.
    + rewrite elem_of_cons, IH by lia. split.
      * intros [->|[Hj Hex]]; [split; [lia|eauto]|split; [lia|exact Hex]].
      * intros [Hj Hex].
        destruct (decide (j = i)) as [->|Hne]; [left; reflexivity|].
        right. split; [lia|exact Hex].
Qed.

(** The sweep [for (i = 1; i < MAX_CONNECTIONS; i++) handle_client(...)]
    does what the calls of [handle_client] on the slots whose [revents]
    is not 0 do, taken in slot order and whether the slot is free or
    not: same outcome, same calls, same table.  For a slot whose
    [revents] is 0 nothing is called and nothing changes. *)
Theorem sweep_handles_stirred_slots k : forall i g s,
  (i + k <= length (pollfds g))%nat -> (i + k <= length (clients g))%nat ->
  handle_from k i g s = handle_each (stirred (pollfds g) k i) g s /\
  forall j, j ∈ stirred (pollfds g) k i <->
    (i <= j < i + k)%nat /\
    exists p, pollfds g !! j = Some p /\ revents p <> 0.
Proof.
  intros i g s Hlp Hlc. split; [|intros j; apply stirred_spec; exact Hlp].
  revert i g s Hlp Hlc.
  induction k as [|k IH]; intros i g s Hlp Hlc; [reflexivity|].
  cbn [handle_from stirred].
  destruct (lookup_lt_is_Some_2 (pollfds g) i) as [p Hp]; [lia|].
  destruct (lookup_lt_is_Some_2 (clients g) i) as [c Hc]; [lia|].
  rewrite Hp. destruct (Z.eqb_spec (revents p) 0) as [Hz|Hnz].
  - rewrite bind_run, (handle_client_at_idle i g s p c Hp Hc Hz).
    apply IH; lia.
  - cbn [handle_each]. rewrite !bind_run.
    unfold handle_client_at. rewrite Hp, Hc, bind_run.
    destruct (handle_client p c s) as [[[p' c']|code| |] s']; try reflexivity.
    unfold mret at 1, M_ret at 1.
    rewrite <- (stirred_insert (pollfds g) i p' k (S i)) by lia.
    apply (IH (S i) (Table (<[i:=c']> (clients g)) (<[i:=p']> (pollfds g))));
      cbn [pollfds clients]; rewrite length_insert; lia.
Qed.

Lemma sweep_handles_stirred_slots_witness :
  let s := Sys 0 [R_read 5 hello] [] in
  stirred (pollfds (one_conn POLLIN)) 255 1 = [1%nat] /\
  handle_from 255 1 (one_conn POLLIN) s
  = handle_each (stirred (pollfds (one_conn POLLIN)) 255 1) (one_conn POLLIN) s
  /\ forall j, j ∈ stirred (pollfds (one_conn POLLIN)) 255 1 <->
       (1 <= j < 1 + 255)%nat /\
       exists p, pollfds (one_conn POLLIN) !! j = Some p /\ revents p <> 0.
Proof.
  intros s. split; [reflexivity|].
  apply (sweep_handles_stirred_slots 255 1 (one_conn POLLIN) s).
  - unfold one_conn. cbn [pollfds length]. rewrite length_replicate. lia.
  - unfold one_conn. cbn [clients]. rewrite length_replicate. lia.
Defined.

(** With no [POLLERR] and no [POLLNVAL] among the slots it visits, and
    with the read and write cursor in the array for every connection
    that [poll] reported something for, the sweep neither exits nor
    touches memory outside a buffer, whatever the channels answer; it
    returns or waits for an answer of [tls_close], with the throttle as
    it was or cleared. *)
Theorem sweep_exits_only_on_bad_fd k : forall i g s,
  (forall j, (i <= j < i + k)%nat ->
     exists p c, pollfds g !! j = Some p /\ clients g !! j = Some c /\
                 Z.land (revents p) (Z.lor POLLERR POLLNVAL) = 0 /\
                 (revents p = 0 \/ in_range c)) ->
  reads_filled (pending s) ->
  (forall code, fst (handle_from k i g s) <> Exit code) /\
  fst (handle_from k i g s) <> Fault /\
  (throttle (snd (handle_from k i g s)) = throttle s \/
   throttle (snd (handle_from k i g s)) = 0).
Proof.
  induction k as [|k IH]; intros i g s Hok Hf.
  - cbn. split_and!; [discriminate|discriminate|auto].
  - cbn [handle_from]. rewrite bind_run.
    destruct (Hok i) as (p & c & Hp & Hc & He & Hin); [lia|].
    pose proof (handle_client_settled p c s He) as Hs.
    destruct (handle_client_filled p c s He Hin Hf) as [Hnf Hf'].
    unfold settled in Hs. unfold handle_client_at. rewrite Hp, Hc, bind_run.
    destruct (handle_client p c s) as [[[p' c']|code| |] s'];
      cbn [fst snd] in *.
    + unfold mret at 1, M_ret at 1. set (g' := Table _ _).
      destruct (IH (S i) g' s') as (Hne & Hnf' & Hthr); [|exact Hf'|].
      { intros j Hj.
        destruct (Hok j) as (pj & cj & Hpj & Hcj & Hej & Hinj); [lia|].
        exists pj, cj. subst g'. cbn [pollfds clients].
        rewrite !list_lookup_insert_ne by lia. auto. }
      split; [exact Hne|]. split; [exact Hnf'|].
      destruct Hs as [[Ht _]|[Ht _]]; rewrite Ht in Hthr; auto.
      destruct Hthr; auto.
    + destruct Hs.
    + congruence.
    + cbn. split_and!; [discriminate|discriminate|auto].
Qed.

Lemma one_conn_in_range j :
  (1 <= j < 1 + 255)%nat ->
  exists p c, pollfds (one_conn POLLIN) !! j = Some p /\
              clients (one_conn POLLIN) !! j = Some c /\
              Z.land (revents p) (Z.lor POLLERR POLLNVAL) = 0 /\
              (revents p = 0 \/ in_range c).
Proof.
  intros Hj. unfold one_conn. cbn [pollfds clients].
  destruct j as [|[|j]]; [lia| |].
  - exists (set_revents POLLIN slot5), fresh.
    split_and!; try reflexivity. right. exact in_range_fresh.
  - exists free_pfd, fresh. cbn [lookup list_lookup].
    change (replicate 254 free_pfd !! j = Some free_pfd /\
            replicate 256 fresh !! S (S j) = Some fresh /\
            Z.land (revents free_pfd) (Z.lor POLLERR POLLNVAL) = 0 /\
            (revents free_pfd = 0 \/ in_range fresh)).
    rewrite !lookup_replicate_2 by lia. auto.
Qed.

Lemma sweep_exits_only_on_bad_fd_witness :
  let s := Sys 1 [R_read BUFLEN (replicate 4096 Byte.x61); R_int 0] [] in
  (forall code, fst (handle_from 255 1 (one_conn POLLIN) s) <> Exit code) /\
  fst (handle_from 255 1 (one_conn POLLIN) s) <> Fault /\
  (throttle (snd (handle_from 255 1 (one_conn POLLIN) s)) = throttle s \/
   throttle (snd (handle_from 255 1 (one_conn POLLIN) s)) = 0).
Proof.
  apply (sweep_exits_only_on_bad_fd 255 1 (one_conn POLLIN)
           (Sys 1 [R_read BUFLEN (replicate 4096 Byte.x61); R_int 0] [])).
  - exact one_conn_in_range.
  - unfold reads_filled. cbn [pending]. constructor.
    + rewrite length_replicate. unfold BUFLEN. lia.
    + repeat constructor.
Defined.

End Sweep.
